(** * Dynamics 365 tool layer: request construction, entity resolution,
      token caching and the create-then-refetch gateway

    A shallow embedding of [utils/dynamics_client.py], [tools/accounts.py],
    [tools/contacts.py], [tools/leads.py] and [tools/opportunities.py].

    Conventions of the embedding.
    - A Python [str] is a [string]; one [ascii] stands for one character.
      The bullet of the report lines is written as it is in the source.
    - Python objects that travel through JSON are [value]s; a [dict] is an
      association list in insertion order, looked up by first match.
    - A function that can raise returns a [result]; a function that also
      talks to the outside (identity provider, remote API, token cache file,
      clock) is a computation [M A] over a [world].
    - Everything the outside decides is read from an [environment]: the
      answers of the remote API and of the identity provider as functions of
      the history of calls, and the readings of the clock.
    - [print] calls have no effect that the model records.
    - A Python [float] is a [float] of the kernel: IEEE 754 binary64 with
      round-to-nearest-even, the arithmetic CPython computes with. *)

From Stdlib Require Import String Ascii List ZArith Bool Lia.
From Stdlib Require Import DecimalString Permutation Sorted.
From Stdlib Require Import Floats.
Import ListNotations.
Open Scope string_scope.
Set Warnings "-register-all,-inexact-float".

(* ================================================================== *)
(** * Python values *)
(* ================================================================== *)

Inductive value : Type :=
  | PNone
  | PBool (b : bool)
  | PInt (z : Z)
  | PFloat (f : float)
  | PStr (s : string)
  | PList (l : list value)
  | PDict (d : list (string * value)).

Definition pydict : Type := list (string * value).

Inductive exn : Type :=
  | KeyError (key : string)
  | TypeError
  | AttributeError
  | OverflowError
  | JSONDecodeError
  | RequestException
  | PyException (msg : string).

Inductive result (A : Type) : Type :=
  | Ok (a : A)
  | Raise (e : exn).

Arguments Ok {A} a.
Arguments Raise {A} e.

Definition rbind {A B} (r : result A) (k : A -> result B) : result B :=
  match r with
  | Ok a => k a
  | Raise e => Raise e
  end.

(** [for x in xs: out.append(f(x))], stopping at the first exception. *)
Fixpoint for_each {A B} (f : A -> result B) (xs : list A) : result (list B) :=
  match xs with
  | [] => Ok []
  | x :: rest =>
      rbind (f x) (fun y => rbind (for_each f rest) (fun ys => Ok (y :: ys)))
  end.

(** ** Strings *)

Definition nl : string := String (ascii_of_nat 10) "".

Definition bullet : string := "•".

Definition str_of_nat (n : nat) : string :=
  NilZero.string_of_uint (Nat.to_uint n).

Definition str_of_Z (z : Z) : string :=
  NilZero.string_of_int (Z.to_int z).

(** [c.isspace()] for the characters of the model. *)
Definition isspace (c : ascii) : bool :=
  let n := nat_of_ascii c in
  (((9 <=? n) && (n <=? 13)) || ((28 <=? n) && (n <=? 32))
   || (n =? 133) || (n =? 160))%nat.

Fixpoint lstrip (s : string) : string :=
  match s with
  | EmptyString => EmptyString
  | String c rest => if isspace c then lstrip rest else s
  end.

Fixpoint rstrip (s : string) : string :=
  match s with
  | EmptyString => EmptyString
  | String c rest =>
      match rstrip rest with
      | EmptyString => if isspace c then EmptyString else String c EmptyString
      | r => String c r
      end
  end.

(** [s.strip()] *)
Definition strip (s : string) : string := rstrip (lstrip s).

(** [sep.join(parts)] *)
Fixpoint join (sep : string) (parts : list string) : string :=
  match parts with
  | [] => ""
  | [p] => p
  | p :: rest => p ++ sep ++ join sep rest
  end.

Definition lower_ascii (c : ascii) : ascii :=
  let n := nat_of_ascii c in
  if ((65 <=? n) && (n <=? 90))%nat then ascii_of_nat (n + 32) else c.

Fixpoint lower (s : string) : string :=
  match s with
  | EmptyString => EmptyString
  | String c rest => String (lower_ascii c) (lower rest)
  end.

(** ** Truth value, [len], [str] *)

Definition truthy (v : value) : bool :=
  match v with
  | PNone => false
  | PBool b => b
  | PInt z => negb (z =? 0)%Z
  | PFloat f => negb (f =? 0)%float
  | PStr s => negb (s =? "")
  | PList l => match l with [] => false | _ => true end
  | PDict d => match d with [] => false | _ => true end
  end.

(** [len(v)]; numbers, booleans and [None] have no length. *)
Definition py_len (v : value) : result nat :=
  match v with
  | PStr s => Ok (String.length s)
  | PList l => Ok (List.length l)
  | PDict d => Ok (List.length d)
  | _ => Raise TypeError
  end.

(** [str(v)], as an f-string renders a value.  The text Python gives a
    float or a container is not modelled character by character: it is the
    parameter [repr]. *)
Definition py_str (repr : value -> string) (v : value) : string :=
  match v with
  | PNone => "None"
  | PBool true => "True"
  | PBool false => "False"
  | PInt z => str_of_Z z
  | PStr s => s
  | _ => repr v
  end.

Definition opt_str (o : option string) : value :=
  match o with Some s => PStr s | None => PNone end.

Definition opt_int (o : option Z) : value :=
  match o with Some z => PInt z | None => PNone end.

Definition opt_bool (o : option bool) : value :=
  match o with Some b => PBool b | None => PNone end.

Definition is_not_none (v : value) : bool :=
  match v with PNone => false | _ => true end.

(** ** Dictionaries *)

Fixpoint dict_find (d : pydict) (k : string) : option value :=
  match d with
  | [] => None
  | (k', v) :: rest => if k' =? k then Some v else dict_find rest k
  end.

(** [d[k] = v]: replaces in place, or appends a new key. *)
Fixpoint dict_set (d : pydict) (k : string) (v : value) : pydict :=
  match d with
  | [] => [(k, v)]
  | (k', v') :: rest =>
      if k' =? k then (k', v) :: rest else (k', v') :: dict_set rest k v
  end.

Definition keys (d : pydict) : list string := map fst d.

(** [d[k]] on a dict. *)
Definition dict_getitem (d : pydict) (k : string) : result value :=
  match dict_find d k with
  | Some v => Ok v
  | None => Raise (KeyError k)
  end.

(** [d.get(k)] and [d.get(k, default)] on a dict. *)
Definition dict_get (d : pydict) (k : string) (default : value) : value :=
  match dict_find d k with
  | Some v => v
  | None => default
  end.

(** [v[k]] with a string key, on any value. *)
Definition getitem (v : value) (k : string) : result value :=
  match v with
  | PDict d => dict_getitem d k
  | _ => Raise TypeError
  end.

(** [v.get(k, default)] on any value: only a dict has the method. *)
Definition get_method (v : value) (k : string) (default : value) : result value :=
  match v with
  | PDict d => Ok (dict_get d k default)
  | _ => Raise AttributeError
  end.

Fixpoint chars (s : string) : list value :=
  match s with
  | EmptyString => []
  | String c rest => PStr (String c EmptyString) :: chars rest
  end.

(** The elements a [for] loop over [v] visits. *)
Definition iterate (v : value) : result (list value) :=
  match v with
  | PList l => Ok l
  | PStr s => Ok (chars s)
  | PDict d => Ok (map (fun kv => PStr (fst kv)) d)
  | _ => Raise TypeError
  end.

(** [if cond: d[k] = v] *)
Definition set_when (cond : bool) (d : pydict) (k : string) (v : value) : pydict :=
  if cond then dict_set d k v else d.

(** ** Numbers next to a [float] *)

(** [float(z)] as [float + int] converts the [int]: the nearest double,
    ties to even, and [OverflowError] beyond the range of a double. *)
Definition float_of_int (z : Z) : result float :=
  match binary_normalize prec emax z 0 false with
  | S754_infinity _ => Raise OverflowError
  | f => Ok (SF2Prim f)
  end.

(** The operand that [float + v] and [float - v] compute with: [bool] and
    [int] are converted, anything that is no number is a [TypeError]. *)
Definition as_float (v : value) : result float :=
  match v with
  | PBool b => Ok (if b then 1 else 0)%float
  | PInt z => float_of_int z
  | PFloat f => Ok f
  | _ => Raise TypeError
  end.

(** [z > f] for an [int] and a [float]: Python compares the exact values,
    without converting the [int]; nothing is greater than NaN. *)
Definition int_gt_float (z : Z) (f : float) : bool :=
  match Prim2SF f with
  | S754_nan => false
  | S754_infinity negative => negative
  | S754_zero _ => (0 <? z)%Z
  | S754_finite negative m e =>
      let m := if negative then Zneg m else Zpos m in
      (m * 2 ^ Z.max 0 e <? z * 2 ^ Z.max 0 (- e))%Z
  end.

(** [v > f] with a [float] on the right. *)
Definition gt_float (v : value) (f : float) : result bool :=
  match v with
  | PBool b => Ok (int_gt_float (if b then 1 else 0) f)
  | PInt z => Ok (int_gt_float z f)
  | PFloat g => Ok (f <? g)%float
  | _ => Raise TypeError
  end.

(* ================================================================== *)
(** * The outside world *)
(* ================================================================== *)

Inductive http_method : Type := GET | POST | PATCH.

(** The arguments of one [requests.get] / [requests.post] call. *)
Record request : Type := {
  req_method : http_method;
  req_url : string;
  req_headers : list (string * string);
  req_params : option pydict;
  req_json : option pydict;
  req_timeout : Z
}.

(** What [requests] hands back: a response, or an exception (connection
    refused, timeout).  [resp_json] is what [response.json()] parses, [None]
    when the body is not JSON. *)
Record response : Type := {
  status_code : Z;
  resp_headers : list (string * string);
  resp_json : option value
}.

Inductive http_answer : Type :=
  | Answer (r : response)
  | NoAnswer.

(** Calls that leave the process. *)
Inductive event : Type :=
  | Http (r : request)
  | InteractiveFlow
  | ClientCredentialsFlow.

(** Content of [token_cache.json]. *)
Inductive file_content : Type :=
  | NotJson
  | JsonFile (v : value).

Record world : Type := {
  ticks : nat;
  token_cache_file : option file_content;
  trace : list event
}.

Record environment : Type := {
  AUTH_MODE : string;
  py_repr : value -> string;
  clock : nat -> float;
  acquire_token_interactive : list event -> result pydict;
  acquire_token_for_client : list event -> result pydict;
  remote : list event -> request -> http_answer
}.

Definition log (e : event) (w : world) : world :=
  {| ticks := ticks w;
     token_cache_file := token_cache_file w;
     trace := trace w ++ [e] |}.

Definition tick (w : world) : world :=
  {| ticks := S (ticks w);
     token_cache_file := token_cache_file w;
     trace := trace w |}.

Definition write_file (c : file_content) (w : world) : world :=
  {| ticks := ticks w;
     token_cache_file := Some c;
     trace := trace w |}.

(** ** Computations: state and exceptions *)

Definition M (A : Type) : Type := world -> result A * world.

Definition ret {A} (a : A) : M A := fun w => (Ok a, w).

Definition bind {A B} (c : M A) (k : A -> M B) : M B :=
  fun w =>
    match c w with
    | (Ok a, w') => k a w'
    | (Raise e, w') => (Raise e, w')
    end.

Definition raise {A} (e : exn) : M A := fun w => (Raise e, w).

Definition lift {A} (r : result A) : M A := fun w => (r, w).

(** [try: c  except Exception as e: h e] *)
Definition try_except {A} (c : M A) (h : exn -> M A) : M A :=
  fun w =>
    match c w with
    | (Ok a, w') => (Ok a, w')
    | (Raise e, w') => h e w'
    end.

Declare Scope py_scope.
Delimit Scope py_scope with py.
Notation "x <- c ;; k" := (bind c (fun x => k))
  (at level 61, c at next level, right associativity) : py_scope.
Notation "c ;;; k" := (bind c (fun _ => k))
  (at level 61, right associativity) : py_scope.
Open Scope py_scope.

(* ================================================================== *)
(** * utils/dynamics_client.py *)
(* ================================================================== *)

(** The regular expression [\(([^)]+)\)] of [api_post]. *)

(** The longest prefix without a closing parenthesis, and what follows. *)
Fixpoint span_no_rparen (s : string) : string * string :=
  match s with
  | EmptyString => (EmptyString, EmptyString)
  | String c rest =>
      if Ascii.eqb c ")" then (EmptyString, s)
      else let (run, tail) := span_no_rparen rest in (String c run, tail)
  end.

(** A match of the pattern that starts at the head of [s]: group 1. *)
Definition match_here (s : string) : option string :=
  match s with
  | String c rest =>
      if Ascii.eqb c "(" then
        match span_no_rparen rest with
        | (String g gs, String _ _) => Some (String g gs)
        | _ => None
        end
      else None
  | EmptyString => None
  end.

(** [re.search(r'\(([^)]+)\)', s)], then [group(1)]: leftmost match. *)
Fixpoint re_search_group (s : string) : option string :=
  match match_here s with
  | Some g => Some g
  | None =>
      match s with
      | EmptyString => None
      | String _ rest => re_search_group rest
      end
  end.

(** [response.headers.get(name, default)]: header names compare without case. *)
Fixpoint headers_get (hs : list (string * string)) (name default : string) : string :=
  match hs with
  | [] => default
  | (k, v) :: rest =>
      if lower k =? lower name then v else headers_get rest name default
  end.

(** [response.json()] *)
Definition response_json (r : response) : result value :=
  match resp_json r with
  | Some v => Ok v
  | None => Raise JSONDecodeError
  end.

(** [json.load(f)] on the cache file. *)
Definition json_load (c : file_content) : result value :=
  match c with
  | JsonFile v => Ok v
  | NotJson => Raise JSONDecodeError
  end.

Definition dynamics_url : string := "https://xylos-sb.crm4.dynamics.com".
Definition api_version : string := "v9.2".
Definition base_api_url : string := dynamics_url ++ "/api/data/" ++ api_version.

Section Dynamics365Client.

Variable E : environment.

(** [time.time()] *)
Definition time_time : M float :=
  fun w => (Ok (clock E (ticks w)), tick w).

(** [app.acquire_token_interactive(scopes=...)] *)
Definition msal_interactive : M pydict :=
  fun w => (acquire_token_interactive E (trace w), log InteractiveFlow w).

(** [app.acquire_token_for_client(scopes=...)] *)
Definition msal_for_client : M pydict :=
  fun w => (acquire_token_for_client E (trace w), log ClientCredentialsFlow w).

(** [requests.get] / [requests.post]: one call to the remote API. *)
Definition requests_send (r : request) : M response :=
  fun w =>
    match remote E (trace w) r with
    | Answer resp => (Ok resp, log (Http r) w)
    | NoAnswer => (Raise RequestException, log (Http r) w)
    end.

Definition auth_failed (prefix : string) (result : pydict) : exn :=
  PyException (prefix ++
    py_str (py_repr E) (dict_get result "error_description" (PStr "Unknown error"))).

Definition _get_service_account_token : M value :=
  result <- msal_for_client ;;
  match dict_find result "access_token" with
  | Some token => ret token
  | None => raise (auth_failed "Service auth failed: " result)
  end.

Definition _load_cached_token : M value :=
  fun w =>
    match token_cache_file w with
    | Some content =>
        try_except
          (cache_data <- lift (json_load content) ;;
           expires_on <- lift (get_method cache_data "expires_on" (PInt 0)) ;;
           now <- time_time ;;
           later <- lift (gt_float expires_on (now + 300)%float) ;;
           if later
           then lift (getitem cache_data "access_token")
           else ret PNone)
          (fun _ => ret PNone) w
    | None => (Ok PNone, w)
    end.

Definition _save_token_cache (token_result : pydict) : M unit :=
  now <- time_time ;;
  expires_in <- lift (as_float (dict_get token_result "expires_in" (PInt 3600))) ;;
  let expires_on := (now + expires_in - 300)%float in
  access_token <- lift (dict_getitem token_result "access_token") ;;
  let cache_data :=
    [("access_token", access_token); ("expires_on", PFloat expires_on)] in
  fun w => (Ok tt, write_file (JsonFile (PDict cache_data)) w).

Definition _get_interactive_token : M value :=
  cached_token <- _load_cached_token ;;
  if truthy cached_token then ret cached_token
  else
    result <- msal_interactive ;;
    match dict_find result "access_token" with
    | Some token => _save_token_cache result ;;; ret token
    | None => raise (auth_failed "Interactive auth failed: " result)
    end.

Definition get_access_token : M value :=
  if AUTH_MODE E =? "service_account"
  then _get_service_account_token
  else _get_interactive_token.

Definition get_headers : M (list (string * string)) :=
  access_token <- get_access_token ;;
  ret [("Authorization", "Bearer " ++ py_str (py_repr E) access_token);
       ("OData-MaxVersion", "4.0");
       ("OData-Version", "4.0");
       ("Accept", "application/json");
       ("Content-Type", "application/json; charset=utf-8")].

Definition api_get (endpoint : string) (params : option pydict) : M value :=
  let url := base_api_url ++ "/" ++ endpoint in
  headers <- get_headers ;;
  try_except
    (response <- requests_send
       {| req_method := GET; req_url := url; req_headers := headers;
          req_params := params; req_json := None; req_timeout := 30 |} ;;
     if (status_code response =? 200)%Z
     then lift (response_json response)
     else ret PNone)
    (fun _ => ret PNone).

Definition get_custom_entity_id (endpoint guid id_field : string) : M value :=
  try_except
    (let url := base_api_url ++ "/" ++ endpoint ++ "(" ++ guid ++ ")?$select=" ++ id_field in
     headers <- get_headers ;;
     response <- requests_send
       {| req_method := GET; req_url := url; req_headers := headers;
          req_params := None; req_json := None; req_timeout := 30 |} ;;
     if (status_code response =? 200)%Z
     then
       result <- lift (response_json response) ;;
       custom_id <- lift (get_method result id_field PNone) ;;
       if truthy custom_id then ret custom_id else ret PNone
     else ret PNone)
    (fun _ => ret PNone).

Definition api_post (endpoint : string) (data : pydict) (id_field : string) : M value :=
  let url := base_api_url ++ "/" ++ endpoint in
  headers <- get_headers ;;
  try_except
    (response <- requests_send
       {| req_method := POST; req_url := url; req_headers := headers;
          req_params := None; req_json := Some data; req_timeout := 120 |} ;;
     if (status_code response =? 204)%Z
     then
       let entity_id := headers_get (resp_headers response) "OData-EntityId" "" in
       if negb (entity_id =? "")
       then
         match re_search_group entity_id with
         | Some guid => get_custom_entity_id endpoint guid id_field
         | None => ret PNone
         end
       else ret PNone
     else ret PNone)
    (fun _ => ret PNone).

Definition api_patch (endpoint : string) (data : pydict) : M bool :=
  let url := base_api_url ++ "/" ++ endpoint in
  headers <- get_headers ;;
  try_except
    (response <- requests_send
       {| req_method := PATCH; req_url := url; req_headers := headers;
          req_params := None; req_json := Some data; req_timeout := 30 |} ;;
     ret (status_code response =? 204)%Z)
    (fun _ => ret false).

End Dynamics365Client.

Notation "x <~ r ;; k" := (rbind r (fun x => k))
  (at level 61, r at next level, right associativity) : py_scope.

(** [f"{prefix}{d[k]}" if d.get(k) else ""] *)
Definition info_when_set (repr : value -> string) (d : pydict) (k prefix : string)
  : result string :=
  if truthy (dict_get d k PNone)
  then v <~ dict_getitem d k ;; Ok (prefix ++ py_str repr v)
  else Ok "".

(** [if d.get(k): output.append(f"{prefix}{d[k]}")]: the lines appended. *)
Definition line_when_set (repr : value -> string) (d : pydict) (k prefix : string)
  : result (list string) :=
  if truthy (dict_get d k PNone)
  then v <~ dict_getitem d k ;; Ok [prefix ++ py_str repr v]
  else Ok [].

(** [result.get('value', []) if result else []] *)
Definition value_or_empty (r : value) : result value :=
  if truthy r then get_method r "value" (PList []) else Ok (PList []).

(* ================================================================== *)
(** * tools/accounts.py *)
(* ================================================================== *)

Module Accounts.

Definition format_account (account : value) : result pydict :=
  accountid <~ getitem account "accountid" ;;
  name <~ getitem account "name" ;;
  email <~ get_method account "emailaddress1" PNone ;;
  phone <~ get_method account "telephone1" PNone ;;
  city <~ get_method account "address1_city" PNone ;;
  country <~ get_method account "address1_country" PNone ;;
  Ok [("account_id", accountid); ("name", name); ("email", email);
      ("phone", phone); ("city", city); ("country", country);
      ("type", PStr "account")].

Definition search_accounts (E : environment) (search_term : string) (max_results : Z)
  : M (list pydict) :=
  let endpoint := "accounts" in
  let params :=
    [("$filter", PStr ("contains(name, '" ++ search_term ++ "')"));
     ("$select", PStr "accountid,name,emailaddress1,telephone1,address1_city,address1_country");
     ("$orderby", PStr "name");
     ("$top", PStr (str_of_Z max_results))] in
  result <- api_get E endpoint (Some params) ;;
  accounts <- lift (value_or_empty result) ;;
  items <- lift (iterate accounts) ;;
  formatted_results <- lift (for_each format_account items) ;;
  ret formatted_results.

Definition account_line (repr : value -> string) (account : pydict) : result string :=
  email_info <~ info_when_set repr account "email" " |" ;;
  phone_info <~ info_when_set repr account "phone" " | " ;;
  let location_info :=
    if truthy (dict_get account "city" PNone) || truthy (dict_get account "country" PNone)
    then
      let location :=
        strip (py_str repr (dict_get account "city" (PStr "")) ++ " " ++
               py_str repr (dict_get account "country" (PStr ""))) in
      if negb (location =? "") then " | " ++ location else ""
    else "" in
  name <~ dict_getitem account "name" ;;
  account_id <~ dict_getitem account "account_id" ;;
  Ok ("  " ++ bullet ++ " " ++ py_str repr name ++ " (ID: " ++ py_str repr account_id ++ ")"
      ++ email_info ++ phone_info ++ location_info).

Definition format_accounts_output (repr : value -> string) (accounts : list pydict)
  : result string :=
  match accounts with
  | [] => Ok "No accounts found matching your search criteria."
  | _ =>
      lines <~ for_each (account_line repr) accounts ;;
      Ok (join nl (("Found " ++ str_of_nat (List.length accounts) ++ " accounts:") :: lines))
  end.

Definition search_accounts_tool (E : environment) (search_term : string) (max_results : Z)
  : M string :=
  accounts <- search_accounts E search_term max_results ;;
  lift (format_accounts_output (py_repr E) accounts).

End Accounts.

(* ================================================================== *)
(** * tools/contacts.py *)
(* ================================================================== *)

Module Contacts.

Definition format_contact (contact : value) : result pydict :=
  contactid <~ getitem contact "contactid" ;;
  fullname <~ getitem contact "fullname" ;;
  email <~ get_method contact "emailaddress1" PNone ;;
  phone <~ get_method contact "telephone1" PNone ;;
  job_title <~ get_method contact "jobtitle" PNone ;;
  parent <~ get_method contact "_parentcustomerid_value" PNone ;;
  Ok [("contact_id", contactid); ("fullname", fullname); ("email", email);
      ("phone", phone); ("job_title", job_title); ("parent_customer_id", parent);
      ("type", PStr "contact")].

Definition search_contacts (E : environment) (search_term : string) (max_results : Z)
  : M (list pydict) :=
  let endpoint := "contacts" in
  let params :=
    [("$filter", PStr ("contains(fullname, '" ++ search_term ++ "')"));
     ("$select", PStr "contactid,fullname,emailaddress1,telephone1,jobtitle,_parentcustomerid_value");
     ("$orderby", PStr "fullname");
     ("$top", PStr (str_of_Z max_results))] in
  result <- api_get E endpoint (Some params) ;;
  contacts <- lift (value_or_empty result) ;;
  items <- lift (iterate contacts) ;;
  formatted_results <- lift (for_each format_contact items) ;;
  ret formatted_results.

Definition contact_line (repr : value -> string) (contact : pydict) : result string :=
  email_info <~ info_when_set repr contact "email" " | " ;;
  phone_info <~ info_when_set repr contact "phone" " | " ;;
  job_info <~ info_when_set repr contact "job_title" " | " ;;
  fullname <~ dict_getitem contact "fullname" ;;
  contact_id <~ dict_getitem contact "contact_id" ;;
  Ok ("  " ++ bullet ++ " " ++ py_str repr fullname ++ " (ID: " ++ py_str repr contact_id ++ ")"
      ++ job_info ++ email_info ++ phone_info).

Definition format_contacts_output (repr : value -> string) (contacts : list pydict)
  : result string :=
  match contacts with
  | [] => Ok "No contacts found matching your search criteria."
  | _ =>
      lines <~ for_each (contact_line repr) contacts ;;
      Ok (join nl (("Found " ++ str_of_nat (List.length contacts) ++ " contacts:") :: lines))
  end.

Definition search_contacts_tool (E : environment) (search_term : string) (max_results : Z)
  : M string :=
  contacts <- search_contacts E search_term max_results ;;
  lift (format_contacts_output (py_repr E) contacts).

End Contacts.

(* ================================================================== *)
(** * The lookup blocks of the create operations *)
(* ================================================================== *)

(** [resolved_account_id = None; accounts = search_accounts(term, max_results=1);
     if accounts: resolved_account_id = accounts[0]['account_id']; print(... accounts[0]['name'])]
    as written in both [create_lead] and [create_opportunity]. *)
Definition resolve_account (E : environment) (term : string) : M value :=
  accounts <- Accounts.search_accounts E term 1 ;;
  match accounts with
  | first :: _ =>
      resolved_account_id <- lift (dict_getitem first "account_id") ;;
      _ <- lift (dict_getitem first "name") ;;
      ret resolved_account_id
  | [] => ret PNone
  end.

(** The same block for contacts. *)
Definition resolve_contact (E : environment) (term : string) : M value :=
  contacts <- Contacts.search_contacts E term 1 ;;
  match contacts with
  | first :: _ =>
      resolved_contact_id <- lift (dict_getitem first "contact_id") ;;
      _ <- lift (dict_getitem first "fullname") ;;
      ret resolved_contact_id
  | [] => ret PNone
  end.

(** [if name: <lookup block>], the guard of [create_lead]. *)
Definition when_given (name : option string) (lookup : string -> M value) : M value :=
  match name with
  | Some term => if truthy (PStr term) then lookup term else ret PNone
  | None => ret PNone
  end.

(* ================================================================== *)
(** * tools/leads.py *)
(* ================================================================== *)

Module Leads.

Definition format_lead (repr : value -> string) (lead : value) : result pydict :=
  firstname <~ get_method lead "firstname" (PStr "") ;;
  lastname <~ get_method lead "lastname" (PStr "") ;;
  let full_name := strip (py_str repr firstname ++ " " ++ py_str repr lastname) in
  leadid <~ getitem lead "leadid" ;;
  subject <~ get_method lead "subject" (PStr "") ;;
  company_name <~ get_method lead "companyname" (PStr "") ;;
  email <~ get_method lead "emailaddress1" PNone ;;
  phone <~ get_method lead "telephone1" PNone ;;
  status <~ get_method lead "statuscode" PNone ;;
  Ok [("lead_id", leadid); ("subject", subject); ("full_name", PStr full_name);
      ("company_name", company_name); ("email", email); ("phone", phone);
      ("status", status); ("type", PStr "lead")].

Definition lead_select : string :=
  "leadid,subject,firstname,lastname,emailaddress1,telephone1,companyname,statuscode".

Definition search_leads (E : environment) (search_term : string) (max_results : Z)
  : M (list pydict) :=
  let endpoint := "leads" in
  let params :=
    [("$filter", PStr ("contains(subject, '" ++ search_term ++ "') or contains(firstname, '"
                       ++ search_term ++ "') or contains(lastname, '" ++ search_term ++ "')"));
     ("$select", PStr lead_select);
     ("$orderby", PStr "createdon desc");
     ("$top", PStr (str_of_Z max_results))] in
  result <- api_get E endpoint (Some params) ;;
  leads <- lift (value_or_empty result) ;;
  items <- lift (iterate leads) ;;
  formatted_results <- lift (for_each (format_lead (py_repr E)) items) ;;
  ret formatted_results.

Definition search_leads_by_date (E : environment) (start_date end_date : string)
  (max_results : Z) : M (list pydict) :=
  let endpoint := "leads" in
  let params :=
    [("$filter", PStr ("createdon ge " ++ start_date ++ "T00:00:00Z and createdon le "
                       ++ end_date ++ "T23:59:59Z"));
     ("$select", PStr lead_select);
     ("$orderby", PStr "createdon desc");
     ("$top", PStr (str_of_Z max_results))] in
  result <- api_get E endpoint (Some params) ;;
  leads <- lift (value_or_empty result) ;;
  items <- lift (iterate leads) ;;
  formatted_results <- lift (for_each (format_lead (py_repr E)) items) ;;
  ret formatted_results.

Record args : Type := {
  subject : string;
  firstname : string;
  lastname : string;
  companyname : string;
  email : option string;
  phone : option string;
  mobilephone : option string;
  jobtitle : option string;
  websiteurl : option string;
  description : option string;
  estimatedclosedate : option string;
  xylos_leadsource : option Z;
  xylos_leadratingcode : option Z;
  parentaccountname : option string;
  parentcontactname : option string;
  xylos_gender : option Z;
  xylos_language : option Z;
  xylos_jobdescriptionid : option string;
  address1_line1 : option string;
  address1_postalcode : option string;
  address1_city : option string;
  address1_stateorprovince : option string;
  address1_country : option string
}.

(** The dictionary [lead_data] as [create_lead] has built it when it calls
    [api_post]. *)
Definition lead_data (a : args) (resolved_account_id resolved_contact_id : value) : pydict :=
  let d := [("subject", PStr (subject a)); ("firstname", PStr (firstname a));
            ("lastname", PStr (lastname a)); ("companyname", PStr (companyname a))] in
  let d := set_when (truthy resolved_account_id) d "_parentaccountid_value" resolved_account_id in
  let d := set_when (truthy resolved_contact_id) d "_parentcontactid_value" resolved_contact_id in
  let d := set_when (truthy (opt_str (email a))) d "emailaddress1" (opt_str (email a)) in
  let d := set_when (truthy (opt_str (phone a))) d "telephone1" (opt_str (phone a)) in
  let d := set_when (truthy (opt_str (mobilephone a))) d "mobilephone" (opt_str (mobilephone a)) in
  let d := set_when (truthy (opt_str (jobtitle a))) d "jobtitle" (opt_str (jobtitle a)) in
  let d := set_when (truthy (opt_str (websiteurl a))) d "websiteurl" (opt_str (websiteurl a)) in
  let d := set_when (truthy (opt_str (description a))) d "description" (opt_str (description a)) in
  let d := set_when (truthy (opt_str (estimatedclosedate a))) d "estimatedclosedate"
             (opt_str (estimatedclosedate a)) in
  let d := set_when (is_not_none (opt_int (xylos_leadsource a))) d "xylos_leadsource"
             (opt_int (xylos_leadsource a)) in
  let d := set_when (is_not_none (opt_int (xylos_leadratingcode a))) d "xylos_leadratingcode"
             (opt_int (xylos_leadratingcode a)) in
  let d := set_when (is_not_none (opt_int (xylos_gender a))) d "xylos_gender"
             (opt_int (xylos_gender a)) in
  let d := set_when (is_not_none (opt_int (xylos_language a))) d "xylos_language"
             (opt_int (xylos_language a)) in
  let d := set_when (truthy (opt_str (xylos_jobdescriptionid a))) d "_xylos_jobdescriptionid_value"
             (opt_str (xylos_jobdescriptionid a)) in
  let d := set_when (truthy (opt_str (address1_line1 a))) d "address1_line1"
             (opt_str (address1_line1 a)) in
  let d := set_when (truthy (opt_str (address1_postalcode a))) d "address1_postalcode"
             (opt_str (address1_postalcode a)) in
  let d := set_when (truthy (opt_str (address1_city a))) d "address1_city"
             (opt_str (address1_city a)) in
  let d := set_when (truthy (opt_str (address1_stateorprovince a))) d "address1_stateorprovince"
             (opt_str (address1_stateorprovince a)) in
  let d := set_when (truthy (opt_str (address1_country a))) d "address1_country"
             (opt_str (address1_country a)) in
  d.

Definition create_lead (E : environment) (a : args) : M pydict :=
  if (40 <? String.length (subject a))%nat then
    ret [("success", PBool false);
         ("message", PStr ("Subject must be 40 characters or less. Current length: "
                           ++ str_of_nat (String.length (subject a))))]
  else
    resolved_account_id <- when_given (parentaccountname a) (resolve_account E) ;;
    resolved_contact_id <- when_given (parentcontactname a) (resolve_contact E) ;;
    lead_id <- api_post E "leads" (lead_data a resolved_account_id resolved_contact_id)
                 "xylos_leadidentifier" ;;
    if truthy lead_id then
      ret [("success", PBool true);
           ("lead_id", lead_id);
           ("message", PStr ("Lead '" ++ subject a ++ "' created successfully"))]
    else
      ret [("success", PBool false);
           ("message", PStr ("Failed to create lead '" ++ subject a ++ "'"))].

Definition lead_lines (repr : value -> string) (lead : pydict) : result (list string) :=
  email_info <~ info_when_set repr lead "email" " | " ;;
  phone_info <~ info_when_set repr lead "phone" " | " ;;
  company_info <~ info_when_set repr lead "company_name" " | " ;;
  subject <~ dict_getitem lead "subject" ;;
  full_name <~ dict_getitem lead "full_name" ;;
  lead_id <~ dict_getitem lead "lead_id" ;;
  Ok [ "  " ++ bullet ++ " " ++ py_str repr subject ++ " (" ++ py_str repr full_name ++ ")"
         ++ company_info ++ email_info ++ phone_info;
       "    ID: " ++ py_str repr lead_id ].

Definition format_leads_output (repr : value -> string) (leads : list pydict)
  : result string :=
  match leads with
  | [] => Ok "No leads found matching your search criteria."
  | _ =>
      lines <~ for_each (lead_lines repr) leads ;;
      Ok (join nl (("Found " ++ str_of_nat (List.length leads) ++ " leads:") :: concat lines))
  end.

Definition search_leads_tool (E : environment) (search_term : string) (max_results : Z)
  : M string :=
  leads <- search_leads E search_term max_results ;;
  lift (format_leads_output (py_repr E) leads).

Definition search_leads_by_date_tool (E : environment) (start_date end_date : string)
  (max_results : Z) : M string :=
  leads <- search_leads_by_date E start_date end_date max_results ;;
  lift (format_leads_output (py_repr E) leads).

Definition create_lead_tool (E : environment) (a : args) : M string :=
  result <- create_lead E a ;;
  success <- lift (dict_getitem result "success") ;;
  if truthy success then
    lead_id <- lift (dict_getitem result "lead_id") ;;
    ret ("Lead created successfully with ID: " ++ py_str (py_repr E) lead_id)
  else
    message <- lift (dict_getitem result "message") ;;
    ret ("Error creating lead: " ++ py_str (py_repr E) message).

End Leads.

(* ================================================================== *)
(** * tools/opportunities.py *)
(* ================================================================== *)

Module Opportunities.

Record args : Type := {
  name : string;
  contract_verlengingen : bool;
  account_search_term : string;
  contact_search_term : string;
  description : option string;
  estimated_close_date : option string;
  xylos_contractverlenging : option bool;
  sca_alreadyplanned : option bool;
  xylos_bidoffice : option bool;
  identifycustomercontacts : option bool;
  opportunityratingcode : option Z;
  budgetstatus : option Z;
  xylos_opportunitytype : option Z;
  xylos_quotelanguage : option Z;
  xylos_opportunitysource : option Z;
  xylos_approach : option Z;
  need : option Z;
  purchaseprocess : option Z;
  xylos_salesdossierteams : option string;
  xylos_effectivefrom : option string;
  xylos_effectiveto : option string
}.

(** The dictionary [data] before the lookups (lines 73 to 119). *)
Definition data_fields (a : args) : pydict :=
  let d := [("name", PStr (name a));
            ("description", opt_str (description a));
            ("xylos_contractverlenging", PBool (contract_verlengingen a))] in
  let d := set_when (truthy (opt_str (estimated_close_date a))) d "estimatedclosedate"
             (opt_str (estimated_close_date a)) in
  let d := set_when (truthy (opt_str (xylos_effectivefrom a))) d "xylos_effectivefrom"
             (opt_str (xylos_effectivefrom a)) in
  let d := set_when (truthy (opt_str (xylos_effectiveto a))) d "xylos_effectiveto"
             (opt_str (xylos_effectiveto a)) in
  let d := set_when (is_not_none (opt_bool (xylos_contractverlenging a))) d
             "xylos_contractverlenging" (opt_bool (xylos_contractverlenging a)) in
  let d := set_when (is_not_none (opt_bool (sca_alreadyplanned a))) d "sca_alreadyplanned"
             (opt_bool (sca_alreadyplanned a)) in
  let d := set_when (is_not_none (opt_bool (xylos_bidoffice a))) d "xylos_bidoffice"
             (opt_bool (xylos_bidoffice a)) in
  let d := set_when (is_not_none (opt_bool (identifycustomercontacts a))) d
             "identifycustomercontacts" (opt_bool (identifycustomercontacts a)) in
  let d := set_when (is_not_none (opt_int (opportunityratingcode a))) d "opportunityratingcode"
             (opt_int (opportunityratingcode a)) in
  let d := set_when (is_not_none (opt_int (budgetstatus a))) d "budgetstatus"
             (opt_int (budgetstatus a)) in
  let d := set_when (is_not_none (opt_int (xylos_opportunitytype a))) d "xylos_opportunitytype"
             (opt_int (xylos_opportunitytype a)) in
  let d := set_when (is_not_none (opt_int (xylos_quotelanguage a))) d "xylos_quotelanguage"
             (opt_int (xylos_quotelanguage a)) in
  let d := set_when (is_not_none (opt_int (xylos_opportunitysource a))) d
             "xylos_opportunitysource" (opt_int (xylos_opportunitysource a)) in
  let d := set_when (is_not_none (opt_int (xylos_approach a))) d "xylos_approach"
             (opt_int (xylos_approach a)) in
  let d := set_when (is_not_none (opt_int (need a))) d "need" (opt_int (need a)) in
  let d := set_when (is_not_none (opt_int (purchaseprocess a))) d "purchaseprocess"
             (opt_int (purchaseprocess a)) in
  let d := set_when (is_not_none (opt_str (xylos_salesdossierteams a))) d
             "xylos_salesdossierteams" (opt_str (xylos_salesdossierteams a)) in
  d.

(** [if resolved_account_id: data["customerid_account@odata.bind"] = f"/accounts({...})"] *)
Definition bind_account (repr : value -> string) (d : pydict) (resolved_account_id : value)
  : pydict :=
  set_when (truthy resolved_account_id) d "customerid_account@odata.bind"
    (PStr ("/accounts(" ++ py_str repr resolved_account_id ++ ")")).

(** [if resolved_contact_id: data["parentcontactid@odata.bind"] = f"/contacts({...})"] *)
Definition bind_contact (repr : value -> string) (d : pydict) (resolved_contact_id : value)
  : pydict :=
  set_when (truthy resolved_contact_id) d "parentcontactid@odata.bind"
    (PStr ("/contacts(" ++ py_str repr resolved_contact_id ++ ")")).

(** The dictionary [data] as [create_opportunity] hands it to [api_post]. *)
Definition data (repr : value -> string) (a : args)
  (resolved_account_id resolved_contact_id : value) : pydict :=
  bind_contact repr (bind_account repr (data_fields a) resolved_account_id) resolved_contact_id.

Definition create_opportunity (E : environment) (a : args) : M pydict :=
  n <- lift (py_len (opt_str (description a))) ;;
  if (40 <? n)%nat then
    ret [("success", PBool false);
         ("message", PStr ("Subject must be 40 characters or less. Current length: "
                           ++ str_of_nat n))]
  else
    resolved_account_id <- resolve_account E (account_search_term a) ;;
    resolved_contact_id <- resolve_contact E (contact_search_term a) ;;
    opportunity_id <- api_post E "opportunities"
                        (data (py_repr E) a resolved_account_id resolved_contact_id)
                        "xylos_opportunityid" ;;
    if truthy opportunity_id then
      ret [("success", PBool true);
           ("opportunity_id", opportunity_id);
           ("message", PStr ("Opportunity '" ++ name a ++ "' created successfully"));
           ("linked_account_id", resolved_account_id);
           ("linked_contact_id", resolved_contact_id)]
    else
      ret [("success", PBool false);
           ("message", PStr ("Failed to create opportunity '" ++ name a ++ "'"))].

Definition search_opportunities_by_name (E : environment) (search_term : string)
  (max_results : Z) : M value :=
  let filter_query := "contains(name, '" ++ search_term ++ "')" in
  let params := [("$filter", PStr filter_query); ("$top", PInt max_results)] in
  result <- api_get E "opportunities" (Some params) ;;
  opportunities <- lift (value_or_empty result) ;;
  ret opportunities.

Definition search_opportunities_by_date (E : environment) (start_date end_date : string)
  (max_results : Z) : M value :=
  let filter_query := "createdon ge " ++ start_date ++ " and createdon le " ++ end_date in
  let params := [("$filter", PStr filter_query); ("$top", PInt max_results)] in
  result <- api_get E "opportunities" (Some params) ;;
  opportunities <- lift (value_or_empty result) ;;
  ret opportunities.

Definition get_opportunities (E : environment) (top : Z) : M value :=
  let endpoint := "opportunities" in
  let params := [("$top", PInt top); ("$orderby", PStr "createdon desc")] in
  result <- api_get E endpoint (Some params) ;;
  opportunities <- lift (value_or_empty result) ;;
  _ <- lift (py_len opportunities) ;;
  ret opportunities.

Definition create_opportunity_tool (E : environment) (a : args) : M string :=
  result <- create_opportunity E a ;;
  success <- lift (dict_getitem result "success") ;;
  if truthy success then
    message <- lift (dict_getitem result "message") ;;
    opportunity_id <- lift (dict_getitem result "opportunity_id") ;;
    let output := [py_str (py_repr E) message;
                   "Opportunity ID: " ++ py_str (py_repr E) opportunity_id] in
    account_part <- lift (line_when_set (py_repr E) result "linked_account_id"
                            "Linked Account ID: ") ;;
    contact_part <- lift (line_when_set (py_repr E) result "linked_contact_id"
                            "Linked Contact ID: ") ;;
    let output := (output ++ account_part ++ contact_part)%list in
    ret (join nl output)
  else
    message <- lift (dict_getitem result "message") ;;
    ret (py_str (py_repr E) message).

(** One report line of the opportunity listings. *)
Definition opportunity_line (repr : value -> string) (opp : value) : result string :=
  name <~ get_method opp "name" (PStr "N/A") ;;
  opportunityid <~ get_method opp "opportunityid" (PStr "N/A") ;;
  createdon <~ get_method opp "createdon" (PStr "N/A") ;;
  Ok ("  " ++ bullet ++ " " ++ py_str repr name ++ " (ID: " ++ py_str repr opportunityid
      ++ ") - Created On: " ++ py_str repr createdon).

(** The shape the three listing tools share: an empty-message, a header built
    from the number of records, and one line per record. *)
Definition opportunities_report (repr : value -> string) (none_found : string)
  (header : nat -> string) (opportunities : value) : result string :=
  if negb (truthy opportunities) then Ok none_found
  else
    n <~ py_len opportunities ;;
    items <~ iterate opportunities ;;
    lines <~ for_each (opportunity_line repr) items ;;
    Ok (join nl (header n :: lines)).

Definition get_opportunities_tool (E : environment) (top : Z) : M string :=
  opportunities <- get_opportunities E top ;;
  lift (opportunities_report (py_repr E) "No opportunities found."
          (fun n => "Top " ++ str_of_nat n ++ " Recent Opportunities:") opportunities).

Definition search_opportunities_by_name_tool (E : environment) (search_term : string)
  (max_results : Z) : M string :=
  opportunities <- search_opportunities_by_name E search_term max_results ;;
  lift (opportunities_report (py_repr E)
          ("No opportunities found matching '" ++ search_term ++ "'.")
          (fun n => "Found " ++ str_of_nat n ++ " opportunities matching '" ++ search_term ++ "':")
          opportunities).

Definition search_opportunities_by_date_tool (E : environment) (start_date end_date : string)
  (max_results : Z) : M string :=
  opportunities <- search_opportunities_by_date E start_date end_date max_results ;;
  lift (opportunities_report (py_repr E)
          ("No opportunities found between " ++ start_date ++ " and " ++ end_date ++ ".")
          (fun n => "Found " ++ str_of_nat n ++ " opportunities between " ++ start_date
                    ++ " and " ++ end_date ++ ":")
          opportunities).

End Opportunities.

(* ================================================================== *)
(** * Vocabulary of the properties *)
(* ================================================================== *)

(** A create call: one of the two create operations with its arguments. *)
Inductive create_call : Type :=
  | CreateLead (a : Leads.args)
  | CreateOpportunity (a : Opportunities.args).

Definition run_create (E : environment) (c : create_call) : M pydict :=
  match c with
  | CreateLead a => Leads.create_lead E a
  | CreateOpportunity a => Opportunities.create_opportunity E a
  end.

(** The argument whose length a create call checks. *)
Definition validated_text (c : create_call) : value :=
  match c with
  | CreateLead a => PStr (Leads.subject a)
  | CreateOpportunity a => opt_str (Opportunities.description a)
  end.

(** The requests to the remote API among the events of a trace. *)
Definition http_requests (t : list event) : list request :=
  flat_map (fun e => match e with Http r => [r] | _ => [] end) t.

(** ** Sample environments, for the concrete runs *)

Definition sample_repr (v : value) : string := "<object>".

(** Service-principal authentication that always yields a token, in front
    of the remote API [srv]. *)
Definition service_env (srv : list event -> request -> http_answer) : environment :=
  {| AUTH_MODE := "service_account";
     py_repr := sample_repr;
     clock := fun _ => 0%float;
     acquire_token_interactive := fun _ => Ok [];
     acquire_token_for_client := fun _ => Ok [("access_token", PStr "TOKEN")];
     remote := srv |}.

Definition fresh_world : world :=
  {| ticks := 0; token_cache_file := None; trace := [] |}.

Definition ok_json (status : Z) (body : value) : http_answer :=
  Answer {| status_code := status; resp_headers := []; resp_json := Some body |}.

(** A remote API that is down. *)
Definition unreachable : list event -> request -> http_answer :=
  fun _ _ => NoAnswer.

Definition sample_lead (subject : string) : Leads.args :=
  {| Leads.subject := subject; Leads.firstname := "Ada"; Leads.lastname := "Lovelace";
     Leads.companyname := "Analytical Engines";
     Leads.email := None; Leads.phone := None; Leads.mobilephone := None;
     Leads.jobtitle := None; Leads.websiteurl := None; Leads.description := None;
     Leads.estimatedclosedate := None; Leads.xylos_leadsource := None;
     Leads.xylos_leadratingcode := None; Leads.parentaccountname := None;
     Leads.parentcontactname := None; Leads.xylos_gender := None;
     Leads.xylos_language := None; Leads.xylos_jobdescriptionid := None;
     Leads.address1_line1 := None; Leads.address1_postalcode := None;
     Leads.address1_city := None; Leads.address1_stateorprovince := None;
     Leads.address1_country := None |}.

Definition sample_opportunity (description : option string) : Opportunities.args :=
  {| Opportunities.name := "Renewal 2025";
     Opportunities.contract_verlengingen := true;
     Opportunities.account_search_term := "Acme";
     Opportunities.contact_search_term := "Bob";
     Opportunities.description := description;
     Opportunities.estimated_close_date := None;
     Opportunities.xylos_contractverlenging := None;
     Opportunities.sca_alreadyplanned := None;
     Opportunities.xylos_bidoffice := None;
     Opportunities.identifycustomercontacts := None;
     Opportunities.opportunityratingcode := None;
     Opportunities.budgetstatus := None;
     Opportunities.xylos_opportunitytype := None;
     Opportunities.xylos_quotelanguage := None;
     Opportunities.xylos_opportunitysource := None;
     Opportunities.xylos_approach := None;
     Opportunities.need := None;
     Opportunities.purchaseprocess := None;
     Opportunities.xylos_salesdossierteams := None;
     Opportunities.xylos_effectivefrom := None;
     Opportunities.xylos_effectiveto := None |}.

(** What [api_get] returns for an answer of the remote API. *)
Definition got (a : http_answer) : value :=
  match a with
  | Answer r =>
      if (status_code r =? 200)%Z
      then match resp_json r with Some v => v | None => PNone end
      else PNone
  | NoAnswer => PNone
  end.

Definition get_request (endpoint : string) (headers : list (string * string))
  (params : option pydict) : request :=
  {| req_method := GET; req_url := base_api_url ++ "/" ++ endpoint;
     req_headers := headers; req_params := params; req_json := None;
     req_timeout := 30 |}.

(** A search or list operation with its arguments. *)
Inductive search_call : Type :=
  | SearchAccounts (search_term : string) (max_results : Z)
  | SearchContacts (search_term : string) (max_results : Z)
  | SearchLeads (search_term : string) (max_results : Z)
  | SearchLeadsByDate (start_date end_date : string) (max_results : Z)
  | SearchOpportunitiesByName (search_term : string) (max_results : Z)
  | SearchOpportunitiesByDate (start_date end_date : string) (max_results : Z)
  | ListOpportunities (top : Z).

(** The one request of a search or list operation, as the remote API
    receives it under the headers [headers]. *)
Definition search_request (c : search_call) (headers : list (string * string)) : request :=
  match c with
  | SearchAccounts t n =>
      get_request "accounts" headers
        (Some [("$filter", PStr ("contains(name, '" ++ t ++ "')"));
               ("$select",
                PStr "accountid,name,emailaddress1,telephone1,address1_city,address1_country");
               ("$orderby", PStr "name");
               ("$top", PStr (str_of_Z n))])
  | SearchContacts t n =>
      get_request "contacts" headers
        (Some [("$filter", PStr ("contains(fullname, '" ++ t ++ "')"));
               ("$select",
                PStr "contactid,fullname,emailaddress1,telephone1,jobtitle,_parentcustomerid_value");
               ("$orderby", PStr "fullname");
               ("$top", PStr (str_of_Z n))])
  | SearchLeads t n =>
      get_request "leads" headers
        (Some [("$filter",
                PStr ("contains(subject, '" ++ t ++ "') or contains(firstname, '" ++ t
                      ++ "') or contains(lastname, '" ++ t ++ "')"));
               ("$select",
                PStr "leadid,subject,firstname,lastname,emailaddress1,telephone1,companyname,statuscode");
               ("$orderby", PStr "createdon desc");
               ("$top", PStr (str_of_Z n))])
  | SearchLeadsByDate s e n =>
      get_request "leads" headers
        (Some [("$filter",
                PStr ("createdon ge " ++ s ++ "T00:00:00Z and createdon le " ++ e
                      ++ "T23:59:59Z"));
               ("$select",
                PStr "leadid,subject,firstname,lastname,emailaddress1,telephone1,companyname,statuscode");
               ("$orderby", PStr "createdon desc");
               ("$top", PStr (str_of_Z n))])
  | SearchOpportunitiesByName t n =>
      get_request "opportunities" headers
        (Some [("$filter", PStr ("contains(name, '" ++ t ++ "')"));
               ("$top", PInt n)])
  | SearchOpportunitiesByDate s e n =>
      get_request "opportunities" headers
        (Some [("$filter", PStr ("createdon ge " ++ s ++ " and createdon le " ++ e));
               ("$top", PInt n)])
  | ListOpportunities top =>
      get_request "opportunities" headers
        (Some [("$top", PInt top); ("$orderby", PStr "createdon desc")])
  end.

Definition as_list (c : M (list pydict)) : M value :=
  l <- c ;; ret (PList (map PDict l)).

(** The structured result of a search. *)
Definition run_search (E : environment) (c : search_call) : M value :=
  match c with
  | SearchAccounts t n => as_list (Accounts.search_accounts E t n)
  | SearchContacts t n => as_list (Contacts.search_contacts E t n)
  | SearchLeads t n => as_list (Leads.search_leads E t n)
  | SearchLeadsByDate s e n => as_list (Leads.search_leads_by_date E s e n)
  | SearchOpportunitiesByName t n => Opportunities.search_opportunities_by_name E t n
  | SearchOpportunitiesByDate s e n => Opportunities.search_opportunities_by_date E s e n
  | ListOpportunities top => Opportunities.get_opportunities E top
  end.

(** The report the tool of a search returns. *)
Definition run_search_tool (E : environment) (c : search_call) : M string :=
  match c with
  | SearchAccounts t n => Accounts.search_accounts_tool E t n
  | SearchContacts t n => Contacts.search_contacts_tool E t n
  | SearchLeads t n => Leads.search_leads_tool E t n
  | SearchLeadsByDate s e n => Leads.search_leads_by_date_tool E s e n
  | SearchOpportunitiesByName t n => Opportunities.search_opportunities_by_name_tool E t n
  | SearchOpportunitiesByDate s e n => Opportunities.search_opportunities_by_date_tool E s e n
  | ListOpportunities top => Opportunities.get_opportunities_tool E top
  end.

(** An answer that carries no record: the call failed (no answer, a status
    other than 200, a body that is not JSON), or the answer is a JSON object
    whose ["value"] is the empty list. *)
Inductive zero_or_failed : http_answer -> Prop :=
  | zf_no_answer : zero_or_failed NoAnswer
  | zf_status : forall r, status_code r <> 200%Z -> zero_or_failed (Answer r)
  | zf_not_json : forall r, resp_json r = None -> zero_or_failed (Answer r)
  | zf_empty : forall r d,
      resp_json r = Some (PDict d) ->
      dict_find d "value" = Some (PList []) ->
      zero_or_failed (Answer r).

(** The report of a search that found nothing. *)
Definition none_found (c : search_call) : string :=
  match c with
  | SearchAccounts _ _ => "No accounts found matching your search criteria."
  | SearchContacts _ _ => "No contacts found matching your search criteria."
  | SearchLeads _ _ => "No leads found matching your search criteria."
  | SearchLeadsByDate _ _ _ => "No leads found matching your search criteria."
  | SearchOpportunitiesByName t _ => "No opportunities found matching '" ++ t ++ "'."
  | SearchOpportunitiesByDate s e _ =>
      "No opportunities found between " ++ s ++ " and " ++ e ++ "."
  | ListOpportunities _ => "No opportunities found."
  end.

(** The text of the parameter [k] of a request, when it is a text. *)
Definition param_text (r : request) (k : string) : option string :=
  match req_params r with
  | Some params =>
      match dict_find params k with
      | Some (PStr s) => Some s
      | _ => None
      end
  | None => None
  end.

(** A remote API that holds one account, Acme, and answers a search on
    accounts by its filter: the record for the filter on "Acme", with the
    context annotation and a response header, and no record for any other
    filter. *)
Definition crm_by_filter : list event -> request -> http_answer :=
  fun _ req =>
    match param_text req "$filter" with
    | Some f =>
        Answer
          {| status_code := 200;
             resp_headers := [("OData-Version", "4.0")];
             resp_json :=
               Some (PDict
                       [("@odata.context", PStr "$metadata#accounts");
                        ("value",
                         PList (if f =? "contains(name, 'Acme')"
                                then [PDict [("accountid", PStr "A-1");
                                             ("name", PStr "Acme")]]
                                else []))]) |}
    | None => Answer {| status_code := 400; resp_headers := []; resp_json := None |}
    end.

(** A remote API that answers every request with one lead record that does
    not carry [leadid]. *)
Definition lead_without_id : list event -> request -> http_answer :=
  fun _ _ => ok_json 200 (PDict [("value", PList [PDict [("subject", PStr "Migration")]])]).

(** The shape of a report: the message for an empty list, or a header line
    that counts the records, followed by at least one more line. *)
Definition report_shape (noun none : string) (n : nat) (report : string) : Prop :=
  (n = 0 /\ report = none) \/
  (n <> 0 /\ exists rest,
      report = "Found " ++ str_of_nat n ++ " " ++ noun ++ ":" ++ nl ++ rest).

(** [emits P c]: whatever the world, running [c] extends the trace by
    events that all satisfy [P], and does nothing else to the trace. *)
Definition emits {A} (P : event -> Prop) (c : M A) : Prop :=
  forall w r w', c w = (r, w') ->
    exists evs, trace w' = (trace w ++ evs)%list /\ Forall P evs.

(** Every POST among the events carries a body that satisfies [ok]. *)
Definition posts_satisfy (ok : pydict -> Prop) (e : event) : Prop :=
  match e with
  | Http r => req_method r = POST -> exists body, req_json r = Some body /\ ok body
  | _ => True
  end.

(** The required arguments of a create call, under the keys they are sent
    with. *)
Definition required_fields (c : create_call) : pydict :=
  match c with
  | CreateLead a =>
      [("subject", PStr (Leads.subject a)); ("firstname", PStr (Leads.firstname a));
       ("lastname", PStr (Leads.lastname a)); ("companyname", PStr (Leads.companyname a))]
  | CreateOpportunity a =>
      [("name", PStr (Opportunities.name a));
       ("xylos_contractverlenging", PBool (Opportunities.contract_verlengingen a))]
  end.

(** The optional arguments of a create call, under the keys they are sent
    with; an absent argument is [PNone]. *)
Definition optional_fields (c : create_call) : pydict :=
  match c with
  | CreateLead a =>
      [("emailaddress1", opt_str (Leads.email a));
       ("telephone1", opt_str (Leads.phone a));
       ("mobilephone", opt_str (Leads.mobilephone a));
       ("jobtitle", opt_str (Leads.jobtitle a));
       ("websiteurl", opt_str (Leads.websiteurl a));
       ("description", opt_str (Leads.description a));
       ("estimatedclosedate", opt_str (Leads.estimatedclosedate a));
       ("xylos_leadsource", opt_int (Leads.xylos_leadsource a));
       ("xylos_leadratingcode", opt_int (Leads.xylos_leadratingcode a));
       ("xylos_gender", opt_int (Leads.xylos_gender a));
       ("xylos_language", opt_int (Leads.xylos_language a));
       ("_xylos_jobdescriptionid_value", opt_str (Leads.xylos_jobdescriptionid a));
       ("address1_line1", opt_str (Leads.address1_line1 a));
       ("address1_postalcode", opt_str (Leads.address1_postalcode a));
       ("address1_city", opt_str (Leads.address1_city a));
       ("address1_stateorprovince", opt_str (Leads.address1_stateorprovince a));
       ("address1_country", opt_str (Leads.address1_country a))]
  | CreateOpportunity a =>
      [("description", opt_str (Opportunities.description a));
       ("estimatedclosedate", opt_str (Opportunities.estimated_close_date a));
       ("xylos_effectivefrom", opt_str (Opportunities.xylos_effectivefrom a));
       ("xylos_effectiveto", opt_str (Opportunities.xylos_effectiveto a));
       ("xylos_contractverlenging", opt_bool (Opportunities.xylos_contractverlenging a));
       ("sca_alreadyplanned", opt_bool (Opportunities.sca_alreadyplanned a));
       ("xylos_bidoffice", opt_bool (Opportunities.xylos_bidoffice a));
       ("identifycustomercontacts", opt_bool (Opportunities.identifycustomercontacts a));
       ("opportunityratingcode", opt_int (Opportunities.opportunityratingcode a));
       ("budgetstatus", opt_int (Opportunities.budgetstatus a));
       ("xylos_opportunitytype", opt_int (Opportunities.xylos_opportunitytype a));
       ("xylos_quotelanguage", opt_int (Opportunities.xylos_quotelanguage a));
       ("xylos_opportunitysource", opt_int (Opportunities.xylos_opportunitysource a));
       ("xylos_approach", opt_int (Opportunities.xylos_approach a));
       ("need", opt_int (Opportunities.need a));
       ("purchaseprocess", opt_int (Opportunities.purchaseprocess a));
       ("xylos_salesdossierteams", opt_str (Opportunities.xylos_salesdossierteams a))]
  end.

(** The key of the account binding and the key of the contact binding. *)
Definition account_binding_key (c : create_call) : string :=
  match c with
  | CreateLead _ => "_parentaccountid_value"
  | CreateOpportunity _ => "customerid_account@odata.bind"
  end.

Definition contact_binding_key (c : create_call) : string :=
  match c with
  | CreateLead _ => "_parentcontactid_value"
  | CreateOpportunity _ => "parentcontactid@odata.bind"
  end.

(** The value of a binding for the resolved id [id]: [create_lead] sends
    the id as it is, [create_opportunity] the path of the record in its
    entity set. *)
Definition account_binding (repr : value -> string) (c : create_call) (id : value) : value :=
  match c with
  | CreateLead _ => id
  | CreateOpportunity _ => PStr ("/accounts(" ++ py_str repr id ++ ")")
  end.

Definition contact_binding (repr : value -> string) (c : create_call) (id : value) : value :=
  match c with
  | CreateLead _ => id
  | CreateOpportunity _ => PStr ("/contacts(" ++ py_str repr id ++ ")")
  end.

(** A body built from the arguments of [c] and the two resolved ids [acc]
    and [con] alone: each entry is a required argument, an optional
    argument that was given, or the binding of an id that was resolved, and
    no entry is [None]. *)
Definition entries_from_arguments (repr : value -> string) (c : create_call)
  (acc con : value) (body : pydict) : Prop :=
  forall k v, In (k, v) body ->
    v <> PNone /\
    (In (k, v) (required_fields c) \/
     In (k, v) (optional_fields c) \/
     (k = account_binding_key c /\ truthy acc = true /\ v = account_binding repr c acc) \/
     (k = contact_binding_key c /\ truthy con = true /\ v = contact_binding repr c con)).

(** The bindings of the ids that were resolved are in the body. *)
Definition bindings_sent (repr : value -> string) (c : create_call)
  (acc con : value) (body : pydict) : Prop :=
  (truthy acc = true ->
     dict_find body (account_binding_key c) = Some (account_binding repr c acc)) /\
  (truthy con = true ->
     dict_find body (contact_binding_key c) = Some (contact_binding repr c con)).

(** The claim on absent arguments, as the spec words it: the key of an
    optional argument that is [None] is not among the keys of the body. *)
Definition absent_arguments_not_sent (c : create_call) (body : pydict) : Prop :=
  forall k, In (k, PNone) (optional_fields c) -> ~ In k (keys body).

(** The same, but for the one key that a required argument also writes. *)
Definition absent_arguments_not_sent_but_shared (c : create_call) (body : pydict) : Prop :=
  forall k, In (k, PNone) (optional_fields c) -> In k (keys body) ->
    k = "xylos_contractverlenging" /\ exists a, c = CreateOpportunity a.

(** [P] holds of the token flows and of every GET. *)
Definition reads_allowed (P : event -> Prop) : Prop :=
  P InteractiveFlow /\ P ClientCredentialsFlow /\
  forall r, req_method r = GET -> P (Http r).

(** A small remote API for the concrete runs.  The two name searches
    return [accounts] and [contacts] as they are; a POST answers 204 with
    [entity_id] in its [OData-EntityId] header; a GET on [refetch_url]
    answers with [refetch_body]; any other GET answers 404. *)
Definition sample_crm (accounts contacts : list value) (entity_id refetch_url : string)
  (refetch_body : value) : list event -> request -> http_answer :=
  fun _ req =>
    match req_method req with
    | POST =>
        Answer {| status_code := 204;
                  resp_headers := [("OData-EntityId", entity_id)];
                  resp_json := None |}
    | GET =>
        if req_url req =? base_api_url ++ "/accounts"
        then ok_json 200 (PDict [("value", PList accounts)])
        else if req_url req =? base_api_url ++ "/contacts"
        then ok_json 200 (PDict [("value", PList contacts)])
        else if req_url req =? refetch_url
        then ok_json 200 refetch_body
        else Answer {| status_code := 404; resp_headers := []; resp_json := None |}
    | PATCH =>
        Answer {| status_code := 204; resp_headers := []; resp_json := None |}
    end.

Definition bob : value :=
  PDict [("contactid", PStr "C-7"); ("fullname", PStr "Bob Martin")].

Definition acme : value :=
  PDict [("accountid", PStr "A-1"); ("name", PStr "Acme")].

(** The CRM of the opportunity runs: no account matches, one contact does. *)
Definition crm_without_accounts : environment :=
  service_env
    (sample_crm [] [bob]
       (base_api_url ++ "/opportunities(11111111-1111-1111-1111-111111111111)")
       (base_api_url ++ "/opportunities(11111111-1111-1111-1111-111111111111)?$select=xylos_opportunityid")
       (PDict [("xylos_opportunityid", PStr "OPP-042")])).

(** The JSON bodies of the POST requests among the events of a trace. *)
Definition posted_bodies (t : list event) : list pydict :=
  flat_map (fun e =>
              match e with
              | Http r =>
                  match req_method r, req_json r with
                  | POST, Some body => [body]
                  | _, _ => []
                  end
              | _ => []
              end) t.

(** The search term of the account lookup of a create call, when the call
    makes the lookup, and the same for the contact lookup. *)
Definition account_term (c : create_call) : option string :=
  match c with
  | CreateLead a =>
      match Leads.parentaccountname a with
      | Some t => if truthy (PStr t) then Some t else None
      | None => None
      end
  | CreateOpportunity a => Some (Opportunities.account_search_term a)
  end.

Definition contact_term (c : create_call) : option string :=
  match c with
  | CreateLead a =>
      match Leads.parentcontactname a with
      | Some t => if truthy (PStr t) then Some t else None
      | None => None
      end
  | CreateOpportunity a => Some (Opportunities.contact_search_term a)
  end.

(** The two lookup steps of a create call. *)
Definition account_step (E : environment) (c : create_call) : M value :=
  match c with
  | CreateLead a => when_given (Leads.parentaccountname a) (resolve_account E)
  | CreateOpportunity a => resolve_account E (Opportunities.account_search_term a)
  end.

Definition contact_step (E : environment) (c : create_call) : M value :=
  match c with
  | CreateLead a => when_given (Leads.parentcontactname a) (resolve_contact E)
  | CreateOpportunity a => resolve_contact E (Opportunities.contact_search_term a)
  end.

(** The POST of a create call: entity set, body and business-key field. *)
Definition create_endpoint (c : create_call) : string :=
  match c with
  | CreateLead _ => "leads"
  | CreateOpportunity _ => "opportunities"
  end.

Definition create_id_field (c : create_call) : string :=
  match c with
  | CreateLead _ => "xylos_leadidentifier"
  | CreateOpportunity _ => "xylos_opportunityid"
  end.

Definition create_body (E : environment) (c : create_call) (acc con : value) : pydict :=
  match c with
  | CreateLead a => Leads.lead_data a acc con
  | CreateOpportunity a => Opportunities.data (py_repr E) a acc con
  end.

(** [result.get(k)] is [None]: the key is absent or bound to [None]. *)
Definition absent_or_null (d : pydict) (k : string) : Prop :=
  dict_get d k PNone = PNone.

Definition succeeded (d : pydict) : Prop :=
  dict_find d "success" = Some (PBool true).

Definition crm_with_acme : environment :=
  service_env
    (sample_crm [acme] [bob]
       (base_api_url ++ "/leads(11111111-1111-1111-1111-111111111111)")
       (base_api_url ++ "/leads(11111111-1111-1111-1111-111111111111)?$select=xylos_leadidentifier")
       (PDict [("xylos_leadidentifier", PStr "LEAD-042")])).

(** ** Vocabulary of the token cache *)

(** The number [stamp] is more than [seconds] after the time [now]: the
    sum is a double, and a number compares with it as Python compares an
    [int], a [bool] or a [float] with a [float]. *)
Definition more_than_after (seconds now : float) (stamp : value) : Prop :=
  gt_float stamp (now + seconds)%float = Ok true.

(** The cache file holds a token that [_load_cached_token] hands out at
    the clock reading that is next: a JSON object with a numeric
    [expires_on] more than 300 seconds after that reading and a non-empty
    [access_token]. *)
Definition cached_valid (E : environment) (w : world) (token : value) : Prop :=
  exists d,
    token_cache_file w = Some (JsonFile (PDict d)) /\
    more_than_after 300 (clock E (ticks w)) (dict_get d "expires_on" (PInt 0)) /\
    dict_find d "access_token" = Some token /\
    truthy token = true.



(** The same provider, with the clock at [now]. *)
Definition interactive_env_at (now : float) : environment :=
  {| AUTH_MODE := "interactive";
     py_repr := sample_repr;
     clock := fun _ => now;
     acquire_token_interactive :=
       fun _ => Ok [("access_token", PStr "NEW"); ("expires_in", PInt 3600)];
     acquire_token_for_client := fun _ => Ok [];
     remote := unreachable |}.

Definition world_with_cache (token : string) (stamp : float) : world :=
  {| ticks := 0;
     token_cache_file :=
       Some (JsonFile (PDict [("access_token", PStr token); ("expires_on", PFloat stamp)]));
     trace := [] |}.

(** ** Vocabulary of the create-then-refetch gateway *)

Definition post_request (endpoint : string) (headers : list (string * string))
  (data : pydict) : request :=
  {| req_method := POST; req_url := base_api_url ++ "/" ++ endpoint;
     req_headers := headers; req_params := None; req_json := Some data;
     req_timeout := 120 |}.

(** The follow-up GET: the record [guid] of [endpoint], selecting [id_field]
    alone. *)
Definition refetch_request (endpoint guid id_field : string)
  (headers : list (string * string)) : request :=
  {| req_method := GET;
     req_url := base_api_url ++ "/" ++ endpoint ++ "(" ++ guid ++ ")?$select=" ++ id_field;
     req_headers := headers; req_params := None; req_json := None;
     req_timeout := 30 |}.

(** The value of [id_field] in the answer to the follow-up GET, or [None]
    when the GET failed, the body is no JSON object, or the field is absent
    or empty. *)
Definition refetched (id_field : string) (a : http_answer) : value :=
  match a with
  | Answer r =>
      if (status_code r =? 200)%Z then
        match resp_json r with
        | Some (PDict d) =>
            if truthy (dict_get d id_field PNone) then dict_get d id_field PNone else PNone
        | _ => PNone
        end
      else PNone
  | NoAnswer => PNone
  end.

Definition entity_id_header (r : response) : string :=
  headers_get (resp_headers r) "OData-EntityId" "".

Fixpoint no_rparen (s : string) : bool :=
  match s with
  | EmptyString => true
  | String c rest => negb (Ascii.eqb c ")") && no_rparen rest
  end.

(** [g] is a parenthesised group of [s] that opens right after [pre]: a
    non-empty text without closing parenthesis between "(" and ")". *)
Definition group_at (s pre g : string) : Prop :=
  exists post,
    s = pre ++ "(" ++ g ++ ")" ++ post /\ g <> "" /\ no_rparen g = true.

(** [g] is the group of [s] that opens first. *)
Definition first_group (s g : string) : Prop :=
  exists pre,
    group_at s pre g /\
    forall pre' g', group_at s pre' g' -> String.length pre <= String.length pre'.

(** Follows the spec's words: the substring between the last "(" and the
    ")" that comes after it.  [after_last_lparen] returns the text after the
    last "(", if there is one. *)
Fixpoint after_last_lparen (s : string) : option string :=
  match s with
  | EmptyString => None
  | String c rest =>
      match after_last_lparen rest with
      | Some t => Some t
      | None => if Ascii.eqb c "(" then Some rest else None
      end
  end.

Definition guid_between_last_parens (s : string) : option string :=
  match after_last_lparen s with
  | Some t =>
      match span_no_rparen t with
      | (g, String _ _) => Some g
      | _ => None
      end
  | None => None
  end.

(** A remote API whose entity id header carries two parenthesised groups. *)
Definition crm_two_groups : environment :=
  service_env
    (sample_crm [] []
       (base_api_url ++ "/accounts(A-1)/leads(L-2)")
       (base_api_url ++ "/leads(A-1)?$select=xylos_leadidentifier")
       (PDict [("xylos_leadidentifier", PStr "LEAD-OF-A-1")])).

(** An event that is no request to the remote API. *)
Definition no_http (e : event) : Prop :=
  match e with
  | Http _ => False
  | _ => True
  end.

(** ** Vocabulary of the entity resolution *)

Inductive lookup_kind : Type := AccountLookup | ContactLookup.

Definition entity_set (k : lookup_kind) : string :=
  match k with AccountLookup => "accounts" | ContactLookup => "contacts" end.

(** The display-name field and the key field of the records. *)
Definition name_field (k : lookup_kind) : string :=
  match k with AccountLookup => "name" | ContactLookup => "fullname" end.

Definition key_field (k : lookup_kind) : string :=
  match k with AccountLookup => "accountid" | ContactLookup => "contactid" end.

Definition lookup_term (k : lookup_kind) (c : create_call) : option string :=
  match k with AccountLookup => account_term c | ContactLookup => contact_term c end.

Definition lookup_step (k : lookup_kind) (E : environment) (c : create_call) : M value :=
  match k with AccountLookup => account_step E c | ContactLookup => contact_step E c end.

(** The query of a lookup, as the remote API receives it. *)
Definition lookup_query (k : lookup_kind) (term : string)
  (headers : list (string * string)) : request :=
  get_request (entity_set k) headers
    (Some [("$filter", PStr ("contains(" ++ name_field k ++ ", '" ++ term ++ "')"));
           ("$select",
            PStr match k with
                 | AccountLookup =>
                     "accountid,name,emailaddress1,telephone1,address1_city,address1_country"
                 | ContactLookup =>
                     "contactid,fullname,emailaddress1,telephone1,jobtitle,_parentcustomerid_value"
                 end);
           ("$orderby", PStr (name_field k));
           ("$top", PStr "1")]).

(** The remote API's side of a lookup.  [matches term n] is the remote's
    reading of "the name [n] contains [term]" and [name_le] the order it
    sorts names by.  [name_matches] tells whether a record passes the
    filter; [selected] holds of the rows the remote has for the query
    before it cuts them to [$top]: the records of [table] that pass the
    filter, in ascending order of their names. *)
Definition name_matches (matches : string -> string -> bool) (field term : string)
  (record : pydict) : bool :=
  match dict_find record field with
  | Some (PStr n) => matches term n
  | _ => false
  end.

Definition record_le (name_le : string -> string -> Prop) (field : string)
  (r1 r2 : pydict) : Prop :=
  forall n1 n2,
    dict_find r1 field = Some (PStr n1) ->
    dict_find r2 field = Some (PStr n2) ->
    name_le n1 n2.

Definition selected (matches : string -> string -> bool)
  (name_le : string -> string -> Prop) (field term : string)
  (table rows : list pydict) : Prop :=
  Permutation rows (filter (name_matches matches field term) table) /\
  StronglySorted (record_le name_le field) rows.

(** The key that a lookup resolves from the records [items] of the answer
    to its query: the key of the first record, [None] when there is no
    record. *)
Definition resolves_first (k : lookup_kind) (items : list value) (resolved : value) : Prop :=
  match items with
  | [] => resolved = PNone
  | first :: _ =>
      exists raw, first = PDict raw /\ dict_find raw (key_field k) = Some resolved
  end.

(** [term in s] *)
Fixpoint contains (term s : string) : bool :=
  String.prefix term s ||
  match s with
  | EmptyString => false
  | String _ rest => contains term rest
  end.

(** A CRM with three accounts.  It answers the search for "Acme" as the
    query asks: the accounts whose name contains the term, in ascending
    order of the name, cut to the first, with the context annotation and a
    response header; it has no record for any other filter. *)
Definition three_accounts : list pydict :=
  [[("accountid", PStr "A-3"); ("name", PStr "Zenith Acme")];
   [("accountid", PStr "A-1"); ("name", PStr "Acme Corp")];
   [("accountid", PStr "A-2"); ("name", PStr "Globex")]].

Definition sorted_acme_rows : list pydict :=
  [[("accountid", PStr "A-1"); ("name", PStr "Acme Corp")];
   [("accountid", PStr "A-3"); ("name", PStr "Zenith Acme")]].

Definition crm_three_accounts : environment :=
  service_env
    (fun _ req =>
       match param_text req "$filter" with
       | Some f =>
           Answer
             {| status_code := 200;
                resp_headers := [("OData-Version", "4.0")];
                resp_json :=
                  Some (PDict
                          [("@odata.context", PStr "$metadata#accounts(accountid,name)");
                           ("value",
                            PList (map PDict
                                     (if f =? "contains(name, 'Acme')"
                                      then firstn 1 sorted_acme_rows
                                      else [])))]) |}
       | None => Answer {| status_code := 400; resp_headers := []; resp_json := None |}
       end).

(* ================================================================== *)
(** * tools/opportunities.py: reading and updating one record *)
(* ================================================================== *)

Module OpportunityAccess.

Definition get_opportunity (E : environment) (opportunity_id : string) : M value :=
  let endpoint := "opportunities(" ++ opportunity_id ++ ")" in
  result <- api_get E endpoint None ;;
  _ <- (if truthy result
        then lift (get_method result "name" (PStr "Unknown"))
        else ret PNone) ;;
  ret result.

Definition update_opportunity (E : environment) (opportunity_id : string)
  (updates : pydict) : M bool :=
  let endpoint := "opportunities(" ++ opportunity_id ++ ")" in
  success <- api_patch E endpoint updates ;;
  ret success.

Definition get_opportunity_tool (E : environment) (opportunity_id : string) : M string :=
  opportunity <- get_opportunity E opportunity_id ;;
  if negb (truthy opportunity) then
    ret ("Opportunity with ID '" ++ opportunity_id ++ "' not found")
  else
    name <- lift (get_method opportunity "name" (PStr "N/A")) ;;
    description <- lift (get_method opportunity "description" (PStr "N/A")) ;;
    estimatedclosedate <- lift (get_method opportunity "estimatedclosedate" (PStr "N/A")) ;;
    statuscode <- lift (get_method opportunity "statuscode" (PStr "N/A")) ;;
    createdon <- lift (get_method opportunity "createdon" (PStr "N/A")) ;;
    ret (join nl
           ["Opportunity Details (ID: " ++ opportunity_id ++ "):";
            "  " ++ bullet ++ " Name: " ++ py_str (py_repr E) name;
            "  " ++ bullet ++ " Description: " ++ py_str (py_repr E) description;
            "  " ++ bullet ++ " Estimated Close Date: "
              ++ py_str (py_repr E) estimatedclosedate;
            "  " ++ bullet ++ " Status: " ++ py_str (py_repr E) statuscode;
            "  " ++ bullet ++ " Created On: " ++ py_str (py_repr E) createdon]).

Definition update_opportunity_tool (E : environment) (opportunity_id : string)
  (updates : pydict) : M string :=
  success <- update_opportunity E opportunity_id updates ;;
  if success
  then ret ("Opportunity '" ++ opportunity_id ++ "' updated successfully.")
  else ret ("Failed to update opportunity '" ++ opportunity_id ++ "'.").

End OpportunityAccess.

(* ================================================================== *)
(** * Vocabulary of the further properties *)
(* ================================================================== *)

Definition patch_request (endpoint : string) (headers : list (string * string))
  (data : pydict) : request :=
  {| req_method := PATCH; req_url := base_api_url ++ "/" ++ endpoint;
     req_headers := headers; req_params := None; req_json := Some data;
     req_timeout := 30 |}.

(** The five headers of a request that carries the token [token]. *)
Definition bearer_headers (repr : value -> string) (token : value)
  : list (string * string) :=
  [("Authorization", "Bearer " ++ py_str repr token);
   ("OData-MaxVersion", "4.0");
   ("OData-Version", "4.0");
   ("Accept", "application/json");
   ("Content-Type", "application/json; charset=utf-8")].

Fixpoint no_lparen (s : string) : bool :=
  match s with
  | EmptyString => true
  | String c rest => negb (Ascii.eqb c "(") && no_lparen rest
  end.

(** The answer 200 that carries the JSON body [body]. *)
Definition answers_json (a : http_answer) (body : value) : Prop :=
  exists r, a = Answer r /\ status_code r = 200%Z /\ resp_json r = Some body.

(** Three accounts, for a search that asks for two. *)
Definition crm_ignoring_top : environment :=
  service_env
    (fun _ _ =>
       ok_json 200
         (PDict [("value",
                  PList [PDict [("accountid", PStr "A-1"); ("name", PStr "Acme Corp")];
                         PDict [("accountid", PStr "A-2"); ("name", PStr "Acme Labs")];
                         PDict [("accountid", PStr "A-3"); ("name", PStr "Acme Works")]])])).

(** A remote API that answers every request with the JSON body [body]. *)
Definition always_json (body : value) : environment :=
  service_env (fun _ _ => ok_json 200 body).

(** A remote API that answers every request with the bare status [status]. *)
Definition always_status (status : Z) : environment :=
  service_env
    (fun _ _ => Answer {| status_code := status; resp_headers := []; resp_json := None |}).

(** An identity provider that turns every request down. *)
Definition refusing_env (mode : string) : environment :=
  {| AUTH_MODE := mode;
     py_repr := sample_repr;
     clock := fun _ => 1000%float;
     acquire_token_interactive := fun _ => Ok [("error_description", PStr "consent denied")];
     acquire_token_for_client := fun _ => Ok [("error", PStr "invalid_client")];
     remote := unreachable |}.

(** The name search of a kind, and the two keys under which its results
    carry the key and the name of a record. *)
Definition name_search (k : lookup_kind) (E : environment) (search_term : string)
  (max_results : Z) : M (list pydict) :=
  match k with
  | AccountLookup => Accounts.search_accounts E search_term max_results
  | ContactLookup => Contacts.search_contacts E search_term max_results
  end.

(** The same search as a search call. *)
Definition name_search_call (k : lookup_kind) (search_term : string) (max_results : Z)
  : search_call :=
  match k with
  | AccountLookup => SearchAccounts search_term max_results
  | ContactLookup => SearchContacts search_term max_results
  end.

Definition result_key (k : lookup_kind) : string :=
  match k with AccountLookup => "account_id" | ContactLookup => "contact_id" end.

(** A record of the answer that carries its key and its name. *)
Definition complete_row (k : lookup_kind) (item : value) : Prop :=
  exists raw key name,
    item = PDict raw /\
    dict_find raw (key_field k) = Some key /\
    dict_find raw (name_field k) = Some name.

(** [d] is the projection of the record [item]. *)
Definition projects (k : lookup_kind) (item : value) (d : pydict) : Prop :=
  exists raw,
    item = PDict raw /\
    dict_find d (result_key k) = dict_find raw (key_field k) /\
    dict_find d (name_field k) = dict_find raw (name_field k) /\
    dict_find d "email" = Some (dict_get raw "emailaddress1" PNone) /\
    dict_find d "phone" = Some (dict_get raw "telephone1" PNone).

(** The three operations that hand the opportunity records of the answer
    to their report as they are. *)
Definition lists_opportunities (c : search_call) : bool :=
  match c with
  | SearchOpportunitiesByName _ _ => true
  | SearchOpportunitiesByDate _ _ _ => true
  | ListOpportunities _ => true
  | _ => false
  end.

Definition is_object (v : value) : Prop := exists d, v = PDict d.

(** The tool of a create call. *)
Definition run_create_tool (E : environment) (c : create_call) : M string :=
  match c with
  | CreateLead a => Leads.create_lead_tool E a
  | CreateOpportunity a => Opportunities.create_opportunity_tool E a
  end.

(** A value that an optional argument of a create call is sent with: a
    non-empty text, or a number or flag, [0] and [False] included. *)
Definition sendable (v : value) : Prop :=
  truthy v = true \/ (exists z, v = PInt z) \/ (exists b, v = PBool b).

(** A lead with an e-mail address, the gender code 0 and an empty phone
    number. *)
Definition lead_with_details : Leads.args :=
  {| Leads.subject := "Migration"; Leads.firstname := "Ada"; Leads.lastname := "Lovelace";
     Leads.companyname := "Analytical Engines";
     Leads.email := Some "ada@example.org"; Leads.phone := Some "";
     Leads.mobilephone := None;
     Leads.jobtitle := None; Leads.websiteurl := None; Leads.description := None;
     Leads.estimatedclosedate := None; Leads.xylos_leadsource := None;
     Leads.xylos_leadratingcode := None; Leads.parentaccountname := None;
     Leads.parentcontactname := Some ""; Leads.xylos_gender := Some 0%Z;
     Leads.xylos_language := None; Leads.xylos_jobdescriptionid := None;
     Leads.address1_line1 := None; Leads.address1_postalcode := None;
     Leads.address1_city := None; Leads.address1_stateorprovince := None;
     Leads.address1_country := None |}.

(** An event that is no request, or a GET. *)
Definition read_event (e : event) : Prop :=
  match e with
  | Http r => req_method r = GET
  | _ => True
  end.

(** The formatter of the results of a name search. *)
Definition name_report (k : lookup_kind) (repr : value -> string) (l : list pydict)
  : result string :=
  match k with
  | AccountLookup => Accounts.format_accounts_output repr l
  | ContactLookup => Contacts.format_contacts_output repr l
  end.

(** [line] is the report line of the record [d]: the bullet, the name and
    the id of the record, then its further details. *)
Definition lists_record (k : lookup_kind) (repr : value -> string) (d : pydict)
  (line : string) : Prop :=
  exists name id details,
    dict_find d (name_field k) = Some name /\
    dict_find d (result_key k) = Some id /\
    line = "  " ++ bullet ++ " " ++ py_str repr name ++ " (ID: " ++ py_str repr id ++ ")"
           ++ details.

(** [pair] holds the two report lines of the lead [d]: the bullet line with
    subject and full name, and the line of the id. *)
Definition lists_lead (repr : value -> string) (d : pydict) (pair : list string) : Prop :=
  exists subject full_name id details,
    dict_find d "subject" = Some subject /\
    dict_find d "full_name" = Some full_name /\
    dict_find d "lead_id" = Some id /\
    pair = ["  " ++ bullet ++ " " ++ py_str repr subject ++ " (" ++ py_str repr full_name
              ++ ")" ++ details;
            "    ID: " ++ py_str repr id].

(* ================================================================== *)
(** * Properties *)
(* ================================================================== *)

(** ** Length validation of the create operations *)

(** C3. A create call whose validated text (the subject of [create_lead],
    the description of [create_opportunity]) is longer than 40 characters
    returns the failure result, with the message that names the limit of 40
    and the current length, and leaves the world as it was: no token is
    acquired, no search is issued, nothing is posted. *)
Theorem create_rejects_text_over_40 :
  forall (E : environment) (c : create_call) (w : world) (s : string),
    validated_text c = PStr s ->
    40 < String.length s ->
    run_create E c w =
      (Ok [("success", PBool false);
           ("message", PStr ("Subject must be 40 characters or less. Current length: "
                             ++ str_of_nat (String.length s)))],
       w).
Proof.
  intros E [a | a] w s Htext Hlen; simpl in Htext.
  - injection Htext as <-.
    unfold run_create, Leads.create_lead.
    apply Nat.ltb_lt in Hlen. rewrite Hlen. reflexivity.
  - unfold run_create, Opportunities.create_opportunity.
    destruct (Opportunities.description a) as [d |]; simpl in Htext; [| discriminate].
    injection Htext as <-.
    apply Nat.ltb_lt in Hlen.
    unfold bind, lift; simpl. rewrite Hlen. reflexivity.
Qed.

Lemma create_rejects_text_over_40_witness :
  run_create (service_env unreachable)
    (CreateLead (sample_lead "A subject line that is clearly longer than forty characters"))
    fresh_world =
  (Ok [("success", PBool false);
       ("message", PStr "Subject must be 40 characters or less. Current length: 59")],
   fresh_world).
Proof.
  exact (create_rejects_text_over_40 (service_env unreachable)
           (CreateLead (sample_lead "A subject line that is clearly longer than forty characters"))
           fresh_world _ eq_refl ltac:(simpl; lia)).
Defined.

(** ** The gateway's GET *)

Lemma api_get_run :
  forall E endpoint params w hdrs w1,
    get_headers E w = (Ok hdrs, w1) ->
    api_get E endpoint params w =
      (Ok (got (remote E (trace w1) (get_request endpoint hdrs params))),
       log (Http (get_request endpoint hdrs params)) w1).
Proof.
  intros E endpoint params w hdrs w1 Hh.
  unfold api_get, bind, try_except. rewrite Hh.
  unfold requests_send, get_request, got.
  destruct (remote E (trace w1) _) as [r |]; [| reflexivity].
  destruct (status_code r =? 200)%Z; [| reflexivity].
  unfold lift, response_json. destruct (resp_json r); reflexivity.
Qed.

Lemma api_get_auth_failure :
  forall E endpoint params w e w1,
    get_headers E w = (Raise e, w1) ->
    api_get E endpoint params w = (Raise e, w1).
Proof.
  intros E endpoint params w e w1 Hh.
  unfold api_get, bind. rewrite Hh. reflexivity.
Qed.

Lemma got_zero_or_failed :
  forall a, zero_or_failed a -> value_or_empty (got a) = Ok (PList []).
Proof.
  intros a H. destruct H as [| r Hs | r Hj | r d Hj Hv]; simpl.
  - reflexivity.
  - apply Z.eqb_neq in Hs. rewrite Hs. reflexivity.
  - rewrite Hj. destruct (status_code r =? 200)%Z; reflexivity.
  - rewrite Hj. destruct (status_code r =? 200)%Z; [| reflexivity].
    unfold value_or_empty, get_method, dict_get. rewrite Hv.
    destruct d; [discriminate | reflexivity].
Qed.

(** ** Searches that find nothing *)

Ltac run_get Hh :=
  unfold as_list; unfold bind; rewrite (api_get_run _ _ _ _ _ _ Hh).

(** Names the request that the goal sends as the hypothesis [H] names it. *)
Ltac sent_request H :=
  match type of H with
  | context [remote ?E ?t ?q] =>
      match goal with
      | |- context [remote E t ?r] => change r with q
      end
  end.

(** C8. For every search or list operation and every input: when the token
    is obtained and the remote API answers the request of the search with a
    failure or with zero records, the operation has sent that one request,
    its structured result is the empty list (not [None]) and its tool
    returns the "No ... found" message of its type. *)
Theorem empty_search_gives_empty_list_and_message :
  forall (E : environment) (c : search_call) (w : world)
         (hdrs : list (string * string)) (w1 : world),
    get_headers E w = (Ok hdrs, w1) ->
    zero_or_failed (remote E (trace w1) (search_request c hdrs)) ->
    run_search E c w = (Ok (PList []), log (Http (search_request c hdrs)) w1) /\
    run_search_tool E c w = (Ok (none_found c), log (Http (search_request c hdrs)) w1).
Proof.
  intros E c w hdrs w1 Hh Hzero.
  destruct c;
    unfold run_search, run_search_tool,
           Accounts.search_accounts_tool, Accounts.search_accounts,
           Contacts.search_contacts_tool, Contacts.search_contacts,
           Leads.search_leads_tool, Leads.search_leads,
           Leads.search_leads_by_date_tool, Leads.search_leads_by_date,
           Opportunities.search_opportunities_by_name_tool,
           Opportunities.search_opportunities_by_name,
           Opportunities.search_opportunities_by_date_tool,
           Opportunities.search_opportunities_by_date,
           Opportunities.get_opportunities_tool, Opportunities.get_opportunities;
    run_get Hh; unfold lift;
    sent_request Hzero;
    rewrite (got_zero_or_failed _ Hzero);
    split; reflexivity.
Qed.

(** The remote API holds the account Acme; the search for "Zenith" is
    answered with zero records, and the search for a lead fails with 400. *)
Lemma empty_search_gives_empty_list_and_message_witness :
  (run_search (service_env crm_by_filter) (SearchAccounts "Zenith" 5) fresh_world
     = (Ok (PList []),
        log (Http (search_request (SearchAccounts "Zenith" 5)
                     (bearer_headers sample_repr (PStr "TOKEN"))))
            (log ClientCredentialsFlow fresh_world)) /\
   run_search_tool (service_env crm_by_filter) (SearchAccounts "Zenith" 5) fresh_world
     = (Ok "No accounts found matching your search criteria.",
        log (Http (search_request (SearchAccounts "Zenith" 5)
                     (bearer_headers sample_repr (PStr "TOKEN"))))
            (log ClientCredentialsFlow fresh_world))) /\
  run_search (service_env crm_by_filter) (SearchAccounts "Acme" 5) fresh_world
    = (Ok (PList [PDict [("account_id", PStr "A-1"); ("name", PStr "Acme");
                         ("email", PNone); ("phone", PNone); ("city", PNone);
                         ("country", PNone); ("type", PStr "account")]]),
       log (Http (search_request (SearchAccounts "Acme" 5)
                    (bearer_headers sample_repr (PStr "TOKEN"))))
           (log ClientCredentialsFlow fresh_world)).
Proof.
  split; [| reflexivity].
  apply (empty_search_gives_empty_list_and_message (service_env crm_by_filter)
           (SearchAccounts "Zenith" 5) fresh_world _ _ eq_refl).
  eapply zf_empty; reflexivity.
Defined.

(** ** Date-range filters *)

Ltac split_cases :=
  repeat match goal with
         | |- context [match ?x with _ => _ end] => destruct x; simpl
         end.

(** C9. For every pair of strings given as [start_date] and [end_date], the
    lead search by date sends the filter with the [T00:00:00Z] and
    [T23:59:59Z] boundaries and the opportunity search by date sends the
    filter on the bare strings; the strings reach the remote API as they
    are, whatever they contain and in whatever order they come. *)
Theorem date_range_filters_pass_through :
  forall (E : environment) (start_date end_date : string) (max_results : Z)
         (w : world) (hdrs : list (string * string)) (w1 : world),
    get_headers E w = (Ok hdrs, w1) ->
    trace (snd (Leads.search_leads_by_date E start_date end_date max_results w)) =
      (trace w1 ++
       [Http (get_request "leads" hdrs
          (Some [("$filter", PStr ("createdon ge " ++ start_date
                                   ++ "T00:00:00Z and createdon le "
                                   ++ end_date ++ "T23:59:59Z"));
                 ("$select", PStr "leadid,subject,firstname,lastname,emailaddress1,telephone1,companyname,statuscode");
                 ("$orderby", PStr "createdon desc");
                 ("$top", PStr (str_of_Z max_results))]))])%list
    /\
    trace (snd (Opportunities.search_opportunities_by_date E start_date end_date
                  max_results w)) =
      (trace w1 ++
       [Http (get_request "opportunities" hdrs
          (Some [("$filter", PStr ("createdon ge " ++ start_date
                                   ++ " and createdon le " ++ end_date));
                 ("$top", PInt max_results)]))])%list.
Proof.
  intros E start_date end_date max_results w hdrs w1 Hh. split.
  - unfold Leads.search_leads_by_date. run_get Hh.
    unfold lift, ret. split_cases; reflexivity.
  - unfold Opportunities.search_opportunities_by_date. run_get Hh.
    unfold lift, ret. split_cases; reflexivity.
Qed.

Lemma date_range_filters_pass_through_witness :
  trace (snd (Leads.search_leads_by_date (service_env unreachable)
                "2025-12-31" "not a date" 5 fresh_world)) =
    [ClientCredentialsFlow;
     Http (get_request "leads"
       [("Authorization", "Bearer TOKEN"); ("OData-MaxVersion", "4.0");
        ("OData-Version", "4.0"); ("Accept", "application/json");
        ("Content-Type", "application/json; charset=utf-8")]
       (Some [("$filter", PStr "createdon ge 2025-12-31T00:00:00Z and createdon le not a dateT23:59:59Z");
              ("$select", PStr "leadid,subject,firstname,lastname,emailaddress1,telephone1,companyname,statuscode");
              ("$orderby", PStr "createdon desc");
              ("$top", PStr "5")]))].
Proof.
  exact (proj1 (date_range_filters_pass_through (service_env unreachable)
                  "2025-12-31" "not a date" 5 fresh_world _ _ eq_refl)).
Defined.

(** ** Exceptions that reach the tool boundary *)

(** C2 (the code departs from the claim). [create_opportunity] called with
    its default [description] of [None] raises [TypeError] at the length
    check, before anything else happens, and [create_opportunity_tool]
    lets the exception through to its caller instead of returning a string. *)
Theorem create_opportunity_tool_raises_without_description :
  forall (E : environment) (a : Opportunities.args) (w : world),
    Opportunities.description a = None ->
    Opportunities.create_opportunity E a w = (Raise TypeError, w) /\
    Opportunities.create_opportunity_tool E a w = (Raise TypeError, w).
Proof.
  intros E a w Hnone.
  unfold Opportunities.create_opportunity_tool, Opportunities.create_opportunity, bind, lift.
  rewrite Hnone. split; reflexivity.
Qed.

Lemma create_opportunity_tool_raises_without_description_witness :
  Opportunities.create_opportunity_tool (service_env unreachable)
    (sample_opportunity None) fresh_world = (Raise TypeError, fresh_world).
Proof.
  exact (proj2 (create_opportunity_tool_raises_without_description
                  (service_env unreachable) (sample_opportunity None) fresh_world eq_refl)).
Defined.

(** A lead search whose answer holds a record without [leadid] raises
    [KeyError] out of the tool. *)
Example search_leads_tool_raises_on_missing_leadid :
  Leads.search_leads_tool (service_env lead_without_id) "Migration" 20 fresh_world =
    (Raise (KeyError "leadid"),
     snd (Leads.search_leads_tool (service_env lead_without_id) "Migration" 20 fresh_world)).
Proof. reflexivity. Qed.

(** ** Formatting *)

Lemma for_each_inv :
  forall {A B} (f : A -> result B) xs ys,
    for_each f xs = Ok ys -> Forall2 (fun x y => f x = Ok y) xs ys.
Proof.
  intros A B f xs. induction xs as [| x rest IH]; intros ys H; simpl in H.
  - injection H as <-. constructor.
  - destruct (f x) as [y | e] eqn:Hx; simpl in H; [| discriminate].
    destruct (for_each f rest) as [ys' | e] eqn:Hrest; simpl in H; [| discriminate].
    injection H as <-. constructor; auto.
Qed.

Lemma for_each_total :
  forall {A B} (f : A -> result B) xs,
    Forall (fun x => exists y, f x = Ok y) xs ->
    exists ys, for_each f xs = Ok ys /\ List.length ys = List.length xs.
Proof.
  intros A B f xs H. induction H as [| x rest [y Hy] _ [ys [Hys Hlen]]]; simpl.
  - exists []. split; reflexivity.
  - rewrite Hy, Hys. simpl. exists (y :: ys). split; [reflexivity | simpl; congruence].
Qed.

Lemma Forall2_right :
  forall {A B} (R : A -> B -> Prop) (P : B -> Prop) xs ys,
    Forall2 R xs ys -> (forall x y, R x y -> P y) -> Forall P ys.
Proof.
  intros A B R P xs ys H HP. induction H; constructor; eauto.
Qed.

Lemma append_assoc :
  forall s1 s2 s3 : string, (s1 ++ s2) ++ s3 = s1 ++ (s2 ++ s3).
Proof.
  induction s1 as [| c s1 IH]; intros s2 s3; simpl; [reflexivity | now rewrite IH].
Qed.

Lemma join_header :
  forall h l ls, join nl (h :: l :: ls) = h ++ nl ++ join nl (l :: ls).
Proof. reflexivity. Qed.

Ltac invert_run H :=
  repeat match type of H with
         | context [match ?x with _ => _ end] => destruct x eqn:?; simpl in H
         end;
  try discriminate.

Lemma format_account_keys :
  forall account d, Accounts.format_account account = Ok d ->
    exists id name email phone city country,
      d = [("account_id", id); ("name", name); ("email", email); ("phone", phone);
           ("city", city); ("country", country); ("type", PStr "account")].
Proof.
  intros account d H. unfold Accounts.format_account, rbind in H.
  invert_run H. injection H as <-. do 6 eexists. reflexivity.
Qed.

Lemma format_contact_keys :
  forall contact d, Contacts.format_contact contact = Ok d ->
    exists id fullname email phone job parent,
      d = [("contact_id", id); ("fullname", fullname); ("email", email); ("phone", phone);
           ("job_title", job); ("parent_customer_id", parent); ("type", PStr "contact")].
Proof.
  intros contact d H. unfold Contacts.format_contact, rbind in H.
  invert_run H. injection H as <-. do 6 eexists. reflexivity.
Qed.

Lemma format_lead_keys :
  forall repr lead d, Leads.format_lead repr lead = Ok d ->
    exists id subject full_name company email phone status,
      d = [("lead_id", id); ("subject", subject); ("full_name", full_name);
           ("company_name", company); ("email", email); ("phone", phone);
           ("status", status); ("type", PStr "lead")].
Proof.
  intros repr lead d H. unfold Leads.format_lead, rbind in H.
  invert_run H. injection H as <-. do 7 eexists. reflexivity.
Qed.

Lemma info_when_set_total :
  forall repr d k prefix, exists s, info_when_set repr d k prefix = Ok s.
Proof.
  intros repr d k prefix. unfold info_when_set, dict_get, dict_getitem.
  destruct (dict_find d k) as [v |]; simpl.
  - destruct (truthy v); simpl; eauto.
  - eauto.
Qed.

Lemma account_line_total :
  forall repr d name id,
    dict_find d "name" = Some name ->
    dict_find d "account_id" = Some id ->
    exists s, Accounts.account_line repr d = Ok s.
Proof.
  intros repr d name id Hn Hi. unfold Accounts.account_line.
  destruct (info_when_set_total repr d "email" " |") as [e He].
  destruct (info_when_set_total repr d "phone" " | ") as [p Hp].
  rewrite He, Hp. unfold dict_getitem. rewrite Hn, Hi. simpl. eauto.
Qed.

Lemma contact_line_total :
  forall repr d fullname id,
    dict_find d "fullname" = Some fullname ->
    dict_find d "contact_id" = Some id ->
    exists s, Contacts.contact_line repr d = Ok s.
Proof.
  intros repr d fullname id Hn Hi. unfold Contacts.contact_line.
  destruct (info_when_set_total repr d "email" " | ") as [e He].
  destruct (info_when_set_total repr d "phone" " | ") as [p Hp].
  destruct (info_when_set_total repr d "job_title" " | ") as [j Hj].
  rewrite He, Hp, Hj. unfold dict_getitem. rewrite Hn, Hi. simpl. eauto.
Qed.

Lemma lead_lines_total :
  forall repr d subject full_name id,
    dict_find d "subject" = Some subject ->
    dict_find d "full_name" = Some full_name ->
    dict_find d "lead_id" = Some id ->
    exists s1 s2, Leads.lead_lines repr d = Ok [s1; s2].
Proof.
  intros repr d subject full_name id Hs Hf Hi. unfold Leads.lead_lines.
  destruct (info_when_set_total repr d "email" " | ") as [e He].
  destruct (info_when_set_total repr d "phone" " | ") as [p Hp].
  destruct (info_when_set_total repr d "company_name" " | ") as [c Hc].
  rewrite He, Hp, Hc. unfold dict_getitem. rewrite Hs, Hf, Hi. simpl. eauto.
Qed.

(** What each search hands to its formatter. *)

Lemma search_accounts_results :
  forall E t n w l w',
    Accounts.search_accounts E t n w = (Ok l, w') ->
    exists items, for_each Accounts.format_account items = Ok l.
Proof.
  intros E t n w l w' H.
  unfold Accounts.search_accounts, bind, lift, ret in H.
  invert_run H. injection H as <- <-. eauto.
Qed.

Lemma search_contacts_results :
  forall E t n w l w',
    Contacts.search_contacts E t n w = (Ok l, w') ->
    exists items, for_each Contacts.format_contact items = Ok l.
Proof.
  intros E t n w l w' H.
  unfold Contacts.search_contacts, bind, lift, ret in H.
  invert_run H. injection H as <- <-. eauto.
Qed.

Lemma search_leads_results :
  forall E t n w l w',
    Leads.search_leads E t n w = (Ok l, w') ->
    exists items, for_each (Leads.format_lead (py_repr E)) items = Ok l.
Proof.
  intros E t n w l w' H.
  unfold Leads.search_leads, bind, lift, ret in H.
  invert_run H. injection H as <- <-. eauto.
Qed.

Lemma search_leads_by_date_results :
  forall E s e n w l w',
    Leads.search_leads_by_date E s e n w = (Ok l, w') ->
    exists items, for_each (Leads.format_lead (py_repr E)) items = Ok l.
Proof.
  intros E s e n w l w' H.
  unfold Leads.search_leads_by_date, bind, lift, ret in H.
  invert_run H. injection H as <- <-. eauto.
Qed.

Lemma report_of_lines :
  forall noun none (n : nat) (lines : list string),
    lines <> [] -> n <> 0 ->
    report_shape noun none n
      (join nl (("Found " ++ str_of_nat n ++ " " ++ noun ++ ":") :: lines)).
Proof.
  intros noun none n lines Hl Hn. right. split; [exact Hn |].
  destruct lines as [| l ls]; [contradiction |].
  exists (join nl (l :: ls)). rewrite join_header.
  rewrite !append_assoc. reflexivity.
Qed.

Lemma format_accounts_output_total :
  forall repr items l,
    for_each Accounts.format_account items = Ok l ->
    exists report,
      Accounts.format_accounts_output repr l = Ok report /\
      report_shape "accounts" "No accounts found matching your search criteria."
        (List.length l) report.
Proof.
  intros repr items l H. apply for_each_inv in H.
  assert (Hall : Forall (fun d => exists s, Accounts.account_line repr d = Ok s) l).
  { eapply Forall2_right; [exact H |]. intros x d Hd.
    apply format_account_keys in Hd. destruct Hd as (id & nm & e & p & c & co & ->).
    eapply account_line_total; reflexivity. }
  destruct (for_each_total _ _ Hall) as [lines [Hlines Hlen]].
  destruct l as [| d rest].
  - eexists. split; [reflexivity |]. left. split; reflexivity.
  - unfold Accounts.format_accounts_output. rewrite Hlines. simpl rbind.
    eexists. split; [reflexivity |].
    apply (report_of_lines "accounts").
    + destruct lines; [discriminate | discriminate].
    + discriminate.
Qed.

Lemma format_contacts_output_total :
  forall repr items l,
    for_each Contacts.format_contact items = Ok l ->
    exists report,
      Contacts.format_contacts_output repr l = Ok report /\
      report_shape "contacts" "No contacts found matching your search criteria."
        (List.length l) report.
Proof.
  intros repr items l H. apply for_each_inv in H.
  assert (Hall : Forall (fun d => exists s, Contacts.contact_line repr d = Ok s) l).
  { eapply Forall2_right; [exact H |]. intros x d Hd.
    apply format_contact_keys in Hd. destruct Hd as (id & nm & e & p & c & co & ->).
    eapply contact_line_total; reflexivity. }
  destruct (for_each_total _ _ Hall) as [lines [Hlines Hlen]].
  destruct l as [| d rest].
  - eexists. split; [reflexivity |]. left. split; reflexivity.
  - unfold Contacts.format_contacts_output. rewrite Hlines. simpl rbind.
    eexists. split; [reflexivity |].
    apply (report_of_lines "contacts").
    + destruct lines; [discriminate | discriminate].
    + discriminate.
Qed.

Lemma format_leads_output_total :
  forall repr repr' items l,
    for_each (Leads.format_lead repr') items = Ok l ->
    exists report,
      Leads.format_leads_output repr l = Ok report /\
      report_shape "leads" "No leads found matching your search criteria."
        (List.length l) report.
Proof.
  intros repr repr' items l H. apply for_each_inv in H.
  assert (Hall : Forall (fun d => exists y, Leads.lead_lines repr d = Ok y) l).
  { eapply Forall2_right; [exact H |]. intros x d Hd.
    apply format_lead_keys in Hd.
    destruct Hd as (id & sj & fn & co & e & p & st & ->).
    match goal with
    | |- context [Leads.lead_lines repr ?d] =>
        destruct (lead_lines_total repr d sj fn id eq_refl eq_refl eq_refl) as (s1 & s2 & Hs)
    end.
    eauto. }
  assert (Htwo : Forall (fun d => forall y, Leads.lead_lines repr d = Ok y -> y <> []) l).
  { eapply Forall2_right; [exact H |]. intros x d Hd y Hy.
    apply format_lead_keys in Hd.
    destruct Hd as (id & sj & fn & co & e & p & st & ->).
    match type of Hy with
    | context [Leads.lead_lines repr ?d] =>
        destruct (lead_lines_total repr d sj fn id eq_refl eq_refl eq_refl) as (s1 & s2 & Hs)
    end.
    rewrite Hs in Hy. injection Hy as <-. discriminate. }
  destruct (for_each_total _ _ Hall) as [lines [Hlines Hlen]].
  destruct l as [| d rest].
  - eexists. split; [reflexivity |]. left. split; reflexivity.
  - unfold Leads.format_leads_output. rewrite Hlines. simpl rbind.
    eexists. split; [reflexivity |].
    apply (report_of_lines "leads"); [| discriminate].
    simpl in Hlines. inversion Htwo as [| ? ? Hd _]; subst.
    destruct (Leads.lead_lines repr d) as [y | ?] eqn:Hy; simpl in Hlines; [| discriminate].
    destruct (for_each (Leads.lead_lines repr) rest); simpl in Hlines; [| discriminate].
    injection Hlines as <-. specialize (Hd y eq_refl).
    destruct y; [contradiction | discriminate].
Qed.

(** C10. The three formatting functions are total on what their searches
    return: whenever a search returns a list, the formatter of its type
    returns a report string on that list and raises nothing.  The report is
    the "No ... found" line for the empty list and otherwise a header line
    followed by the lines of the records.  The formatters take the list
    alone: no world goes in or comes out. *)
Theorem formatting_total_on_search_results :
  forall (E : environment) (repr : value -> string) (w w' : world) (l : list pydict),
    (forall t n,
        Accounts.search_accounts E t n w = (Ok l, w') ->
        exists report,
          Accounts.format_accounts_output repr l = Ok report /\
          report_shape "accounts" "No accounts found matching your search criteria."
            (List.length l) report)
    /\
    (forall t n,
        Contacts.search_contacts E t n w = (Ok l, w') ->
        exists report,
          Contacts.format_contacts_output repr l = Ok report /\
          report_shape "contacts" "No contacts found matching your search criteria."
            (List.length l) report)
    /\
    (forall t n,
        Leads.search_leads E t n w = (Ok l, w') ->
        exists report,
          Leads.format_leads_output repr l = Ok report /\
          report_shape "leads" "No leads found matching your search criteria."
            (List.length l) report)
    /\
    (forall s e n,
        Leads.search_leads_by_date E s e n w = (Ok l, w') ->
        exists report,
          Leads.format_leads_output repr l = Ok report /\
          report_shape "leads" "No leads found matching your search criteria."
            (List.length l) report).
Proof.
  intros E repr w w' l. repeat split.
  - intros t n H. apply search_accounts_results in H. destruct H as [items H].
    eapply format_accounts_output_total; eauto.
  - intros t n H. apply search_contacts_results in H. destruct H as [items H].
    eapply format_contacts_output_total; eauto.
  - intros t n H. apply search_leads_results in H. destruct H as [items H].
    eapply format_leads_output_total; eauto.
  - intros s e n H. apply search_leads_by_date_results in H. destruct H as [items H].
    eapply format_leads_output_total; eauto.
Qed.

(** On a list that no search builds the same formatter can raise. *)
Example format_accounts_output_partial :
  Accounts.format_accounts_output sample_repr [[("account_id", PStr "A-1")]] =
    Raise (KeyError "name").
Proof. reflexivity. Qed.

(** ** What a computation adds to the trace *)

Section Emits.

Variable P : event -> Prop.

Lemma emits_ret : forall {A} (a : A), emits P (ret a).
Proof.
  intros A a w r w' H. injection H as <- <-. exists []. rewrite app_nil_r. auto.
Qed.

Lemma emits_raise : forall {A} e, emits P (@raise A e).
Proof.
  intros A e w r w' H. injection H as <- <-. exists []. rewrite app_nil_r. auto.
Qed.

Lemma emits_lift : forall {A} (x : result A), emits P (lift x).
Proof.
  intros A x w r w' H. injection H as <- <-. exists []. rewrite app_nil_r. auto.
Qed.

Lemma emits_bind :
  forall {A B} (c : M A) (k : A -> M B),
    emits P c -> (forall a, emits P (k a)) -> emits P (bind c k).
Proof.
  intros A B c k Hc Hk w r w' H. unfold bind in H.
  destruct (c w) as [[a | e] w1] eqn:Hcw.
  - destruct (Hc _ _ _ Hcw) as [evs1 [Ht1 HP1]].
    destruct (Hk a _ _ _ H) as [evs2 [Ht2 HP2]].
    exists (evs1 ++ evs2)%list. split.
    + rewrite Ht2, Ht1, app_assoc. reflexivity.
    + apply Forall_app; auto.
  - injection H as <- <-. exact (Hc _ _ _ Hcw).
Qed.

Lemma emits_try_except :
  forall {A} (c : M A) (h : exn -> M A),
    emits P c -> (forall e, emits P (h e)) -> emits P (try_except c h).
Proof.
  intros A c h Hc Hh w r w' H. unfold try_except in H.
  destruct (c w) as [[a | e] w1] eqn:Hcw.
  - injection H as <- <-. exact (Hc _ _ _ Hcw).
  - destruct (Hc _ _ _ Hcw) as [evs1 [Ht1 HP1]].
    destruct (Hh e _ _ _ H) as [evs2 [Ht2 HP2]].
    exists (evs1 ++ evs2)%list. split.
    + rewrite Ht2, Ht1, app_assoc. reflexivity.
    + apply Forall_app; auto.
Qed.

Lemma emits_time_time : forall E, emits P (time_time E).
Proof.
  intros E w r w' H. injection H as <- <-. exists []. rewrite app_nil_r. auto.
Qed.

Lemma emits_write_file :
  forall c, emits P (fun w => (Ok tt, write_file c w)).
Proof.
  intros c w r w' H. injection H as <- <-. exists []. rewrite app_nil_r. auto.
Qed.

Lemma emits_msal_interactive :
  forall E, P InteractiveFlow -> emits P (msal_interactive E).
Proof.
  intros E HP w r w' H. injection H as <- <-. exists [InteractiveFlow]. auto.
Qed.

Lemma emits_msal_for_client :
  forall E, P ClientCredentialsFlow -> emits P (msal_for_client E).
Proof.
  intros E HP w r w' H. injection H as <- <-. exists [ClientCredentialsFlow]. auto.
Qed.

Lemma emits_requests_send :
  forall E req, P (Http req) -> emits P (requests_send E req).
Proof.
  intros E req HP w r w' H. unfold requests_send in H.
  destruct (remote E (trace w) req); injection H as <- <-; exists [Http req]; auto.
Qed.

End Emits.

Ltac emits_step :=
  first
    [ apply emits_ret | apply emits_raise | apply emits_lift
    | apply emits_time_time | apply emits_write_file
    | apply emits_msal_interactive | apply emits_msal_for_client
    | apply emits_requests_send
    | apply emits_bind; [| intros ?]
    | apply emits_try_except; [| intros ?]
    | match goal with
      | |- emits _ (match ?x with _ => _ end) => destruct x
      | |- emits _ (if ?b then _ else _) => destruct b
      end ].

Lemma emits_get_access_token :
  forall P E,
    P InteractiveFlow -> P ClientCredentialsFlow -> emits P (get_access_token E).
Proof.
  intros P E Hi Hc. unfold get_access_token.
  destruct (AUTH_MODE E =? "service_account").
  - unfold _get_service_account_token. repeat emits_step; assumption.
  - unfold _get_interactive_token. apply emits_bind.
    + intros w r w' H. unfold _load_cached_token in H.
      destruct (token_cache_file w).
      * revert w r w' H. repeat emits_step.
      * injection H as <- <-. exists []. rewrite app_nil_r. auto.
    + intros cached. unfold _save_token_cache. repeat emits_step; assumption.
Qed.

Lemma emits_get_headers :
  forall P E,
    P InteractiveFlow -> P ClientCredentialsFlow -> emits P (get_headers E).
Proof.
  intros P E Hi Hc. unfold get_headers.
  apply emits_bind; [apply emits_get_access_token; assumption | intros; apply emits_ret].
Qed.

Lemma emits_api_get :
  forall P E endpoint params,
    P InteractiveFlow -> P ClientCredentialsFlow ->
    (forall hdrs, P (Http (get_request endpoint hdrs params))) ->
    emits P (api_get E endpoint params).
Proof.
  intros P E endpoint params Hi Hc Hget. unfold api_get.
  apply emits_bind; [apply emits_get_headers; assumption | intros hdrs].
  repeat emits_step. apply (Hget hdrs).
Qed.

(** ** The create payload *)

Lemma In_dict_set :
  forall d k v k' v',
    In (k, v) (dict_set d k' v') -> (k, v) = (k', v') \/ In (k, v) d.
Proof.
  induction d as [| [k0 v0] rest IH]; intros k v k' v' H; simpl in H.
  - destruct H as [H | []]. left. congruence.
  - destruct (k0 =? k') eqn:Hk.
    + apply String.eqb_eq in Hk. subst k0. destruct H as [H | H].
      * left. congruence.
      * right. right. exact H.
    + destruct H as [H | H].
      * right. left. exact H.
      * apply IH in H. destruct H as [H | H]; [left | right; right]; exact H.
Qed.

Lemma In_set_when :
  forall c d k v k' v',
    In (k, v) (set_when c d k' v') ->
    (c = true /\ k = k' /\ v = v') \/ In (k, v) d.
Proof.
  intros c d k v k' v' H. destruct c; simpl in H.
  - apply In_dict_set in H. destruct H as [H | H]; [left | right; exact H].
    injection H as -> ->. auto.
  - right. exact H.
Qed.

Lemma dict_find_dict_set :
  forall d k v k',
    dict_find (dict_set d k v) k' = if k =? k' then Some v else dict_find d k'.
Proof.
  induction d as [| [k0 v0] rest IH]; intros k v k'; simpl.
  - destruct (k =? k'); reflexivity.
  - destruct (k0 =? k) eqn:Hk0; simpl.
    + apply String.eqb_eq in Hk0. subst k0.
      destruct (k =? k'); reflexivity.
    + rewrite IH. destruct (k0 =? k') eqn:Hk0'; [| reflexivity].
      apply String.eqb_eq in Hk0'. subst k0. rewrite String.eqb_sym, Hk0. reflexivity.
Qed.

Lemma dict_find_set_when :
  forall c d k v k',
    dict_find (set_when c d k v) k' =
      if c && (k =? k') then Some v else dict_find d k'.
Proof.
  intros c d k v k'. destruct c; simpl; [apply dict_find_dict_set | reflexivity].
Qed.

Ltac find_in_body :=
  unfold create_body, Leads.lead_data, Opportunities.data, Opportunities.bind_contact,
         Opportunities.bind_account, Opportunities.data_fields;
  rewrite !dict_find_set_when;
  cbn [String.eqb Ascii.eqb Bool.eqb dict_find];
  rewrite ?andb_false_r, ?andb_true_r.

Lemma truthy_not_none : forall v, truthy v = true -> v <> PNone.
Proof. intros v H ->. discriminate. Qed.

Lemma is_not_none_not_none : forall v, is_not_none v = true -> v <> PNone.
Proof. intros v H ->. discriminate. Qed.

Ltac peel H :=
  repeat (apply In_set_when in H; destruct H as [(? & ? & ?) | H]).

Ltac given_entry :=
  subst;
  split;
  [ first [ apply truthy_not_none; assumption
          | apply is_not_none_not_none; assumption
          | discriminate ]
  | simpl; tauto ].

Lemma lead_data_entries :
  forall repr a acc con,
    entries_from_arguments repr (CreateLead a) acc con (Leads.lead_data a acc con).
Proof.
  intros repr a acc con k v H. unfold Leads.lead_data in H.
  peel H; try given_entry.
  simpl in H. split.
  - intuition (try congruence).
  - left. simpl. tauto.
Qed.

Lemma opportunity_data_entries :
  forall repr a acc con text,
    Opportunities.description a = Some text ->
    entries_from_arguments repr (CreateOpportunity a) acc con
      (Opportunities.data repr a acc con).
Proof.
  intros repr a acc con text Hd k v H.
  unfold Opportunities.data, Opportunities.bind_contact, Opportunities.bind_account,
         Opportunities.data_fields in H.
  peel H; try given_entry.
  simpl in H. destruct H as [H | [H | [H | []]]]; injection H as <- <-.
  - split; [discriminate | simpl; tauto].
  - split; [rewrite Hd; discriminate | simpl; tauto].
  - split; [discriminate | simpl; tauto].
Qed.

Lemma unique_value :
  forall (d : pydict) k v v',
    NoDup (keys d) -> In (k, v) d -> In (k, v') d -> v = v'.
Proof.
  induction d as [| [k0 v0] rest IH]; intros k v v' Hnd H1 H2; [contradiction |].
  simpl in Hnd. inversion Hnd as [| ? ? Hnotin Hnd']; subst.
  destruct H1 as [H1 | H1], H2 as [H2 | H2].
  - congruence.
  - injection H1 as -> ->. exfalso. apply Hnotin.
    change k with (fst (k, v')). apply in_map. exact H2.
  - injection H2 as -> ->. exfalso. apply Hnotin.
    change k with (fst (k, v)). apply in_map. exact H1.
  - eapply IH; eauto.
Qed.

Lemma optional_keys_distinct :
  forall c, NoDup (keys (optional_fields c)).
Proof.
  intros [a | a]; simpl;
    repeat (constructor; [simpl; intuition discriminate |]); constructor.
Qed.

Lemma in_keys : forall (d : pydict) k, In k (keys d) -> exists v, In (k, v) d.
Proof.
  intros d k H. unfold keys in H. apply in_map_iff in H.
  destruct H as [[k' v] [Hk Hin]]. simpl in Hk. subst. eauto.
Qed.

Lemma absent_from_entries :
  forall repr c acc con body,
    entries_from_arguments repr c acc con body ->
    absent_arguments_not_sent_but_shared c body.
Proof.
  intros repr c acc con body Hentries k Hnone Hkey.
  apply in_keys in Hkey. destruct Hkey as [v Hin].
  destruct (Hentries k v Hin) as [Hv [Hreq | [Hopt | Hbind]]].
  - destruct c as [a | a]; simpl in Hreq, Hnone.
    + exfalso. intuition congruence.
    + destruct Hreq as [Hreq | [Hreq | []]]; injection Hreq as <- <-.
      * exfalso. intuition congruence.
      * split; [reflexivity | eauto].
  - exfalso. apply Hv.
    exact (unique_value _ _ _ _ (optional_keys_distinct c) Hopt Hnone).
  - exfalso. destruct c as [a | a]; simpl in Hbind, Hnone;
      destruct Hbind as [[Hk _] | [Hk _]]; subst k; intuition congruence.
Qed.

Lemma create_body_bindings :
  forall E c acc con,
    bindings_sent (py_repr E) c acc con (create_body E c acc con).
Proof.
  intros E [a | a] acc con; split; intros Hid; find_in_body; rewrite ?Hid; reflexivity.
Qed.

Lemma reads_allowed_posts :
  forall ok, reads_allowed (posts_satisfy ok).
Proof.
  intros ok. repeat split; simpl; auto. intros r Hget Hpost. congruence.
Qed.

Lemma emits_api_get_reads :
  forall P E endpoint params,
    reads_allowed P -> emits P (api_get E endpoint params).
Proof.
  intros P E endpoint params (Hi & Hc & Hget).
  apply emits_api_get; auto.
Qed.

Lemma emits_get_custom_entity_id :
  forall P E endpoint guid id_field,
    reads_allowed P -> emits P (get_custom_entity_id E endpoint guid id_field).
Proof.
  intros P E endpoint guid id_field (Hi & Hc & Hget).
  unfold get_custom_entity_id.
  apply emits_try_except; [| intros; apply emits_ret].
  apply emits_bind; [apply emits_get_headers; assumption | intros hdrs].
  repeat emits_step. apply Hget. reflexivity.
Qed.

Lemma emits_api_post :
  forall ok E endpoint data id_field,
    ok data -> emits (posts_satisfy ok) (api_post E endpoint data id_field).
Proof.
  intros ok E endpoint data id_field Hok. unfold api_post.
  apply emits_bind; [apply emits_get_headers; exact I | intros hdrs].
  apply emits_try_except; [| intros; apply emits_ret].
  apply emits_bind.
  - apply emits_requests_send. simpl. intros _. eauto.
  - intros resp.
    repeat first [ apply emits_get_custom_entity_id; apply reads_allowed_posts
                 | emits_step ].
Qed.

Lemma emits_search_accounts :
  forall P E t n, reads_allowed P -> emits P (Accounts.search_accounts E t n).
Proof.
  intros P E t n HP. unfold Accounts.search_accounts.
  apply emits_bind; [apply emits_api_get_reads; exact HP | intros].
  repeat emits_step.
Qed.

Lemma emits_search_contacts :
  forall P E t n, reads_allowed P -> emits P (Contacts.search_contacts E t n).
Proof.
  intros P E t n HP. unfold Contacts.search_contacts.
  apply emits_bind; [apply emits_api_get_reads; exact HP | intros].
  repeat emits_step.
Qed.

Lemma emits_resolve_account :
  forall P E t, reads_allowed P -> emits P (resolve_account E t).
Proof.
  intros P E t HP. unfold resolve_account.
  apply emits_bind; [apply emits_search_accounts; exact HP | intros].
  repeat emits_step.
Qed.

Lemma emits_resolve_contact :
  forall P E t, reads_allowed P -> emits P (resolve_contact E t).
Proof.
  intros P E t HP. unfold resolve_contact.
  apply emits_bind; [apply emits_search_contacts; exact HP | intros].
  repeat emits_step.
Qed.

Lemma emits_when_given :
  forall P name lookup,
    (forall t, emits P (lookup t)) -> emits P (when_given name lookup).
Proof.
  intros P name lookup H. unfold when_given.
  destruct name as [t |]; [destruct (truthy (PStr t)) |]; auto using emits_ret.
Qed.

Lemma emits_account_step :
  forall P E c, reads_allowed P -> emits P (account_step E c).
Proof.
  intros P E [a | a] HP; simpl.
  - apply emits_when_given. intros. apply emits_resolve_account, HP.
  - apply emits_resolve_account, HP.
Qed.

Lemma emits_contact_step :
  forall P E c, reads_allowed P -> emits P (contact_step E c).
Proof.
  intros P E [a | a] HP; simpl.
  - apply emits_when_given. intros. apply emits_resolve_contact, HP.
  - apply emits_resolve_contact, HP.
Qed.

Lemma posted_bodies_app :
  forall t1 t2, posted_bodies (t1 ++ t2) = (posted_bodies t1 ++ posted_bodies t2)%list.
Proof. intros t1 t2. unfold posted_bodies. apply flat_map_app. Qed.

Lemma posted_bodies_satisfy :
  forall ok evs body,
    Forall (posts_satisfy ok) evs -> In body (posted_bodies evs) -> ok body.
Proof.
  intros ok evs body Hall Hin. unfold posted_bodies in Hin.
  apply in_flat_map in Hin. destruct Hin as [e [He Hb]].
  rewrite Forall_forall in Hall. specialize (Hall e He).
  destruct e as [r | |]; simpl in Hb; try contradiction.
  destruct (req_method r) eqn:Hm; try contradiction.
  destruct (req_json r) as [b |] eqn:Hj; [| contradiction].
  destruct Hb as [<- | []].
  simpl in Hall. destruct (Hall Hm) as [b' [Hb' Hok]].
  congruence.
Qed.

(** C5, as the spec words it, fails: [create_opportunity] called without
    the optional [xylos_contractverlenging] still posts a body that has the
    key [xylos_contractverlenging]. *)
Lemma absent_contract_flag_is_sent :
  Opportunities.xylos_contractverlenging (sample_opportunity (Some "Short note")) = None /\
  exists body,
    In body (posted_bodies (trace (snd
      (run_create crm_without_accounts
         (CreateOpportunity (sample_opportunity (Some "Short note"))) fresh_world)))) /\
    In "xylos_contractverlenging" (keys body) /\
    ~ absent_arguments_not_sent (CreateOpportunity (sample_opportunity (Some "Short note"))) body.
Proof.
  split; [reflexivity |].
  exists [("name", PStr "Renewal 2025"); ("description", PStr "Short note");
          ("xylos_contractverlenging", PBool true);
          ("parentcontactid@odata.bind", PStr "/contacts(C-7)")].
  split; [vm_compute; left; reflexivity |].
  split; [simpl; tauto |].
  intros H. apply (H "xylos_contractverlenging"); simpl; tauto.
Qed.

(** The three steps of a create call that has passed the length check:
    a body that is posted is the body built from the ids that the two
    lookup steps of this run have resolved. *)
Lemma create_steps_post :
  forall E c (finish : value -> value -> value -> M pydict) w r w',
    (acc <- account_step E c ;;
     con <- contact_step E c ;;
     id <- api_post E (create_endpoint c) (create_body E c acc con) (create_id_field c) ;;
     finish acc con id) w = (r, w') ->
    (forall acc con id w0 r0 w0', finish acc con id w0 = (r0, w0') -> trace w0' = trace w0) ->
    exists evs,
      trace w' = (trace w ++ evs)%list /\
      forall body, In body (posted_bodies evs) ->
        exists acc w1 con w2,
          account_step E c w = (Ok acc, w1) /\
          contact_step E c w1 = (Ok con, w2) /\
          body = create_body E c acc con.
Proof.
  intros E c finish w r w' Hrun Hfinish. unfold bind in Hrun.
  destruct (account_step E c w) as [racc w1] eqn:Hacc.
  destruct (emits_account_step (posts_satisfy (fun _ => False)) E c
              (reads_allowed_posts _) w racc w1 Hacc) as (evs1 & Ht1 & Hall1).
  assert (Hno1 : forall body, ~ In body (posted_bodies evs1))
    by (intros body Hin; exact (posted_bodies_satisfy _ _ _ Hall1 Hin)).
  destruct racc as [acc | e];
    [| injection Hrun as <- <-; exists evs1; split; [exact Ht1 |];
       intros body Hin; destruct (Hno1 body Hin)].
  destruct (contact_step E c w1) as [rcon w2] eqn:Hcon.
  destruct (emits_contact_step (posts_satisfy (fun _ => False)) E c
              (reads_allowed_posts _) w1 rcon w2 Hcon) as (evs2 & Ht2 & Hall2).
  assert (Hno2 : forall body, ~ In body (posted_bodies evs2))
    by (intros body Hin; exact (posted_bodies_satisfy _ _ _ Hall2 Hin)).
  destruct rcon as [con | e].
  - destruct (api_post E (create_endpoint c) (create_body E c acc con) (create_id_field c) w2)
      as [rid w3] eqn:Hpost.
    destruct (emits_api_post (fun b => b = create_body E c acc con) E _ _ _ eq_refl
                w2 rid w3 Hpost) as (evs3 & Ht3 & Hall3).
    assert (Hw' : trace w' = trace w3).
    { destruct rid as [id | e]; [exact (Hfinish _ _ _ _ _ _ Hrun) |].
      injection Hrun as <- <-. reflexivity. }
    exists (evs1 ++ evs2 ++ evs3)%list. split.
    + rewrite Hw', Ht3, Ht2, Ht1, !app_assoc. reflexivity.
    + intros body Hin. rewrite !posted_bodies_app in Hin.
      apply in_app_or in Hin. destruct Hin as [Hin | Hin]; [destruct (Hno1 body Hin) |].
      apply in_app_or in Hin. destruct Hin as [Hin | Hin]; [destruct (Hno2 body Hin) |].
      exists acc, w1, con, w2. split; [reflexivity |]. split; [exact Hcon |].
      exact (posted_bodies_satisfy _ _ _ Hall3 Hin).
  - injection Hrun as <- <-. exists (evs1 ++ evs2)%list. split.
    + rewrite Ht2, Ht1, app_assoc. reflexivity.
    + intros body Hin. rewrite posted_bodies_app in Hin.
      apply in_app_or in Hin. destruct Hin as [Hin | Hin];
        [destruct (Hno1 body Hin) | destruct (Hno2 body Hin)].
Qed.

(** C5, amended.  Every body that a create call posts is built from the
    arguments of the call and from the two ids that the lookup steps of the
    call have resolved, and from nothing else: each entry is a required
    argument, an optional argument that was given, or the binding of a
    resolved id (for [create_lead] the id itself, for [create_opportunity]
    the path [/accounts(<id>)] or [/contacts(<id>)]), and no entry carries
    [None]; the binding of an id that was resolved is in the body.  The key
    of an optional argument that is [None] is not in the body, with one
    exception: [create_opportunity] always sends [xylos_contractverlenging],
    which carries the required [contract_verlengingen] when the optional
    argument of that name is absent. *)
Theorem create_payload_from_arguments :
  forall (E : environment) (c : create_call) (w : world)
         (r : result pydict) (w' : world),
    run_create E c w = (r, w') ->
    exists evs,
      trace w' = (trace w ++ evs)%list /\
      forall body, In body (posted_bodies evs) ->
        exists acc w1 con w2,
          account_step E c w = (Ok acc, w1) /\
          contact_step E c w1 = (Ok con, w2) /\
          entries_from_arguments (py_repr E) c acc con body /\
          bindings_sent (py_repr E) c acc con body /\
          absent_arguments_not_sent_but_shared c body.
Proof.
  intros E c w r w' Hrun.
  assert (Hsteps :
    exists evs,
      trace w' = (trace w ++ evs)%list /\
      forall body, In body (posted_bodies evs) ->
        (exists text, validated_text c = PStr text) /\
        exists acc w1 con w2,
          account_step E c w = (Ok acc, w1) /\
          contact_step E c w1 = (Ok con, w2) /\
          body = create_body E c acc con).
  { assert (Hnone : forall (res : result pydict),
              (res, w) = (r, w') ->
              exists evs,
                trace w' = (trace w ++ evs)%list /\
                forall body, In body (posted_bodies evs) ->
                  (exists text, validated_text c = PStr text) /\
                  exists acc w1 con w2,
                    account_step E c w = (Ok acc, w1) /\
                    contact_step E c w1 = (Ok con, w2) /\
                    body = create_body E c acc con).
    { intros res H. injection H as _ <-. exists []. rewrite app_nil_r.
      split; [reflexivity | intros body []]. }
    destruct c as [a | a]; simpl in Hrun.
    - unfold Leads.create_lead in Hrun.
      destruct (40 <? String.length (Leads.subject a))%nat; [exact (Hnone _ Hrun) |].
      destruct (create_steps_post E (CreateLead a) _ w r w' Hrun) as (evs & Ht & Hbodies);
        [intros acc con id w0 r0 w0' H; destruct (truthy id);
         injection H as _ <-; reflexivity |].
      exists evs. split; [exact Ht |]. intros body Hin.
      split; [simpl; eauto | exact (Hbodies body Hin)].
    - unfold Opportunities.create_opportunity in Hrun.
      destruct (Opportunities.description a) as [text |] eqn:Hd;
        [| exact (Hnone _ Hrun)].
      unfold bind at 1 in Hrun. unfold lift at 1 in Hrun. simpl py_len in Hrun.
      cbv beta iota in Hrun.
      destruct (40 <? String.length text)%nat; [exact (Hnone _ Hrun) |].
      destruct (create_steps_post E (CreateOpportunity a) _ w r w' Hrun)
        as (evs & Ht & Hbodies);
        [intros acc con id w0 r0 w0' H; destruct (truthy id);
         injection H as _ <-; reflexivity |].
      exists evs. split; [exact Ht |]. intros body Hin.
      split; [simpl; rewrite Hd; simpl; eauto | exact (Hbodies body Hin)]. }
  destruct Hsteps as (evs & Ht & Hbodies).
  exists evs. split; [exact Ht |].
  intros body Hin.
  destruct (Hbodies body Hin) as ((text & Htext) & acc & w1 & con & w2 & Hacc & Hcon & ->).
  exists acc, w1, con, w2. split; [exact Hacc |]. split; [exact Hcon |].
  assert (Hentries : entries_from_arguments (py_repr E) c acc con (create_body E c acc con)).
  { destruct c as [a | a]; simpl.
    - apply lead_data_entries.
    - simpl in Htext. destruct (Opportunities.description a) as [d |] eqn:Hd;
        [| discriminate].
      eapply opportunity_data_entries. exact Hd. }
  split; [exact Hentries |].
  split; [apply create_body_bindings |].
  eapply absent_from_entries. exact Hentries.
Qed.

(** The opportunity of the sample run is posted with the binding of the
    contact that was resolved, [/contacts(C-7)], and with no account
    binding, as no account was found. *)
Lemma create_payload_from_arguments_witness :
  exists evs,
    trace (snd (run_create crm_without_accounts
                  (CreateOpportunity (sample_opportunity (Some "Short note")))
                  fresh_world)) = (trace fresh_world ++ evs)%list /\
    posted_bodies evs =
      [[("name", PStr "Renewal 2025"); ("description", PStr "Short note");
        ("xylos_contractverlenging", PBool true);
        ("parentcontactid@odata.bind", PStr "/contacts(C-7)")]] /\
    forall body, In body (posted_bodies evs) ->
      entries_from_arguments sample_repr
        (CreateOpportunity (sample_opportunity (Some "Short note")))
        PNone (PStr "C-7") body /\
      bindings_sent sample_repr
        (CreateOpportunity (sample_opportunity (Some "Short note")))
        PNone (PStr "C-7") body /\
      absent_arguments_not_sent_but_shared
        (CreateOpportunity (sample_opportunity (Some "Short note"))) body.
Proof.
  destruct (create_payload_from_arguments crm_without_accounts
              (CreateOpportunity (sample_opportunity (Some "Short note"))) fresh_world
              _ _ (surjective_pairing _)) as (evs & Ht & Hbodies).
  exists evs. split; [exact Ht |].
  assert (Hevs : posted_bodies evs =
      [[("name", PStr "Renewal 2025"); ("description", PStr "Short note");
        ("xylos_contractverlenging", PBool true);
        ("parentcontactid@odata.bind", PStr "/contacts(C-7)")]]).
  { clear Hbodies. vm_compute in Ht. subst evs. reflexivity. }
  split; [exact Hevs |].
  intros body Hin.
  destruct (Hbodies body Hin) as (acc & w1 & con & w2 & Hacc & Hcon & Hall).
  vm_compute in Hacc. injection Hacc as <- <-.
  vm_compute in Hcon. injection Hcon as <- _.
  exact Hall.
Defined.

(** ** A lookup that finds nothing *)

Lemma keys_dict_set :
  forall d k k' v', In k (keys (dict_set d k' v')) -> k = k' \/ In k (keys d).
Proof.
  intros d k k' v' H. apply in_keys in H. destruct H as [v H].
  apply In_dict_set in H. destruct H as [H | H].
  - left. congruence.
  - right. unfold keys. change k with (fst (k, v)). apply in_map. exact H.
Qed.

Lemma keys_set_when :
  forall c d k k' v',
    In k (keys (set_when c d k' v')) -> (c = true /\ k = k') \/ In k (keys d).
Proof.
  intros c d k k' v' H. destruct c; simpl in H.
  - apply keys_dict_set in H. tauto.
  - tauto.
Qed.

Ltac peel_keys H :=
  repeat (apply keys_set_when in H; destruct H as [[? ?] | H]);
  try discriminate;
  try (simpl in H; intuition discriminate).

Lemma no_account_binding :
  forall E c con, ~ In (account_binding_key c) (keys (create_body E c PNone con)).
Proof.
  intros E [a | a] con H; simpl in H.
  - unfold Leads.lead_data in H. peel_keys H.
  - unfold Opportunities.data, Opportunities.bind_contact, Opportunities.bind_account,
           Opportunities.data_fields in H. peel_keys H.
Qed.

Lemma no_contact_binding :
  forall E c acc, ~ In (contact_binding_key c) (keys (create_body E c acc PNone)).
Proof.
  intros E [a | a] acc H; simpl in H.
  - unfold Leads.lead_data in H. peel_keys H.
  - unfold Opportunities.data, Opportunities.bind_contact, Opportunities.bind_account,
           Opportunities.data_fields in H. peel_keys H.
Qed.

Lemma account_step_no_match :
  forall E c t w w1,
    account_term c = Some t ->
    Accounts.search_accounts E t 1 w = (Ok [], w1) ->
    account_step E c w = (Ok PNone, w1).
Proof.
  intros E [a | a] t w w1 Ht Hs; unfold account_term in Ht; unfold account_step.
  - unfold when_given. destruct (Leads.parentaccountname a) as [t' |]; [| discriminate].
    destruct (truthy (PStr t')); [| discriminate]. injection Ht as ->.
    unfold resolve_account, bind. rewrite Hs. reflexivity.
  - injection Ht as <-. unfold resolve_account, bind. rewrite Hs. reflexivity.
Qed.

Lemma contact_step_no_match :
  forall E c t w w1,
    contact_term c = Some t ->
    Contacts.search_contacts E t 1 w = (Ok [], w1) ->
    contact_step E c w = (Ok PNone, w1).
Proof.
  intros E [a | a] t w w1 Ht Hs; unfold contact_term in Ht; unfold contact_step.
  - unfold when_given. destruct (Leads.parentcontactname a) as [t' |]; [| discriminate].
    destruct (truthy (PStr t')); [| discriminate]. injection Ht as ->.
    unfold resolve_contact, bind. rewrite Hs. reflexivity.
  - injection Ht as <-. unfold resolve_contact, bind. rewrite Hs. reflexivity.
Qed.

(** A create call that passes the length check, whose two lookup steps
    return and whose POST returns: the result is the success result when the
    gateway hands back a business key, the failure result when it does not,
    and the success result of [create_opportunity] reports the two resolved
    ids as they are. *)
Lemma run_create_steps :
  forall E c s w acc w1 con w2 id w3,
    validated_text c = PStr s ->
    String.length s <= 40 ->
    account_step E c w = (Ok acc, w1) ->
    contact_step E c w1 = (Ok con, w2) ->
    api_post E (create_endpoint c) (create_body E c acc con) (create_id_field c) w2
      = (Ok id, w3) ->
    exists res,
      run_create E c w = (Ok res, w3) /\
      (truthy id = true ->
         succeeded res /\
         dict_get res "linked_account_id" PNone = match c with
                                                  | CreateLead _ => PNone
                                                  | CreateOpportunity _ => acc
                                                  end /\
         dict_get res "linked_contact_id" PNone = match c with
                                                  | CreateLead _ => PNone
                                                  | CreateOpportunity _ => con
                                                  end) /\
      (truthy id = false -> dict_find res "success" = Some (PBool false)).
Proof.
  intros E [a | a] s w acc w1 con w2 id w3 Htext Hlen Hacc Hcon Hpost; simpl in *.
  - injection Htext as <-.
    unfold Leads.create_lead.
    assert (Hguard : (40 <? String.length (Leads.subject a))%nat = false)
      by (apply Nat.ltb_ge; exact Hlen).
    rewrite Hguard. unfold bind. rewrite Hacc, Hcon, Hpost.
    destruct (truthy id); eexists; (split; [reflexivity |]);
      split; intros; try discriminate; repeat split; reflexivity.
  - unfold Opportunities.create_opportunity.
    destruct (Opportunities.description a) as [text |]; simpl in Htext; [| discriminate].
    injection Htext as <-.
    assert (Hguard : (40 <? String.length text)%nat = false)
      by (apply Nat.ltb_ge; exact Hlen).
    unfold bind, lift. simpl. rewrite Hguard, Hacc, Hcon, Hpost.
    destruct (truthy id); eexists; (split; [reflexivity |]);
      split; intros; try discriminate; repeat split; reflexivity.
Qed.

(** C4. A create call that passes the length check and whose account
    search returns no record goes on: when the contact step returns and the
    gateway's POST returns, the body that was posted has no account binding,
    and the call returns the success result as soon as the gateway hands
    back a business key, with [linked_account_id] absent or [None].  The
    same holds for the contact search and [linked_contact_id]. *)
Theorem create_proceeds_without_match :
  forall (E : environment) (c : create_call) (s : string) (w : world),
    validated_text c = PStr s ->
    String.length s <= 40 ->
    (forall t w1 con w2 id w3,
        account_term c = Some t ->
        Accounts.search_accounts E t 1 w = (Ok [], w1) ->
        contact_step E c w1 = (Ok con, w2) ->
        api_post E (create_endpoint c) (create_body E c PNone con) (create_id_field c) w2
          = (Ok id, w3) ->
        ~ In (account_binding_key c) (keys (create_body E c PNone con)) /\
        exists res,
          run_create E c w = (Ok res, w3) /\
          (truthy id = true -> succeeded res /\ absent_or_null res "linked_account_id"))
    /\
    (forall acc w1 t w2 id w3,
        account_step E c w = (Ok acc, w1) ->
        contact_term c = Some t ->
        Contacts.search_contacts E t 1 w1 = (Ok [], w2) ->
        api_post E (create_endpoint c) (create_body E c acc PNone) (create_id_field c) w2
          = (Ok id, w3) ->
        ~ In (contact_binding_key c) (keys (create_body E c acc PNone)) /\
        exists res,
          run_create E c w = (Ok res, w3) /\
          (truthy id = true -> succeeded res /\ absent_or_null res "linked_contact_id")).
Proof.
  intros E c s w Htext Hlen. split.
  - intros t w1 con w2 id w3 Ht Hs Hcon Hpost.
    split; [apply no_account_binding |].
    pose proof (account_step_no_match _ _ _ _ _ Ht Hs) as Hacc.
    destruct (run_create_steps _ _ _ _ _ _ _ _ _ _ Htext Hlen Hacc Hcon Hpost)
      as (res & Hrun & Hok & _).
    exists res. split; [exact Hrun |].
    intros Hid. destruct (Hok Hid) as (Hs1 & Ha & _).
    split; [exact Hs1 |]. unfold absent_or_null. rewrite Ha. destruct c; reflexivity.
  - intros acc w1 t w2 id w3 Hacc Ht Hs Hpost.
    split; [apply no_contact_binding |].
    pose proof (contact_step_no_match _ _ _ _ _ Ht Hs) as Hcon.
    destruct (run_create_steps _ _ _ _ _ _ _ _ _ _ Htext Hlen Hacc Hcon Hpost)
      as (res & Hrun & Hok & _).
    exists res. split; [exact Hrun |].
    intros Hid. destruct (Hok Hid) as (Hs1 & _ & Hc).
    split; [exact Hs1 |]. unfold absent_or_null. rewrite Hc. destruct c; reflexivity.
Qed.

(** The run of the theorem above on the sample CRM that holds no account:
    the opportunity is created, with no account linked. *)
Lemma create_proceeds_without_match_witness :
  exists res w',
    run_create crm_without_accounts
      (CreateOpportunity (sample_opportunity (Some "Short note"))) fresh_world
      = (Ok res, w') /\
    succeeded res /\ absent_or_null res "linked_account_id" /\
    dict_find res "opportunity_id" = Some (PStr "OPP-042").
Proof.
  destruct (proj1 (create_proceeds_without_match crm_without_accounts
                     (CreateOpportunity (sample_opportunity (Some "Short note")))
                     "Short note" fresh_world eq_refl ltac:(simpl; lia))
              "Acme" _ _ _ _ _ eq_refl eq_refl eq_refl eq_refl)
    as (_ & res & Hrun & Hok).
  exists res. eexists. split; [exact Hrun |].
  destruct (Hok eq_refl) as [Hs Ha].
  split; [exact Hs |]. split; [exact Ha |].
  vm_compute in Hrun. injection Hrun as <-. reflexivity.
Defined.

Lemma formatting_total_on_search_results_witness :
  exists report,
    Accounts.format_accounts_output sample_repr
      [[("account_id", PStr "A-1"); ("name", PStr "Acme"); ("email", PNone);
        ("phone", PNone); ("city", PNone); ("country", PNone);
        ("type", PStr "account")]] = Ok report /\
    report_shape "accounts" "No accounts found matching your search criteria." 1 report.
Proof.
  exact (proj1 (formatting_total_on_search_results crm_with_acme sample_repr
                  fresh_world _ _) "Acme" 2%Z eq_refl).
Defined.

(** ** The token cache of the interactive strategy *)


(** Without a valid cached token the loader yields a value that counts as
    no token, reads the clock at most once and touches nothing else. *)
Lemma load_cached_token_invalid :
  forall E w,
    (forall token, ~ cached_valid E w token) ->
    exists v w1,
      _load_cached_token E w = (Ok v, w1) /\
      truthy v = false /\
      trace w1 = trace w /\
      token_cache_file w1 = token_cache_file w /\
      (ticks w1 = ticks w \/ ticks w1 = S (ticks w)).
Proof.
  intros E w Hinv. unfold _load_cached_token.
  destruct (token_cache_file w) as [[| v] |] eqn:Hfile.
  - exists PNone, w. repeat split; auto.
  - unfold try_except, bind, lift, time_time. simpl.
    destruct v as [| b | z | f | s | l | d];
      try (exists PNone, w; repeat split; auto; fail).
    simpl.
    destruct (gt_float (dict_get d "expires_on" (PInt 0)) (clock E (ticks w) + 300))
      as [[|] | e] eqn:Hgt.
    + unfold dict_getitem.
      destruct (dict_find d "access_token") as [token |] eqn:Htok.
      * exists token, (tick w). split; [reflexivity |].
        split; [| simpl; repeat split; auto].
        destruct (truthy token) eqn:Htruthy; [| reflexivity].
        exfalso. apply (Hinv token). exists d. unfold more_than_after. auto.
      * exists PNone, (tick w). simpl. repeat split; auto.
    + exists PNone, (tick w). simpl. repeat split; auto.
    + exists PNone, (tick w). simpl. repeat split; auto.
  - exists PNone, w. repeat split; auto.
Qed.




(** The margin is taken in doubles.  With the clock at 0.1 the double
    [0.1 + 300] is the double 300.1, so a token stamped 300.1 is not later
    than the margin and a new flow runs, although the number that the
    double 300.1 stands for exceeds 300 plus the number that the double 0.1
    stands for.  The stamp written for the new token is the double
    [(0.1 + 3600) - 300]. *)
Example stamp_on_the_rounded_margin_is_stale :
  exists w',
    get_access_token (interactive_env_at 0.1) (world_with_cache "CACHED" 300.1) =
      (Ok (PStr "NEW"), w') /\
    trace w' = [InteractiveFlow] /\
    token_cache_file w' =
      Some (JsonFile (PDict [("access_token", PStr "NEW");
                             ("expires_on", PFloat 3300.1)])).
Proof.
  eexists. split; [reflexivity |].
  split; reflexivity.
Qed.

(** An integer stamp is compared exactly, not after conversion to a
    double: [2^53 + 1] is later than the double [2^53], which is the sum
    of the clock reading [2^53 - 300] and the margin. *)
Example integer_stamp_is_compared_exactly :
  get_access_token (interactive_env_at 9007199254740692)
    {| ticks := 0;
       token_cache_file :=
         Some (JsonFile (PDict [("access_token", PStr "CACHED");
                                ("expires_on", PInt 9007199254740993)]));
       trace := [] |} =
  (Ok (PStr "CACHED"),
   {| ticks := 1;
      token_cache_file :=
        Some (JsonFile (PDict [("access_token", PStr "CACHED");
                               ("expires_on", PInt 9007199254740993)]));
      trace := [] |}).
Proof. reflexivity. Qed.

(** ** The pattern of the entity id *)

Lemma span_no_rparen_spec :
  forall s run tail,
    span_no_rparen s = (run, tail) ->
    s = run ++ tail /\ no_rparen run = true /\
    (tail = "" \/ exists t, tail = String ")" t).
Proof.
  induction s as [| c rest IH]; intros run tail H; simpl in H.
  - injection H as <- <-. auto.
  - destruct (Ascii.eqb c ")") eqn:Hc.
    + injection H as <- <-. apply Ascii.eqb_eq in Hc. subst c.
      repeat split; eauto.
    + destruct (span_no_rparen rest) as [run' tail'] eqn:Hrest.
      injection H as <- <-.
      destruct (IH _ _ eq_refl) as (Heq & Hno & Htail).
      simpl. rewrite Hc, Hno. rewrite <- Heq. auto.
Qed.

Lemma span_no_rparen_unique :
  forall g post,
    no_rparen g = true ->
    span_no_rparen (g ++ String ")" post) = (g, String ")" post).
Proof.
  induction g as [| c g IH]; intros post Hno; simpl.
  - reflexivity.
  - simpl in Hno. apply andb_prop in Hno. destruct Hno as [Hc Hg].
    apply negb_true_iff in Hc. rewrite Hc, (IH post Hg). reflexivity.
Qed.

Lemma match_here_group :
  forall s g, match_here s = Some g <-> group_at s "" g.
Proof.
  intros s g. split.
  - intros H. destruct s as [| c rest]; [discriminate |]. simpl in H.
    destruct (Ascii.eqb c "(") eqn:Hc; [| discriminate].
    apply Ascii.eqb_eq in Hc. subst c.
    destruct (span_no_rparen rest) as [run tail] eqn:Hspan.
    destruct run as [| g0 gs]; [discriminate |].
    destruct tail as [| t0 ts]; [discriminate |].
    injection H as <-.
    destruct (span_no_rparen_spec _ _ _ Hspan) as (Heq & Hno & Htail).
    destruct Htail as [Ht | [t Ht]]; [discriminate |]. injection Ht as -> ->.
    exists t. simpl. rewrite Heq. simpl. repeat split; [discriminate | exact Hno].
  - intros (post & Heq & Hne & Hno). subst s. simpl.
    change (g ++ ")" ++ post) with (g ++ String ")" post).
    rewrite (span_no_rparen_unique g post Hno).
    destruct g; [contradiction | reflexivity].
Qed.

Lemma group_at_cons :
  forall c s pre g, group_at (String c s) (String c pre) g <-> group_at s pre g.
Proof.
  intros c s pre g. split; intros (post & Heq & Hne & Hno); exists post.
  - simpl in Heq. injection Heq as ->. auto.
  - simpl. rewrite Heq. auto.
Qed.

Lemma group_at_head :
  forall c s pre g,
    group_at (String c s) pre g ->
    pre = "" \/ exists pre', pre = String c pre' /\ group_at s pre' g.
Proof.
  intros c s pre g H. destruct pre as [| c' pre']; [left; reflexivity | right].
  destruct H as (post & Heq & Hne & Hno). simpl in Heq. injection Heq as <- ->.
  exists pre'. split; [reflexivity |]. exists post. auto.
Qed.

Lemma re_search_group_eq :
  forall s,
    re_search_group s =
      match match_here s with
      | Some g => Some g
      | None =>
          match s with
          | EmptyString => None
          | String _ rest => re_search_group rest
          end
      end.
Proof. destruct s; reflexivity. Qed.

Lemma re_search_group_first :
  forall s g, re_search_group s = Some g -> first_group s g.
Proof.
  induction s as [| c rest IH]; intros g H.
  - simpl in H. discriminate.
  - rewrite re_search_group_eq in H.
    destruct (match_here (String c rest)) as [g' |] eqn:Hhere.
    + injection H as ->.
      exists "". split.
      * apply match_here_group. exact Hhere.
      * intros pre' g' _. simpl. lia.
    + destruct (IH g H) as (pre0 & Hgroup & Hmin).
      exists (String c pre0). split.
      * apply group_at_cons. exact Hgroup.
      * intros pre' g' Hg'. destruct pre' as [| c' p].
        -- apply match_here_group in Hg'. congruence.
        -- apply group_at_head in Hg'.
           destruct Hg' as [Hnil | (p' & Hp' & Hp)]; [discriminate |].
           injection Hp' as -> ->. simpl. specialize (Hmin p' g' Hp). lia.
Qed.

Lemma re_search_group_none :
  forall s, re_search_group s = None -> forall pre g, ~ group_at s pre g.
Proof.
  induction s as [| c rest IH]; intros H pre g Hg.
  - destruct Hg as (post & Heq & _). destruct pre; discriminate.
  - rewrite re_search_group_eq in H.
    destruct (match_here (String c rest)) as [g' |] eqn:Hhere; [discriminate |].
    destruct pre as [| c' p].
    + apply match_here_group in Hg. congruence.
    + apply group_at_head in Hg.
      destruct Hg as [Hnil | (p' & Hp' & Hp)]; [discriminate |].
      exact (IH H p' g Hp).
Qed.

(** ** The create-then-refetch gateway *)

Lemma http_requests_app :
  forall t1 t2, http_requests (t1 ++ t2) = (http_requests t1 ++ http_requests t2)%list.
Proof. intros. unfold http_requests. apply flat_map_app. Qed.

Lemma http_requests_no_http :
  forall evs, Forall no_http evs -> http_requests evs = [].
Proof.
  intros evs H. induction H as [| e evs He _ IH]; [reflexivity |].
  destruct e; simpl in *; [contradiction | exact IH | exact IH].
Qed.

(** Acquiring a token sends nothing to the remote API. *)
Lemma get_headers_no_http :
  forall E w r w',
    get_headers E w = (r, w') -> http_requests (trace w') = http_requests (trace w).
Proof.
  intros E w r w' H.
  destruct (emits_get_headers no_http E I I w r w' H) as [evs [Htrace Hall]].
  rewrite Htrace, http_requests_app, (http_requests_no_http _ Hall), app_nil_r.
  reflexivity.
Qed.

Lemma http_requests_log :
  forall r w, http_requests (trace (log (Http r) w)) = (http_requests (trace w) ++ [r])%list.
Proof. intros. simpl. rewrite http_requests_app. reflexivity. Qed.

Lemma get_custom_entity_id_run :
  forall E endpoint guid id_field w hdrs w1,
    get_headers E w = (Ok hdrs, w1) ->
    get_custom_entity_id E endpoint guid id_field w =
      (Ok (refetched id_field
             (remote E (trace w1) (refetch_request endpoint guid id_field hdrs))),
       log (Http (refetch_request endpoint guid id_field hdrs)) w1).
Proof.
  intros E endpoint guid id_field w hdrs w1 Hh.
  unfold get_custom_entity_id, try_except, bind. rewrite Hh.
  unfold requests_send, refetch_request, refetched.
  destruct (remote E (trace w1) _) as [r |]; [| reflexivity].
  destruct (status_code r =? 200)%Z; [| reflexivity].
  unfold lift, response_json. destruct (resp_json r) as [v |]; [| reflexivity].
  destruct v; try reflexivity. simpl.
  destruct (truthy (dict_get d id_field PNone)); reflexivity.
Qed.

Lemma get_custom_entity_id_no_token :
  forall E endpoint guid id_field w e w1,
    get_headers E w = (Raise e, w1) ->
    get_custom_entity_id E endpoint guid id_field w = (Ok PNone, w1).
Proof.
  intros E endpoint guid id_field w e w1 Hh.
  unfold get_custom_entity_id, try_except, bind. rewrite Hh. reflexivity.
Qed.

Lemma api_post_created :
  forall E endpoint data id_field w hdrs w1 resp guid,
    get_headers E w = (Ok hdrs, w1) ->
    remote E (trace w1) (post_request endpoint hdrs data) = Answer resp ->
    status_code resp = 204%Z ->
    re_search_group (entity_id_header resp) = Some guid ->
    api_post E endpoint data id_field w =
      match get_custom_entity_id E endpoint guid id_field
              (log (Http (post_request endpoint hdrs data)) w1) with
      | (Ok v, w') => (Ok v, w')
      | (Raise _, w') => (Ok PNone, w')
      end.
Proof.
  intros E endpoint data id_field w hdrs w1 resp guid Hh Hans Hstatus Hguid.
  unfold api_post, try_except, bind. rewrite Hh.
  unfold requests_send. fold (post_request endpoint hdrs data). rewrite Hans.
  rewrite Hstatus. simpl Z.eqb. cbv iota.
  fold (entity_id_header resp).
  destruct (entity_id_header resp =? "") eqn:Hempty.
  - apply String.eqb_eq in Hempty. rewrite Hempty in Hguid. discriminate.
  - simpl negb. cbv iota. rewrite Hguid. reflexivity.
Qed.

Lemma api_post_not_created :
  forall E endpoint data id_field w hdrs w1,
    get_headers E w = (Ok hdrs, w1) ->
    (remote E (trace w1) (post_request endpoint hdrs data) = NoAnswer \/
     exists resp,
       remote E (trace w1) (post_request endpoint hdrs data) = Answer resp /\
       (status_code resp <> 204%Z \/ re_search_group (entity_id_header resp) = None)) ->
    api_post E endpoint data id_field w =
      (Ok PNone, log (Http (post_request endpoint hdrs data)) w1).
Proof.
  intros E endpoint data id_field w hdrs w1 Hh Hcase.
  unfold api_post, try_except, bind. rewrite Hh.
  unfold requests_send. fold (post_request endpoint hdrs data).
  destruct Hcase as [Hans | (resp & Hans & Hwhy)]; rewrite Hans; [reflexivity |].
  destruct (status_code resp =? 204)%Z eqn:Hstatus; [| reflexivity].
  destruct Hwhy as [Hne | Hnone]; [apply Z.eqb_eq in Hstatus; contradiction |].
  fold (entity_id_header resp). rewrite Hnone.
  destruct (negb (entity_id_header resp =? "")); reflexivity.
Qed.

(** C1, as the spec words it, fails: when the [OData-EntityId] header holds
    more than one parenthesised group, the follow-up GET is made on the
    first group, not on the text between the last "(" and ")". *)
Lemma api_post_takes_first_group :
  guid_between_last_parens (base_api_url ++ "/accounts(A-1)/leads(L-2)") = Some "L-2" /\
  exists hdrs,
    http_requests (trace (snd
      (api_post crm_two_groups "leads" [] "xylos_leadidentifier" fresh_world))) =
      [post_request "leads" hdrs [];
       refetch_request "leads" "A-1" "xylos_leadidentifier" hdrs] /\
    refetch_request "leads" "A-1" "xylos_leadidentifier" hdrs <>
    refetch_request "leads" "L-2" "xylos_leadidentifier" hdrs.
Proof.
  split; [reflexivity |].
  eexists. split; [reflexivity | discriminate].
Qed.

(** C1, amended.  [api_post] sends one POST.  When the answer has status
    204 and its [OData-EntityId] header holds a parenthesised group, the
    GUID is the first such group (the non-empty text without ")" between a
    "(" and the next ")", at the leftmost place where there is one); one
    GET follows, on that GUID and selecting [id_field] alone, and the value
    of the field is returned, or [None] when that GET fails, its body is no
    JSON object, or the field is absent or empty.  When the answer to the
    POST is missing, has another status, or holds no group, [None] is
    returned and no GET is made; the same when the token for the GET cannot
    be obtained. *)
Theorem api_post_create_then_refetch :
  forall (E : environment) (endpoint : string) (data : pydict) (id_field : string)
         (w : world) (hdrs : list (string * string)) (w1 : world),
    get_headers E w = (Ok hdrs, w1) ->
    (forall resp guid hdrs2 w3,
        remote E (trace w1) (post_request endpoint hdrs data) = Answer resp ->
        status_code resp = 204%Z ->
        re_search_group (entity_id_header resp) = Some guid ->
        get_headers E (log (Http (post_request endpoint hdrs data)) w1) = (Ok hdrs2, w3) ->
        first_group (entity_id_header resp) guid /\
        api_post E endpoint data id_field w =
          (Ok (refetched id_field
                 (remote E (trace w3) (refetch_request endpoint guid id_field hdrs2))),
           log (Http (refetch_request endpoint guid id_field hdrs2)) w3) /\
        http_requests (trace (log (Http (refetch_request endpoint guid id_field hdrs2)) w3)) =
          (http_requests (trace w) ++
           [post_request endpoint hdrs data;
            refetch_request endpoint guid id_field hdrs2])%list)
    /\
    (forall resp guid e w3,
        remote E (trace w1) (post_request endpoint hdrs data) = Answer resp ->
        status_code resp = 204%Z ->
        re_search_group (entity_id_header resp) = Some guid ->
        get_headers E (log (Http (post_request endpoint hdrs data)) w1) = (Raise e, w3) ->
        api_post E endpoint data id_field w = (Ok PNone, w3) /\
        http_requests (trace w3) =
          (http_requests (trace w) ++ [post_request endpoint hdrs data])%list)
    /\
    ((remote E (trace w1) (post_request endpoint hdrs data) = NoAnswer \/
      exists resp,
        remote E (trace w1) (post_request endpoint hdrs data) = Answer resp /\
        (status_code resp <> 204%Z \/ re_search_group (entity_id_header resp) = None)) ->
     api_post E endpoint data id_field w =
       (Ok PNone, log (Http (post_request endpoint hdrs data)) w1) /\
     http_requests (trace (log (Http (post_request endpoint hdrs data)) w1)) =
       (http_requests (trace w) ++ [post_request endpoint hdrs data])%list)
    /\
    (forall resp,
        re_search_group (entity_id_header resp) = None ->
        forall pre g, ~ group_at (entity_id_header resp) pre g).
Proof.
  intros E endpoint data id_field w hdrs w1 Hh.
  pose proof (get_headers_no_http _ _ _ _ Hh) as Hw1.
  split; [| split; [| split]];
    [| | | intros resp Hnone; apply re_search_group_none; exact Hnone].
  - intros resp guid hdrs2 w3 Hans Hstatus Hguid Hh2.
    split; [apply re_search_group_first; exact Hguid |].
    split.
    + rewrite (api_post_created _ _ _ _ _ _ _ _ _ Hh Hans Hstatus Hguid).
      rewrite (get_custom_entity_id_run _ _ _ _ _ _ _ Hh2). reflexivity.
    + rewrite http_requests_log, (get_headers_no_http _ _ _ _ Hh2),
        http_requests_log, Hw1, <- app_assoc. reflexivity.
  - intros resp guid e w3 Hans Hstatus Hguid Hh2.
    split.
    + rewrite (api_post_created _ _ _ _ _ _ _ _ _ Hh Hans Hstatus Hguid).
      rewrite (get_custom_entity_id_no_token _ _ _ _ _ _ _ Hh2). reflexivity.
    + rewrite (get_headers_no_http _ _ _ _ Hh2), http_requests_log, Hw1. reflexivity.
  - intros Hcase. split.
    + apply api_post_not_created; assumption.
    + rewrite http_requests_log, Hw1. reflexivity.
Qed.

(** The round trip of the spec: a 204 whose header ends in
    [leads(11111111-1111-1111-1111-111111111111)] and a follow-up GET that
    yields [LEAD-042]. *)
Lemma api_post_create_then_refetch_witness :
  fst (api_post crm_with_acme "leads" [("subject", PStr "Migration")]
         "xylos_leadidentifier" fresh_world) = Ok (PStr "LEAD-042").
Proof.
  pose proof (proj1 (api_post_create_then_refetch crm_with_acme "leads"
                       [("subject", PStr "Migration")] "xylos_leadidentifier"
                       fresh_world _ _ eq_refl)
                _ "11111111-1111-1111-1111-111111111111" _ _
                eq_refl eq_refl eq_refl eq_refl) as (_ & Hrun & _).
  rewrite Hrun. reflexivity.
Defined.

(** ** Entity resolution *)

Lemma lookup_step_run :
  forall k E c term,
    lookup_term k c = Some term ->
    lookup_step k E c =
      match k with
      | AccountLookup => resolve_account E term
      | ContactLookup => resolve_contact E term
      end.
Proof.
  intros [|] E [a | a] term Ht;
    unfold lookup_term, account_term, contact_term in Ht;
    unfold lookup_step, account_step, contact_step.
  - unfold when_given. destruct (Leads.parentaccountname a) as [t |]; [| discriminate].
    destruct (truthy (PStr t)); [| discriminate]. congruence.
  - congruence.
  - unfold when_given. destruct (Leads.parentcontactname a) as [t |]; [| discriminate].
    destruct (truthy (PStr t)); [| discriminate]. congruence.
  - congruence.
Qed.

Lemma got_answers_json :
  forall a body, answers_json a body -> got a = body.
Proof.
  intros a body (r & -> & Hs & Hj). simpl. rewrite Hs, Hj. reflexivity.
Qed.

Lemma for_each_Forall2 :
  forall {A B} (f : A -> result B) (R : A -> B -> Prop) xs,
    Forall (fun x => exists y, f x = Ok y /\ R x y) xs ->
    exists ys, for_each f xs = Ok ys /\ Forall2 R xs ys.
Proof.
  intros A B f R xs H.
  induction H as [| x rest (y & Hy & HR) _ (ys & Hys & Hall)]; simpl.
  - exists []. split; [reflexivity | constructor].
  - rewrite Hy, Hys. simpl. exists (y :: ys). split; [reflexivity |].
    constructor; assumption.
Qed.

Lemma for_each_stops :
  forall {A B} (f : A -> result B) good bad rest e,
    Forall (fun x => exists y, f x = Ok y) good ->
    f bad = Raise e ->
    for_each f (good ++ bad :: rest) = Raise e.
Proof.
  intros A B f good bad rest e H Hbad.
  induction H as [| x good' (y & Hy) _ IH]; simpl.
  - rewrite Hbad. reflexivity.
  - rewrite Hy, IH. reflexivity.
Qed.

Lemma name_search_run :
  forall k E t n w hdrs w1 body items,
    get_headers E w = (Ok hdrs, w1) ->
    answers_json (remote E (trace w1) (search_request (name_search_call k t n) hdrs))
      (PDict body) ->
    dict_find body "value" = Some (PList items) ->
    name_search k E t n w =
      (match k with
       | AccountLookup => for_each Accounts.format_account items
       | ContactLookup => for_each Contacts.format_contact items
       end,
       log (Http (search_request (name_search_call k t n) hdrs)) w1).
Proof.
  intros k E t n w hdrs w1 body items Hh Hans Hvalue.
  assert (Hbody : value_or_empty (PDict body) = Ok (PList items)).
  { unfold value_or_empty, get_method, dict_get. rewrite Hvalue.
    destruct body; [discriminate | reflexivity]. }
  destruct k; unfold name_search, Accounts.search_accounts, Contacts.search_contacts;
    run_get Hh; sent_request Hans;
    rewrite (got_answers_json _ _ Hans);
    unfold lift; rewrite Hbody; simpl;
    match goal with
    | |- context [for_each ?f items] => destruct (for_each f items); reflexivity
    end.
Qed.

Lemma complete_row_projects :
  forall k item,
    complete_row k item ->
    exists d,
      match k with
      | AccountLookup => Accounts.format_account item
      | ContactLookup => Contacts.format_contact item
      end = Ok d /\ projects k item d.
Proof.
  intros k item (raw & key & name & -> & Hkey & Hname).
  destruct k; simpl in Hkey, Hname;
    unfold Accounts.format_account, Contacts.format_contact, getitem, dict_getitem;
    rewrite Hkey, Hname; simpl;
    eexists; (split; [reflexivity |]); exists raw; simpl;
    rewrite Hkey, Hname; repeat split; reflexivity.
Qed.

(** The query of a lookup is the request of the name search for one
    result. *)
Lemma lookup_query_search_request :
  forall k term hdrs,
    lookup_query k term hdrs = search_request (name_search_call k term 1) hdrs.
Proof. intros [|] term hdrs; reflexivity. Qed.

(** A lookup whose query is answered with the records [items], each with
    its key and its name: the key of the first record is resolved, [None]
    when there is no record. *)
Lemma lookup_takes_first_row :
  forall k E term w hdrs w1 body items,
    get_headers E w = (Ok hdrs, w1) ->
    answers_json (remote E (trace w1) (lookup_query k term hdrs)) (PDict body) ->
    dict_find body "value" = Some (PList items) ->
    Forall (complete_row k) items ->
    exists resolved,
      match k with
      | AccountLookup => resolve_account E term w
      | ContactLookup => resolve_contact E term w
      end = (Ok resolved, log (Http (lookup_query k term hdrs)) w1) /\
      resolves_first k items resolved.
Proof.
  intros k E term w hdrs w1 body items Hh Hans Hvalue Hrows.
  rewrite lookup_query_search_request in Hans |- *.
  pose proof (name_search_run k E term 1 w hdrs w1 body items Hh Hans Hvalue) as Hrun.
  assert (Hall : exists l,
             match k with
             | AccountLookup => for_each Accounts.format_account items
             | ContactLookup => for_each Contacts.format_contact items
             end = Ok l /\ Forall2 (projects k) items l).
  { destruct k; apply for_each_Forall2;
      (eapply Forall_impl; [| exact Hrows]); intros item Hrow;
      [exact (complete_row_projects AccountLookup item Hrow)
      | exact (complete_row_projects ContactLookup item Hrow)]. }
  destruct Hall as (l & Hl & Hproj). rewrite Hl in Hrun.
  destruct Hproj as [| item d items' l' Hp _].
  - exists PNone. split; [| reflexivity].
    destruct k; unfold resolve_account, resolve_contact, bind;
      unfold name_search in Hrun; rewrite Hrun; reflexivity.
  - inversion Hrows as [| ? ? (raw & key & name & Hitem & Hkey & Hname) _]; subst.
    destruct Hp as (raw' & Hitem' & Hk & Hn & _).
    injection Hitem' as <-.
    exists key. split; [| exists raw; auto].
    rewrite Hkey in Hk. rewrite Hname in Hn.
    destruct k; unfold resolve_account, resolve_contact, bind;
      unfold name_search in Hrun; rewrite Hrun;
      simpl in Hk, Hn; unfold lift, dict_getitem; rewrite Hk, Hn; reflexivity.
Qed.

Lemma name_matches_inv :
  forall matches field term r,
    name_matches matches field term r = true ->
    exists n, dict_find r field = Some (PStr n) /\ matches term n = true.
Proof.
  intros matches field term r H. unfold name_matches in H.
  destruct (dict_find r field) as [[| | | | n | |] |]; try discriminate. eauto.
Qed.

(** C7. Every lookup step of a create call sends one query to the entity
    set of its kind: the filter [contains(<name field>, '<term>')], ordered
    by the same name field, limited to one row ([name] for accounts,
    [fullname] for contacts).  Whatever else the answer carries, the step
    resolves the key of the first record of the answer, and [None] when the
    answer has no record.  Hence, against a remote API that answers the
    query as asked (the records whose name contains the term, in ascending
    order of the name, cut to the first ones), the record that is resolved
    is one whose name contains the term and comes first among all such
    names. *)
Theorem resolution_takes_alphabetically_first :
  forall (k : lookup_kind) (E : environment) (c : create_call) (term : string)
         (w : world) (hdrs : list (string * string)) (w1 : world)
         (body : pydict) (items : list value),
    lookup_term k c = Some term ->
    get_headers E w = (Ok hdrs, w1) ->
    answers_json (remote E (trace w1) (lookup_query k term hdrs)) (PDict body) ->
    dict_find body "value" = Some (PList items) ->
    Forall (complete_row k) items ->
    exists resolved,
      lookup_step k E c w = (Ok resolved, log (Http (lookup_query k term hdrs)) w1) /\
      resolves_first k items resolved /\
      forall (matches : string -> string -> bool) (name_le : string -> string -> Prop)
             (table rows : list pydict) (top : nat),
        (forall n, name_le n n) ->
        selected matches name_le (name_field k) term table rows ->
        0 < top ->
        items = map PDict (firstn top rows) ->
        (resolved = PNone /\
         forall r, In r table -> name_matches matches (name_field k) term r = false)
        \/
        (exists r n,
            In r table /\
            dict_find r (key_field k) = Some resolved /\
            dict_find r (name_field k) = Some (PStr n) /\
            matches term n = true /\
            forall r' n',
              In r' table ->
              dict_find r' (name_field k) = Some (PStr n') ->
              matches term n' = true ->
              name_le n n').
Proof.
  intros k E c term w hdrs w1 body items Hterm Hh Hans Hvalue Hrows.
  rewrite (lookup_step_run _ _ _ _ Hterm).
  destruct (lookup_takes_first_row k E term w hdrs w1 body items Hh Hans Hvalue Hrows)
    as (resolved & Hrun & Hfirst).
  exists resolved. split; [destruct k; exact Hrun |]. split; [exact Hfirst |].
  intros matches name_le table rows top Hrefl [Hperm Hsorted] Htop Hitems.
  destruct top as [| top]; [lia |].
  destruct rows as [| first rest]; simpl in Hitems; subst items; simpl in Hfirst.
  - left. split; [exact Hfirst |].
    intros r Hin.
    destruct (name_matches matches (name_field k) term r) eqn:Hm; [| reflexivity].
    exfalso. apply Permutation_nil in Hperm.
    assert (Hf : In r (filter (name_matches matches (name_field k) term) table))
      by (apply filter_In; auto).
    rewrite Hperm in Hf. exact Hf.
  - destruct Hfirst as (raw & Hraw & Hkey). injection Hraw as <-.
    assert (Hin1 : In first (filter (name_matches matches (name_field k) term) table))
      by (eapply Permutation_in; [exact Hperm | left; reflexivity]).
    apply filter_In in Hin1. destruct Hin1 as [Hin Hm].
    apply name_matches_inv in Hm. destruct Hm as (n & Hname & Hmatch).
    right. exists first, n. repeat split; auto.
    intros r' n' Hin' Hname' Hmatch'.
    assert (Hr' : In r' (first :: rest)).
    { eapply Permutation_in; [apply Permutation_sym; exact Hperm |].
      apply filter_In. split; [exact Hin' |].
      unfold name_matches. rewrite Hname'. exact Hmatch'. }
    destruct Hr' as [<- | Hrest].
    + rewrite Hname in Hname'. injection Hname' as <-. apply Hrefl.
    + apply StronglySorted_inv in Hsorted. destruct Hsorted as [_ Hall].
      rewrite Forall_forall in Hall. exact (Hall r' Hrest n n' Hname Hname').
Qed.

Lemma leb_refl : forall s, String.leb s s = true.
Proof. intros s. destruct (String.leb_total s s); assumption. Qed.

(** Among "Zenith Acme", "Acme Corp" and "Globex" the search for "Acme"
    resolves the account "Acme Corp": its name contains the term and no
    name that contains the term comes before it. *)
Lemma resolution_takes_alphabetically_first_witness :
  lookup_step AccountLookup crm_three_accounts
    (CreateOpportunity (sample_opportunity (Some "Short note"))) fresh_world =
  (Ok (PStr "A-1"),
   log (Http (lookup_query AccountLookup "Acme" (bearer_headers sample_repr (PStr "TOKEN"))))
       (log ClientCredentialsFlow fresh_world)) /\
  exists r n,
    In r three_accounts /\
    dict_find r "accountid" = Some (PStr "A-1") /\
    dict_find r "name" = Some (PStr n) /\
    contains "Acme" n = true /\
    forall r' n',
      In r' three_accounts ->
      dict_find r' "name" = Some (PStr n') ->
      contains "Acme" n' = true ->
      String.leb n n' = true.
Proof.
  destruct (resolution_takes_alphabetically_first AccountLookup crm_three_accounts
              (CreateOpportunity (sample_opportunity (Some "Short note"))) "Acme"
              fresh_world _ _
              [("@odata.context", PStr "$metadata#accounts(accountid,name)");
               ("value", PList (map PDict (firstn 1 sorted_acme_rows)))]
              (map PDict (firstn 1 sorted_acme_rows))
              eq_refl eq_refl
              ltac:(eexists; repeat split; reflexivity)
              eq_refl
              ltac:(repeat constructor; do 3 eexists; repeat split; reflexivity))
    as (resolved & Hrun & Hfirst & Hwhich).
  destruct Hfirst as (raw & Hraw & Hkey).
  injection Hraw as <-. injection Hkey as <-.
  split; [exact Hrun |].
  destruct (Hwhich contains (fun a b => String.leb a b = true)
              three_accounts sorted_acme_rows 1 leb_refl) as [[Hnone _] | Hfound].
  - split.
    + apply perm_swap.
    + repeat constructor.
      intros n1 n2 H1 H2. injection H1 as <-. injection H2 as <-. reflexivity.
  - lia.
  - reflexivity.
  - discriminate Hnone.
  - exact Hfound.
Defined.

(** A remote API that ignores [$top] and answers with three accounts: the
    key of the first one is resolved. *)
Example lookup_takes_first_of_many :
  lookup_step AccountLookup crm_ignoring_top
    (CreateOpportunity (sample_opportunity (Some "Short note"))) fresh_world =
  (Ok (PStr "A-1"),
   log (Http (lookup_query AccountLookup "Acme" (bearer_headers sample_repr (PStr "TOKEN"))))
       (log ClientCredentialsFlow fresh_world)).
Proof. reflexivity. Qed.

(* ================================================================== *)
(** * Further properties of the gateway *)
(* ================================================================== *)

Lemma try_except_swallows :
  forall {A} (c : M A) (x : A) w,
    exists v w', try_except c (fun _ => ret x) w = (Ok v, w').
Proof.
  intros A c x w. unfold try_except, ret.
  destruct (c w) as [[a | e] w']; eauto.
Qed.

(** X1. The three gateway operations raise only the exception of the token
    acquisition that opens them: a transport error, a bad status or an
    unreadable body never comes out as an exception. *)
Theorem gateway_raises_only_without_token :
  forall (E : environment) (endpoint : string) (params : option pydict)
         (data : pydict) (id_field : string) (w : world) (e : exn) (w' : world),
    (api_get E endpoint params w = (Raise e, w') -> get_headers E w = (Raise e, w')) /\
    (api_post E endpoint data id_field w = (Raise e, w') ->
       get_headers E w = (Raise e, w')) /\
    (api_patch E endpoint data w = (Raise e, w') -> get_headers E w = (Raise e, w')).
Proof.
  intros E endpoint params data id_field w e w'.
  repeat split; intros H;
    unfold api_get, api_post, api_patch, bind in H;
    (destruct (get_headers E w) as [[hdrs | e0] w0];
     [| injection H as <- <-; reflexivity]);
    match type of H with
    | try_except ?c ?h ?w1 = _ =>
        destruct (try_except_swallows c
                    ltac:(match h with (fun _ => ret ?x) => exact x end) w1)
          as (v & w2 & Hok)
    end;
    rewrite Hok in H; discriminate.
Qed.

Lemma gateway_raises_only_without_token_witness :
  get_headers (refusing_env "service_account") fresh_world =
    (Raise (PyException "Service auth failed: Unknown error"),
     log ClientCredentialsFlow fresh_world).
Proof.
  exact (proj1 (gateway_raises_only_without_token (refusing_env "service_account")
                  "accounts" None [] "" fresh_world _ _) eq_refl).
Defined.

(** X2. [get_custom_entity_id] never raises, and every failure on its way
    comes out as [None].  When the token cannot be obtained it returns
    [None] and sends nothing.  Otherwise it sends the one follow-up GET
    under the headers just built and returns the value of the business-key
    field of the answer, or [None] when the GET fails, the status is not
    200, the body is no JSON object, or the field is absent or empty. *)
Theorem get_custom_entity_id_never_raises :
  forall (E : environment) (endpoint guid id_field : string) (w : world),
    get_custom_entity_id E endpoint guid id_field w =
      match get_headers E w with
      | (Ok hdrs, w1) =>
          (Ok match remote E (trace w1) (refetch_request endpoint guid id_field hdrs) with
              | Answer r =>
                  match resp_json r with
                  | Some (PDict d) =>
                      match dict_find d id_field with
                      | Some v =>
                          if (status_code r =? 200)%Z && truthy v then v else PNone
                      | None => PNone
                      end
                  | _ => PNone
                  end
              | NoAnswer => PNone
              end,
           log (Http (refetch_request endpoint guid id_field hdrs)) w1)
      | (Raise _, w1) => (Ok PNone, w1)
      end.
Proof.
  intros E endpoint guid id_field w.
  destruct (get_headers E w) as [[hdrs | e] w1] eqn:Hh.
  - rewrite (get_custom_entity_id_run _ _ _ _ _ _ _ Hh). f_equal. f_equal.
    unfold refetched, dict_get.
    destruct (remote E (trace w1) _) as [r |]; [| reflexivity].
    destruct (status_code r =? 200)%Z;
      destruct (resp_json r) as [[| | | | | | d] |]; try reflexivity;
      destruct (dict_find d id_field) as [v |]; reflexivity.
  - exact (get_custom_entity_id_no_token _ _ _ _ _ _ _ Hh).
Qed.

(** Against a remote API that is down the follow-up GET yields [None];
    without a token nothing is sent. *)
Example get_custom_entity_id_failures :
  get_custom_entity_id (service_env unreachable) "leads" "G-1" "xylos_leadidentifier"
    fresh_world =
    (Ok PNone,
     log (Http (refetch_request "leads" "G-1" "xylos_leadidentifier"
                  (bearer_headers sample_repr (PStr "TOKEN"))))
         (log ClientCredentialsFlow fresh_world)) /\
  get_custom_entity_id (refusing_env "service_account") "leads" "G-1"
    "xylos_leadidentifier" fresh_world =
    (Ok PNone, log ClientCredentialsFlow fresh_world).
Proof. split; reflexivity. Qed.

Lemma get_headers_token :
  forall E w token w1,
    get_access_token E w = (Ok token, w1) ->
    get_headers E w = (Ok (bearer_headers (py_repr E) token), w1).
Proof.
  intros E w token w1 H. unfold get_headers, bind. rewrite H. reflexivity.
Qed.

Lemma get_headers_no_token :
  forall E w e w1,
    get_access_token E w = (Raise e, w1) -> get_headers E w = (Raise e, w1).
Proof.
  intros E w e w1 H. unfold get_headers, bind. rewrite H. reflexivity.
Qed.

(** X3. Every request that a gateway operation sends carries the bearer
    token that the token acquisition just before it has returned, with the
    four OData headers, goes to its URL under the base URL of the API, and
    has the timeout of its method: 120 seconds for the POST, 30 seconds for
    a GET or a PATCH.  [api_get] and [api_patch] send that one request and
    nothing else.  [api_post] sends its POST and then either nothing, or
    the follow-up GET of some record id under the token of a second
    acquisition, made after the POST; when that acquisition fails, no
    follow-up GET is sent. *)
Theorem gateway_requests_well_formed :
  forall (E : environment) (endpoint : string) (params : option pydict)
         (data : pydict) (id_field : string) (w : world) (token : value) (w1 : world),
    get_access_token E w = (Ok token, w1) ->
    snd (api_get E endpoint params w) =
      log (Http {| req_method := GET;
                   req_url := base_api_url ++ "/" ++ endpoint;
                   req_headers := bearer_headers (py_repr E) token;
                   req_params := params; req_json := None; req_timeout := 30 |}) w1
    /\
    snd (api_patch E endpoint data w) =
      log (Http {| req_method := PATCH;
                   req_url := base_api_url ++ "/" ++ endpoint;
                   req_headers := bearer_headers (py_repr E) token;
                   req_params := None; req_json := Some data; req_timeout := 30 |}) w1
    /\
    forall posted,
      posted =
        log (Http {| req_method := POST;
                     req_url := base_api_url ++ "/" ++ endpoint;
                     req_headers := bearer_headers (py_repr E) token;
                     req_params := None; req_json := Some data; req_timeout := 120 |}) w1 ->
      snd (api_post E endpoint data id_field w) = posted \/
      exists guid,
        snd (api_post E endpoint data id_field w) =
          match get_access_token E posted with
          | (Ok token', w2) =>
              log (Http {| req_method := GET;
                           req_url := base_api_url ++ "/" ++ endpoint ++ "(" ++ guid
                                      ++ ")?$select=" ++ id_field;
                           req_headers := bearer_headers (py_repr E) token';
                           req_params := None; req_json := None; req_timeout := 30 |}) w2
          | (Raise _, w2) => w2
          end.
Proof.
  intros E endpoint params data id_field w token w1 Htoken.
  pose proof (get_headers_token _ _ _ _ Htoken) as Hh.
  split; [| split].
  - rewrite (api_get_run _ _ _ _ _ _ Hh). reflexivity.
  - unfold api_patch, bind, try_except. rewrite Hh. unfold requests_send.
    destruct (remote E (trace w1) _); reflexivity.
  - intros posted ->.
    fold (post_request endpoint (bearer_headers (py_repr E) token) data).
    set (hdrs := bearer_headers (py_repr E) token) in *.
    assert (Hnot : forall resp,
               remote E (trace w1) (post_request endpoint hdrs data) = Answer resp ->
               status_code resp <> 204%Z \/ re_search_group (entity_id_header resp) = None ->
               api_post E endpoint data id_field w =
                 (Ok PNone, log (Http (post_request endpoint hdrs data)) w1)).
    { intros resp Hans Hwhy. apply (api_post_not_created _ _ _ _ _ _ _ Hh). eauto. }
    destruct (remote E (trace w1) (post_request endpoint hdrs data)) as [resp |] eqn:Hans;
      [| left; rewrite (api_post_not_created _ _ _ _ _ _ _ Hh); auto].
    destruct (Z.eq_dec (status_code resp) 204) as [Hstatus | Hstatus];
      [| left; rewrite (Hnot resp eq_refl); auto].
    destruct (re_search_group (entity_id_header resp)) as [guid |] eqn:Hguid;
      [| left; rewrite (Hnot resp eq_refl); auto].
    right. exists guid.
    rewrite (api_post_created _ _ _ _ _ _ _ _ _ Hh Hans Hstatus Hguid).
    destruct (get_access_token E (log (Http (post_request endpoint hdrs data)) w1))
      as [[token' | e] w2] eqn:Htoken'.
    + rewrite (get_custom_entity_id_run _ _ _ _ _ _ _ (get_headers_token _ _ _ _ Htoken')).
      reflexivity.
    + rewrite (get_custom_entity_id_no_token _ _ _ _ _ _ _
                 (get_headers_no_token _ _ _ _ Htoken')).
      reflexivity.
Qed.

Lemma gateway_requests_well_formed_witness :
  snd (api_get crm_with_acme "accounts" None fresh_world) =
    log (Http {| req_method := GET;
                 req_url := base_api_url ++ "/accounts";
                 req_headers := bearer_headers sample_repr (PStr "TOKEN");
                 req_params := None; req_json := None; req_timeout := 30 |})
        (log ClientCredentialsFlow fresh_world).
Proof.
  exact (proj1 (gateway_requests_well_formed crm_with_acme "accounts" None [] ""
                  fresh_world _ _ eq_refl)).
Defined.

(** The lead of the sample CRM is posted under the token of the first
    exchange, and its business key is read under the token of a second
    exchange made after the POST. *)
Example api_post_acquires_two_tokens :
  trace (snd (api_post crm_with_acme "leads" [("subject", PStr "Migration")]
                "xylos_leadidentifier" fresh_world)) =
    [ClientCredentialsFlow;
     Http {| req_method := POST;
             req_url := base_api_url ++ "/leads";
             req_headers := bearer_headers sample_repr (PStr "TOKEN");
             req_params := None;
             req_json := Some [("subject", PStr "Migration")];
             req_timeout := 120 |};
     ClientCredentialsFlow;
     Http {| req_method := GET;
             req_url := base_api_url
                        ++ "/leads(11111111-1111-1111-1111-111111111111)?$select=xylos_leadidentifier";
             req_headers := bearer_headers sample_repr (PStr "TOKEN");
             req_params := None; req_json := None; req_timeout := 30 |}].
Proof. reflexivity. Qed.

(* ================================================================== *)
(** * Further properties of the token manager *)
(* ================================================================== *)

(** X4. Under the service-principal strategy every call of
    [get_access_token] runs one client-credentials exchange and nothing
    else: the cache file is neither read nor written and the clock is not
    consulted, even when a valid cached token lies on disk.  The call
    returns a token exactly when the answer of the identity provider has an
    [access_token], and that token is the one returned. *)
Theorem service_token_every_call :
  forall (E : environment) (w : world),
    (AUTH_MODE E =? "service_account") = true ->
    exists r,
      get_access_token E w = (r, log ClientCredentialsFlow w) /\
      forall token,
        r = Ok token <->
        exists answer,
          acquire_token_for_client E (trace w) = Ok answer /\
          dict_find answer "access_token" = Some token.
Proof.
  intros E w Hmode. unfold get_access_token. rewrite Hmode.
  unfold _get_service_account_token, bind, msal_for_client.
  destruct (acquire_token_for_client E (trace w)) as [answer | e].
  - destruct (dict_find answer "access_token") as [tok |] eqn:Htok.
    + eexists. split; [reflexivity |]. intros token. split.
      * intros H. injection H as <-. eauto.
      * intros (a & Ha & Hf). injection Ha as <-. congruence.
    + eexists. split; [reflexivity |]. intros token. split.
      * discriminate.
      * intros (a & Ha & Hf). injection Ha as <-. congruence.
  - eexists. split; [reflexivity |]. intros token. split.
    + discriminate.
    + intros (a & Ha & _). discriminate.
Qed.

Lemma service_token_every_call_witness :
  get_access_token (service_env unreachable) (world_with_cache "CACHED" 5000) =
    (Ok (PStr "TOKEN"), log ClientCredentialsFlow (world_with_cache "CACHED" 5000)).
Proof.
  destruct (service_token_every_call (service_env unreachable)
              (world_with_cache "CACHED" 5000) eq_refl) as (r & Hrun & Hiff).
  rewrite Hrun. f_equal. apply Hiff. eexists. split; reflexivity.
Defined.

(** X5. When the interactive flow yields no access token, the call raises
    "Interactive auth failed: ..." with the error description of the
    identity provider ("Unknown error" when there is none), after one flow,
    and the cache file is left as it was: nothing is persisted for a failed
    flow. *)
Theorem failed_interactive_flow_persists_nothing :
  forall (E : environment) (w : world) (answer : pydict),
    (AUTH_MODE E =? "service_account") = false ->
    (forall token, ~ cached_valid E w token) ->
    acquire_token_interactive E (trace w) = Ok answer ->
    dict_find answer "access_token" = None ->
    exists w',
      get_access_token E w =
        (Raise (PyException
                  ("Interactive auth failed: " ++
                   py_str (py_repr E)
                     (dict_get answer "error_description" (PStr "Unknown error")))),
         w') /\
      token_cache_file w' = token_cache_file w /\
      trace w' = (trace w ++ [InteractiveFlow])%list.
Proof.
  intros E w answer Hmode Hinv Hflow Hnone.
  unfold get_access_token. rewrite Hmode.
  destruct (load_cached_token_invalid E w Hinv)
    as (v & w1 & Hload & Hfalsy & Htrace & Hfile & _).
  unfold _get_interactive_token. unfold bind at 1. rewrite Hload, Hfalsy.
  unfold bind, msal_interactive. rewrite Htrace, Hflow, Hnone.
  eexists. split; [reflexivity |]. simpl. rewrite Htrace, Hfile. auto.
Qed.

Lemma failed_interactive_flow_persists_nothing_witness :
  exists w',
    get_access_token (refusing_env "interactive") fresh_world =
      (Raise (PyException "Interactive auth failed: consent denied"), w') /\
    token_cache_file w' = None /\
    trace w' = [InteractiveFlow].
Proof.
  apply (failed_interactive_flow_persists_nothing (refusing_env "interactive")
           fresh_world [("error_description", PStr "consent denied")] eq_refl).
  - intros token (d & Hfile & _). discriminate.
  - reflexivity.
  - reflexivity.
Defined.




(* ================================================================== *)
(** * Further properties of the searches *)
(* ================================================================== *)

(** X7. When the token cannot be obtained, every search and list
    operation, and its tool, raises the exception of the token acquisition
    as it is and sends no request to the remote API. *)
Theorem searches_propagate_auth_failure :
  forall (E : environment) (c : search_call) (w : world) (e : exn) (w1 : world),
    get_headers E w = (Raise e, w1) ->
    run_search E c w = (Raise e, w1) /\
    run_search_tool E c w = (Raise e, w1) /\
    http_requests (trace w1) = http_requests (trace w).
Proof.
  intros E c w e w1 Hh.
  split; [| split; [| exact (get_headers_no_http _ _ _ _ Hh)]];
    destruct c; simpl;
    unfold Accounts.search_accounts_tool, Accounts.search_accounts,
           Contacts.search_contacts_tool, Contacts.search_contacts,
           Leads.search_leads_tool, Leads.search_leads,
           Leads.search_leads_by_date_tool, Leads.search_leads_by_date,
           Opportunities.search_opportunities_by_name_tool,
           Opportunities.search_opportunities_by_name,
           Opportunities.search_opportunities_by_date_tool,
           Opportunities.search_opportunities_by_date,
           Opportunities.get_opportunities_tool, Opportunities.get_opportunities;
    unfold as_list; unfold bind;
    rewrite (api_get_auth_failure _ _ _ _ _ _ Hh); reflexivity.
Qed.

Lemma searches_propagate_auth_failure_witness :
  run_search_tool (refusing_env "service_account") (SearchContacts "Bob" 5) fresh_world =
    (Raise (PyException "Service auth failed: Unknown error"),
     log ClientCredentialsFlow fresh_world).
Proof.
  exact (proj1 (proj2 (searches_propagate_auth_failure (refusing_env "service_account")
                         (SearchContacts "Bob" 5) fresh_world _ _ eq_refl))).
Defined.

(** X8. A name search sends one request, with the cap [max_results] in
    [$top], and returns one projection for every record of the answer to
    that request, in the order of the answer, however many records the
    answer holds: the cap is asked of the remote API and is not applied to
    what comes back.  Each projection carries the key and the name of its
    record. *)
Theorem name_search_returns_every_row :
  forall (k : lookup_kind) (E : environment) (search_term : string) (max_results : Z)
         (w : world) (hdrs : list (string * string)) (w1 : world)
         (body : pydict) (items : list value),
    get_headers E w = (Ok hdrs, w1) ->
    answers_json
      (remote E (trace w1)
         (search_request (name_search_call k search_term max_results) hdrs))
      (PDict body) ->
    dict_find body "value" = Some (PList items) ->
    Forall (complete_row k) items ->
    exists l,
      name_search k E search_term max_results w =
        (Ok l,
         log (Http (search_request (name_search_call k search_term max_results) hdrs)) w1) /\
      List.length l = List.length items /\
      Forall2 (projects k) items l.
Proof.
  intros k E t n w hdrs w1 body items Hh Hans Hvalue Hrows.
  pose proof (name_search_run k E t n w hdrs w1 body items Hh Hans Hvalue) as Hrun.
  assert (Hall : exists l,
             match k with
             | AccountLookup => for_each Accounts.format_account items
             | ContactLookup => for_each Contacts.format_contact items
             end = Ok l /\ Forall2 (projects k) items l).
  { destruct k; apply for_each_Forall2;
      (eapply Forall_impl; [| exact Hrows]); intros item Hrow;
      [exact (complete_row_projects AccountLookup item Hrow)
      | exact (complete_row_projects ContactLookup item Hrow)]. }
  destruct Hall as (l & Hl & Hproj).
  exists l. split; [rewrite Hrun, Hl; reflexivity |].
  split; [symmetry; exact (Forall2_length Hproj) | exact Hproj].
Qed.

(** Three matching accounts come back for a search that asked for two. *)
Lemma name_search_returns_every_row_witness :
  exists l,
    name_search AccountLookup crm_ignoring_top "Acme" 2 fresh_world =
      (Ok l,
       log (Http (get_request "accounts" (bearer_headers sample_repr (PStr "TOKEN"))
                    (Some [("$filter", PStr "contains(name, 'Acme')");
                           ("$select",
                            PStr "accountid,name,emailaddress1,telephone1,address1_city,address1_country");
                           ("$orderby", PStr "name");
                           ("$top", PStr "2")])))
           (log ClientCredentialsFlow fresh_world)) /\
    List.length l = 3.
Proof.
  destruct (name_search_returns_every_row AccountLookup crm_ignoring_top "Acme" 2
              fresh_world _ _
              [("value",
                PList [PDict [("accountid", PStr "A-1"); ("name", PStr "Acme Corp")];
                       PDict [("accountid", PStr "A-2"); ("name", PStr "Acme Labs")];
                       PDict [("accountid", PStr "A-3"); ("name", PStr "Acme Works")]])]
              _ eq_refl
              ltac:(eexists; repeat split; reflexivity)
              eq_refl
              ltac:(repeat constructor; do 3 eexists; repeat split; reflexivity))
    as (l & Hrun & Hlen & _).
  exists l. split; [exact Hrun | exact Hlen].
Defined.

(** X9. A name search whose request is answered with a record that lacks
    its key field raises [KeyError] on that field, and a record that has
    the key but no name raises [KeyError] on the name field; the records
    before it do not save the call.  The request has been sent by then. *)
Theorem name_search_raises_on_incomplete_row :
  forall (k : lookup_kind) (E : environment) (search_term : string) (max_results : Z)
         (w : world) (hdrs : list (string * string)) (w1 : world)
         (body : pydict) (good : list value) (raw : pydict) (rest : list value),
    get_headers E w = (Ok hdrs, w1) ->
    answers_json
      (remote E (trace w1)
         (search_request (name_search_call k search_term max_results) hdrs))
      (PDict body) ->
    dict_find body "value" = Some (PList (good ++ PDict raw :: rest)) ->
    Forall (complete_row k) good ->
    (dict_find raw (key_field k) = None ->
       name_search k E search_term max_results w =
         (Raise (KeyError (key_field k)),
          log (Http (search_request (name_search_call k search_term max_results) hdrs)) w1))
    /\
    (dict_find raw (key_field k) <> None ->
     dict_find raw (name_field k) = None ->
       name_search k E search_term max_results w =
         (Raise (KeyError (name_field k)),
          log (Http (search_request (name_search_call k search_term max_results) hdrs)) w1)).
Proof.
  intros k E t n w hdrs w1 body good raw rest Hh Hans Hvalue Hgood.
  pose proof (name_search_run k E t n w hdrs w1 body _ Hh Hans Hvalue) as Hrun.
  assert (Hok : Forall (fun x => exists y,
                          match k with
                          | AccountLookup => Accounts.format_account x
                          | ContactLookup => Contacts.format_contact x
                          end = Ok y) good).
  { eapply Forall_impl; [| exact Hgood]. intros item Hrow.
    destruct (complete_row_projects k item Hrow) as (d & Hd & _). eauto. }
  split.
  - intros Hkey. rewrite Hrun.
    destruct k; simpl in Hkey;
      (erewrite for_each_stops; [reflexivity | exact Hok |]);
      unfold Accounts.format_account, Contacts.format_contact, getitem, dict_getitem;
      rewrite Hkey; reflexivity.
  - intros Hkey Hname. rewrite Hrun.
    destruct (dict_find raw (key_field k)) as [key |] eqn:Hk; [| contradiction].
    destruct k; simpl in Hk, Hname;
      (erewrite for_each_stops; [reflexivity | exact Hok |]);
      unfold Accounts.format_account, Contacts.format_contact, getitem, dict_getitem;
      rewrite Hk, Hname; reflexivity.
Qed.

Lemma name_search_raises_on_incomplete_row_witness :
  name_search ContactLookup
    (always_json (PDict [("value", PList [PDict [("fullname", PStr "Bob Martin")]])]))
    "Bob" 5 fresh_world =
  (Raise (KeyError "contactid"),
   log (Http (search_request (SearchContacts "Bob" 5)
                (bearer_headers sample_repr (PStr "TOKEN"))))
       (log ClientCredentialsFlow fresh_world)).
Proof.
  apply (proj1 (name_search_raises_on_incomplete_row ContactLookup
                  (always_json (PDict [("value", PList [PDict [("fullname", PStr "Bob Martin")]])]))
                  "Bob" 5 fresh_world _ _
                  [("value", PList [PDict [("fullname", PStr "Bob Martin")]])]
                  [] [("fullname", PStr "Bob Martin")] []
                  eq_refl
                  ltac:(eexists; repeat split; reflexivity)
                  eq_refl ltac:(constructor))).
  reflexivity.
Defined.

Lemma opportunity_line_object :
  forall repr d, exists s, Opportunities.opportunity_line repr (PDict d) = Ok s.
Proof. intros repr d. unfold Opportunities.opportunity_line. simpl. eauto. Qed.

Lemma opportunity_line_not_object :
  forall repr v,
    ~ is_object v -> Opportunities.opportunity_line repr v = Raise AttributeError.
Proof.
  intros repr v Hno. destruct v; try reflexivity.
  exfalso. apply Hno. eexists. reflexivity.
Qed.

Lemma opportunities_run :
  forall E c w hdrs w1 body items,
    lists_opportunities c = true ->
    get_headers E w = (Ok hdrs, w1) ->
    answers_json (remote E (trace w1) (search_request c hdrs)) (PDict body) ->
    dict_find body "value" = Some (PList items) ->
    items <> [] ->
    exists header,
      run_search E c w = (Ok (PList items), log (Http (search_request c hdrs)) w1) /\
      run_search_tool E c w =
        (rbind (for_each (Opportunities.opportunity_line (py_repr E)) items)
           (fun lines => Ok (join nl (header :: lines))),
         log (Http (search_request c hdrs)) w1).
Proof.
  intros E c w hdrs w1 body items Hc Hh Hans Hvalue Hne.
  assert (Hbody : value_or_empty (PDict body) = Ok (PList items)).
  { unfold value_or_empty, get_method, dict_get. rewrite Hvalue.
    destruct body; [discriminate | reflexivity]. }
  assert (Htruthy : truthy (PList items) = true)
    by (destruct items; [contradiction | reflexivity]).
  destruct c; try discriminate;
    unfold run_search, run_search_tool,
           Opportunities.search_opportunities_by_name_tool,
           Opportunities.search_opportunities_by_name,
           Opportunities.search_opportunities_by_date_tool,
           Opportunities.search_opportunities_by_date,
           Opportunities.get_opportunities_tool, Opportunities.get_opportunities;
    run_get Hh; sent_request Hans;
    rewrite (got_answers_json _ _ Hans);
    unfold lift, ret; rewrite Hbody; cbn [py_len]; cbv beta iota;
    unfold Opportunities.opportunities_report; rewrite Htruthy;
    cbn [negb py_len iterate rbind];
    eexists; (split; [reflexivity |]);
    destruct (for_each (Opportunities.opportunity_line (py_repr E)) items);
    reflexivity.
Qed.

(** X10. The three opportunity listings (by name, by date, most recent)
    hand the records of the answer to their request on to their report as
    they are.  On a non-empty answer whose records are all JSON objects the
    tool returns a report, whatever fields the objects have or lack; as
    soon as one record is no object (a string, a number, [null]) the tool
    raises [AttributeError], after the request has been sent. *)
Theorem opportunity_listing_needs_objects :
  forall (E : environment) (c : search_call) (w : world)
         (hdrs : list (string * string)) (w1 : world)
         (body : pydict) (items : list value),
    lists_opportunities c = true ->
    get_headers E w = (Ok hdrs, w1) ->
    answers_json (remote E (trace w1) (search_request c hdrs)) (PDict body) ->
    dict_find body "value" = Some (PList items) ->
    items <> [] ->
    (Forall is_object items ->
       exists report,
         run_search_tool E c w = (Ok report, log (Http (search_request c hdrs)) w1)) /\
    (forall good bad rest,
       items = (good ++ bad :: rest)%list ->
       Forall is_object good ->
       ~ is_object bad ->
       run_search_tool E c w =
         (Raise AttributeError, log (Http (search_request c hdrs)) w1)).
Proof.
  intros E c w hdrs w1 body items Hc Hh Hans Hvalue Hne.
  destruct (opportunities_run E c w hdrs w1 body items Hc Hh Hans Hvalue Hne)
    as (header & _ & Hrun).
  split.
  - intros Hall.
    assert (Hok : Forall (fun x => exists y,
                    Opportunities.opportunity_line (py_repr E) x = Ok y) items).
    { eapply Forall_impl; [| exact Hall]. intros v [d ->].
      apply opportunity_line_object. }
    destruct (for_each_total _ _ Hok) as (lines & Hlines & _).
    rewrite Hrun, Hlines. simpl. eauto.
  - intros good bad rest -> Hgood Hbad.
    assert (Hok : Forall (fun x => exists y,
                    Opportunities.opportunity_line (py_repr E) x = Ok y) good).
    { eapply Forall_impl; [| exact Hgood]. intros v [d ->].
      apply opportunity_line_object. }
    rewrite Hrun.
    rewrite (for_each_stops _ good bad rest AttributeError Hok
               (opportunity_line_not_object _ _ Hbad)).
    reflexivity.
Qed.

Lemma opportunity_listing_needs_objects_witness :
  run_search_tool
    (always_json (PDict [("value", PList [PDict [("name", PStr "Renewal")]; PNone])]))
    (ListOpportunities 10) fresh_world =
  (Raise AttributeError,
   log (Http (get_request "opportunities" (bearer_headers sample_repr (PStr "TOKEN"))
                (Some [("$top", PInt 10); ("$orderby", PStr "createdon desc")])))
       (log ClientCredentialsFlow fresh_world)).
Proof.
  apply (proj2 (opportunity_listing_needs_objects
                  (always_json (PDict [("value", PList [PDict [("name", PStr "Renewal")]; PNone])]))
                  (ListOpportunities 10) fresh_world _ _
                  [("value", PList [PDict [("name", PStr "Renewal")]; PNone])]
                  [PDict [("name", PStr "Renewal")]; PNone]
                  eq_refl eq_refl
                  ltac:(eexists; repeat split; reflexivity)
                  eq_refl ltac:(discriminate))
          [PDict [("name", PStr "Renewal")]] PNone [] eq_refl).
  - repeat constructor. eexists. reflexivity.
  - intros [d Hd]. discriminate.
Defined.

(* ================================================================== *)
(** * Further properties of the create operations *)
(* ================================================================== *)

Lemma create_lead_result :
  forall E a w res w',
    Leads.create_lead E a w = (Ok res, w') ->
    (exists id, truthy id = true /\ dict_find res "success" = Some (PBool true)
                /\ dict_find res "lead_id" = Some id) \/
    (exists msg, dict_find res "success" = Some (PBool false)
                 /\ dict_find res "message" = Some (PStr msg)).
Proof.
  intros E a w res w' H. unfold Leads.create_lead in H.
  destruct (40 <? String.length (Leads.subject a))%nat.
  - injection H as <- _. right. eexists. split; reflexivity.
  - unfold bind, ret in H.
    destruct (when_given (Leads.parentaccountname a) (resolve_account E) w)
      as [[acc | e] w1]; [| discriminate].
    destruct (when_given (Leads.parentcontactname a) (resolve_contact E) w1)
      as [[con | e] w2]; [| discriminate].
    destruct (api_post E "leads" (Leads.lead_data a acc con) "xylos_leadidentifier" w2)
      as [[id | e] w3]; [| discriminate].
    destruct (truthy id) eqn:Hid; injection H as <- _.
    + left. exists id. repeat split; auto.
    + right. eexists. split; reflexivity.
Qed.

Lemma create_opportunity_result :
  forall E a w res w',
    Opportunities.create_opportunity E a w = (Ok res, w') ->
    (exists id msg, dict_find res "success" = Some (PBool true)
                    /\ dict_find res "message" = Some (PStr msg)
                    /\ dict_find res "opportunity_id" = Some id) \/
    (exists msg, dict_find res "success" = Some (PBool false)
                 /\ dict_find res "message" = Some (PStr msg)).
Proof.
  intros E a w res w' H. unfold Opportunities.create_opportunity in H.
  unfold bind, lift, ret in H.
  destruct (py_len (opt_str (Opportunities.description a))) as [n | e]; [| discriminate].
  destruct (40 <? n)%nat.
  - injection H as <- _. right. eexists. split; reflexivity.
  - destruct (resolve_account E (Opportunities.account_search_term a) w)
      as [[acc | e] w1]; [| discriminate].
    destruct (resolve_contact E (Opportunities.contact_search_term a) w1)
      as [[con | e] w2]; [| discriminate].
    destruct (api_post E "opportunities" _ "xylos_opportunityid" w2)
      as [[id | e] w3]; [| discriminate].
    destruct (truthy id) eqn:Hid; injection H as <- _.
    + left. exists id. eexists. repeat split; reflexivity.
    + right. eexists. split; reflexivity.
Qed.

Lemma line_when_set_total :
  forall repr d k prefix, exists l, line_when_set repr d k prefix = Ok l.
Proof.
  intros repr d k prefix. unfold line_when_set, dict_get, dict_getitem.
  destruct (dict_find d k) as [v |]; simpl.
  - destruct (truthy v); simpl; eauto.
  - eauto.
Qed.

(** X11. The tool of a create operation returns a string whenever the
    operation returns a result, in the same world: the keys it reads from
    the result ([success], then [lead_id] or [opportunity_id] and
    [message]) are there in every result the operation builds.  When the
    operation raises, the tool raises the same exception. *)
Theorem create_tool_follows_create :
  forall (E : environment) (c : create_call) (w : world) (w' : world),
    (forall res, run_create E c w = (Ok res, w') ->
       exists text, run_create_tool E c w = (Ok text, w')) /\
    (forall e, run_create E c w = (Raise e, w') ->
       run_create_tool E c w = (Raise e, w')).
Proof.
  intros E c w w'. split.
  - intros res H. destruct c as [a | a]; simpl in *.
    + pose proof (create_lead_result _ _ _ _ _ H) as Hshape.
      unfold Leads.create_lead_tool, bind, lift, ret, dict_getitem. rewrite H.
      destruct Hshape as [(id & _ & Hs & Hid) | (msg & Hs & Hm)].
      * rewrite Hs. simpl. rewrite Hid. eauto.
      * rewrite Hs. simpl. rewrite Hm. eauto.
    + pose proof (create_opportunity_result _ _ _ _ _ H) as Hshape.
      unfold Opportunities.create_opportunity_tool, bind, lift, ret, dict_getitem. rewrite H.
      destruct Hshape as [(id & msg & Hs & Hm & Hid) | (msg & Hs & Hm)].
      * rewrite Hs. simpl. rewrite Hm, Hid.
        destruct (line_when_set_total (py_repr E) res "linked_account_id"
                    "Linked Account ID: ") as [l1 ->].
        destruct (line_when_set_total (py_repr E) res "linked_contact_id"
                    "Linked Contact ID: ") as [l2 ->].
        eauto.
      * rewrite Hs. simpl. rewrite Hm. eauto.
  - intros e H. destruct c as [a | a]; simpl in *;
      unfold Leads.create_lead_tool, Opportunities.create_opportunity_tool, bind;
      rewrite H; reflexivity.
Qed.

Lemma create_tool_follows_create_witness :
  exists text,
    run_create_tool crm_without_accounts
      (CreateOpportunity (sample_opportunity (Some "Short note"))) fresh_world =
    (Ok text,
     snd (run_create crm_without_accounts
            (CreateOpportunity (sample_opportunity (Some "Short note"))) fresh_world)).
Proof.
  eapply (proj1 (create_tool_follows_create crm_without_accounts
                   (CreateOpportunity (sample_opportunity (Some "Short note")))
                   fresh_world _)).
  reflexivity.
Defined.

Ltac split_option Hsend :=
  match type of Hsend with
  | sendable (opt_str ?x) => destruct x
  | sendable (opt_int ?x) => destruct x
  | sendable (opt_bool ?x) => destruct x
  end;
  destruct Hsend as [Hsend | [[? Hsend] | [? Hsend]]];
  simpl in Hsend; try discriminate;
  simpl; rewrite ?Hsend; reflexivity.

(** X12. Every optional argument of a create call that is given with a
    non-empty text, or with a number or a flag ([0] and [False] included),
    is in the body under its key, with the value given.  In [create_lead]
    an optional text given as the empty string is left out of the body like
    an absent one. *)
Theorem supplied_arguments_are_sent :
  forall (E : environment) (c : create_call) (acc con : value) (k : string) (v : value),
    (In (k, v) (optional_fields c) -> sendable v ->
       dict_find (create_body E c acc con) k = Some v) /\
    (forall a, c = CreateLead a -> In (k, PStr "") (optional_fields c) ->
       dict_find (create_body E c acc con) k = None).
Proof.
  intros E c acc con k v. split.
  - intros Hin Hsend. destruct c as [a | a]; simpl in Hin;
      repeat (destruct Hin as [Hin | Hin]; [injection Hin as <- <-; find_in_body;
                                            split_option Hsend |]);
      contradiction.
  - intros a -> Hin. simpl in Hin.
    repeat (destruct Hin as [Hin | Hin];
            [injection Hin as <- Hv; find_in_body;
             try rewrite Hv; try reflexivity;
             match type of Hv with
             | opt_int ?x = _ => destruct x; discriminate
             end |]);
      contradiction.
Qed.

Lemma supplied_arguments_are_sent_witness :
  dict_find (create_body crm_with_acme (CreateLead lead_with_details) PNone PNone)
    "xylos_gender" = Some (PInt 0) /\
  dict_find (create_body crm_with_acme (CreateLead lead_with_details) PNone PNone)
    "telephone1" = None.
Proof.
  split.
  - apply (proj1 (supplied_arguments_are_sent crm_with_acme (CreateLead lead_with_details)
                    PNone PNone "xylos_gender" (PInt 0))).
    + simpl. tauto.
    + right. left. eexists. reflexivity.
  - apply (proj2 (supplied_arguments_are_sent crm_with_acme (CreateLead lead_with_details)
                    PNone PNone "telephone1" PNone) lead_with_details eq_refl).
    simpl. tauto.
Defined.

(** X13. The required arguments are always in the body: [create_lead]
    sends [subject], [firstname], [lastname] and [companyname] as given;
    [create_opportunity] sends [name] and [description] as given, and under
    [xylos_contractverlenging] the optional argument of that name when it
    is given, the required [contract_verlengingen] otherwise. *)
Theorem required_arguments_are_sent :
  forall (E : environment) (acc con : value),
    (forall a k v,
        In (k, v) (required_fields (CreateLead a)) ->
        dict_find (create_body E (CreateLead a) acc con) k = Some v) /\
    (forall a,
        dict_find (create_body E (CreateOpportunity a) acc con) "name"
          = Some (PStr (Opportunities.name a)) /\
        dict_find (create_body E (CreateOpportunity a) acc con) "description"
          = Some (opt_str (Opportunities.description a)) /\
        dict_find (create_body E (CreateOpportunity a) acc con) "xylos_contractverlenging"
          = Some (PBool match Opportunities.xylos_contractverlenging a with
                        | Some flag => flag
                        | None => Opportunities.contract_verlengingen a
                        end)).
Proof.
  intros E acc con. split.
  - intros a k v Hin. simpl in Hin.
    repeat (destruct Hin as [Hin | Hin];
            [injection Hin as <- <-; find_in_body; reflexivity |]).
    contradiction.
  - intros a. repeat split; find_in_body; try reflexivity.
    destruct (Opportunities.xylos_contractverlenging a); reflexivity.
Qed.

Lemma required_arguments_are_sent_witness :
  dict_find (create_body crm_with_acme (CreateLead lead_with_details) PNone PNone)
    "companyname" = Some (PStr "Analytical Engines").
Proof.
  apply (proj1 (required_arguments_are_sent crm_with_acme PNone PNone) lead_with_details).
  simpl. tauto.
Defined.

Lemma re_search_group_skips :
  forall pre s, no_lparen pre = true -> re_search_group (pre ++ s) = re_search_group s.
Proof.
  induction pre as [| c pre IH]; intros s H; [reflexivity |].
  simpl in H. apply andb_prop in H. destruct H as [Hc Hpre].
  apply negb_true_iff in Hc.
  change (String c pre ++ s) with (String c (pre ++ s)).
  rewrite re_search_group_eq.
  assert (Hhere : match_here (String c (pre ++ s)) = None)
    by (simpl; rewrite Hc; reflexivity).
  rewrite Hhere. apply IH. exact Hpre.
Qed.

(** X15. The entity id of the standard form is read back exactly: when
    the text before the first "(" holds no other "(", and the GUID is not
    empty and holds no ")", the pattern of [api_post] yields the GUID,
    whatever follows the closing parenthesis. *)
Theorem entity_id_round_trip :
  forall (url guid rest : string),
    no_lparen url = true ->
    guid <> "" ->
    no_rparen guid = true ->
    re_search_group (url ++ "(" ++ guid ++ ")" ++ rest) = Some guid.
Proof.
  intros url guid rest Hurl Hne Hno.
  rewrite (re_search_group_skips url _ Hurl), re_search_group_eq.
  assert (Hhere : match_here ("(" ++ guid ++ ")" ++ rest) = Some guid).
  { apply match_here_group. exists rest. auto. }
  rewrite Hhere. reflexivity.
Qed.

Lemma entity_id_round_trip_witness :
  re_search_group
    ("https://xylos-sb.crm4.dynamics.com/api/data/v9.2/leads" ++ "(" ++
     "11111111-1111-1111-1111-111111111111" ++ ")" ++ "") =
    Some "11111111-1111-1111-1111-111111111111".
Proof.
  apply entity_id_round_trip; [reflexivity | discriminate | reflexivity].
Defined.

(* ================================================================== *)
(** * Reading and updating one opportunity *)
(* ================================================================== *)

Lemma api_patch_run :
  forall E endpoint data w hdrs w1,
    get_headers E w = (Ok hdrs, w1) ->
    api_patch E endpoint data w =
      (Ok match remote E (trace w1) (patch_request endpoint hdrs data) with
          | Answer r => (status_code r =? 204)%Z
          | NoAnswer => false
          end,
       log (Http (patch_request endpoint hdrs data)) w1).
Proof.
  intros E endpoint data w hdrs w1 Hh.
  unfold api_patch, try_except, bind. rewrite Hh.
  unfold requests_send. fold (patch_request endpoint hdrs data).
  destruct (remote E (trace w1) (patch_request endpoint hdrs data)); reflexivity.
Qed.

(** X16. [update_opportunity_tool] sends one PATCH to
    [opportunities(<id>)] whose body is the mapping of updates as the
    caller gave it, and it reports success exactly when the answer has
    status 204: any other status and a request that gets no answer both
    give the "Failed to update" text, never an exception. *)
Theorem update_passes_updates_through :
  forall (E : environment) (opportunity_id : string) (updates : pydict)
         (w : world) (hdrs : list (string * string)) (w1 : world),
    get_headers E w = (Ok hdrs, w1) ->
    (forall r,
        remote E (trace w1)
          (patch_request ("opportunities(" ++ opportunity_id ++ ")") hdrs updates)
          = Answer r ->
        status_code r = 204%Z ->
        OpportunityAccess.update_opportunity_tool E opportunity_id updates w =
          (Ok ("Opportunity '" ++ opportunity_id ++ "' updated successfully."),
           log (Http (patch_request ("opportunities(" ++ opportunity_id ++ ")") hdrs updates))
             w1))
    /\
    ((remote E (trace w1)
        (patch_request ("opportunities(" ++ opportunity_id ++ ")") hdrs updates) = NoAnswer \/
      exists r,
        remote E (trace w1)
          (patch_request ("opportunities(" ++ opportunity_id ++ ")") hdrs updates)
          = Answer r /\ status_code r <> 204%Z) ->
     OpportunityAccess.update_opportunity_tool E opportunity_id updates w =
       (Ok ("Failed to update opportunity '" ++ opportunity_id ++ "'."),
        log (Http (patch_request ("opportunities(" ++ opportunity_id ++ ")") hdrs updates))
          w1)).
Proof.
  intros E opportunity_id updates w hdrs w1 Hh.
  unfold OpportunityAccess.update_opportunity_tool, OpportunityAccess.update_opportunity.
  unfold bind. rewrite (api_patch_run _ _ _ _ _ _ Hh). unfold ret.
  split.
  - intros r Hans Hstatus. rewrite Hans, Hstatus. reflexivity.
  - intros [Hans | (r & Hans & Hstatus)]; rewrite Hans; [reflexivity |].
    apply Z.eqb_neq in Hstatus. rewrite Hstatus. reflexivity.
Qed.

Lemma update_passes_updates_through_witness :
  OpportunityAccess.update_opportunity_tool (always_status 204) "G-7"
    [("description", PStr "Revised")] fresh_world =
  (Ok "Opportunity 'G-7' updated successfully.",
   log (Http (patch_request "opportunities(G-7)"
                (bearer_headers sample_repr (PStr "TOKEN"))
                [("description", PStr "Revised")]))
     (log ClientCredentialsFlow fresh_world)).
Proof.
  exact (proj1 (update_passes_updates_through (always_status 204) "G-7"
                  [("description", PStr "Revised")] fresh_world _ _ eq_refl)
           _ eq_refl eq_refl).
Defined.

(** X17. [get_opportunity_tool] on the answer to its GET.  A failed call
    and a body that counts as false (an empty object, [null], [0], an
    empty list) both give the "not found" text.  A non-empty JSON object
    always gives a report, its missing fields shown as "N/A".  A body that
    counts as true and is no object (a non-empty list, a string, a number)
    makes [get_opportunity] raise [AttributeError]. *)
Theorem get_opportunity_tool_cases :
  forall (E : environment) (opportunity_id : string) (w : world)
         (hdrs : list (string * string)) (w1 : world),
    get_headers E w = (Ok hdrs, w1) ->
    let req := get_request ("opportunities(" ++ opportunity_id ++ ")") hdrs None in
    let body := got (remote E (trace w1) req) in
    (truthy body = false ->
       OpportunityAccess.get_opportunity_tool E opportunity_id w =
         (Ok ("Opportunity with ID '" ++ opportunity_id ++ "' not found"),
          log (Http req) w1)) /\
    (truthy body = true -> is_object body ->
       exists report,
         OpportunityAccess.get_opportunity_tool E opportunity_id w =
           (Ok report, log (Http req) w1)) /\
    (truthy body = true -> ~ is_object body ->
       OpportunityAccess.get_opportunity E opportunity_id w =
         (Raise AttributeError, log (Http req) w1) /\
       OpportunityAccess.get_opportunity_tool E opportunity_id w =
         (Raise AttributeError, log (Http req) w1)).
Proof.
  intros E opportunity_id w hdrs w1 Hh req body.
  unfold OpportunityAccess.get_opportunity_tool, OpportunityAccess.get_opportunity.
  unfold bind. rewrite (api_get_run _ _ _ _ _ _ Hh).
  fold req. fold body. unfold lift, ret.
  split; [| split].
  - intros Hfalse. rewrite Hfalse. simpl. rewrite Hfalse. reflexivity.
  - intros Htrue [d Hd]. rewrite Htrue, Hd. simpl.
    rewrite Hd in Htrue. simpl in Htrue. rewrite Htrue. simpl. eauto.
  - intros Htrue Hno. rewrite Htrue.
    split; (destruct body; try discriminate; try reflexivity;
            exfalso; apply Hno; eexists; reflexivity).
Qed.

Lemma get_opportunity_tool_cases_witness :
  OpportunityAccess.get_opportunity_tool (always_json (PDict [])) "G-7" fresh_world =
    (Ok "Opportunity with ID 'G-7' not found",
     log (Http (get_request "opportunities(G-7)"
                  (bearer_headers sample_repr (PStr "TOKEN")) None))
       (log ClientCredentialsFlow fresh_world)).
Proof.
  exact (proj1 (get_opportunity_tool_cases (always_json (PDict [])) "G-7"
                  fresh_world _ _ eq_refl) eq_refl).
Defined.

Lemma http_requests_reads :
  forall evs, Forall read_event evs -> Forall (fun r => req_method r = GET) (http_requests evs).
Proof.
  intros evs H. induction H as [| e evs He _ IH]; [constructor |].
  destruct e; simpl; auto.
Qed.

Lemma api_post_requests :
  forall E endpoint data id_field w hdrs w1,
    get_headers E w = (Ok hdrs, w1) ->
    exists tail,
      http_requests (trace (snd (api_post E endpoint data id_field w))) =
        (http_requests (trace w) ++ post_request endpoint hdrs data :: tail)%list /\
      Forall (fun r => req_method r = GET) tail.
Proof.
  intros E endpoint data id_field w hdrs w1 Hh.
  pose proof (get_headers_no_http _ _ _ _ Hh) as Hw1.
  assert (Hnone : forall v : value,
             exists tail,
               http_requests (trace (snd (Ok v, log (Http (post_request endpoint hdrs data)) w1)))
               = (http_requests (trace w) ++ post_request endpoint hdrs data :: tail)%list /\
               Forall (fun r => req_method r = GET) tail).
  { intros v. exists []. split; [| constructor].
    simpl snd. rewrite http_requests_log, Hw1. reflexivity. }
  destruct (remote E (trace w1) (post_request endpoint hdrs data)) as [resp |] eqn:Hans.
  - destruct (Z.eq_dec (status_code resp) 204) as [Hstatus | Hstatus].
    + destruct (re_search_group (entity_id_header resp)) as [guid |] eqn:Hguid.
      * rewrite (api_post_created _ _ _ _ _ _ _ _ _ Hh Hans Hstatus Hguid).
        destruct (get_custom_entity_id E endpoint guid id_field
                    (log (Http (post_request endpoint hdrs data)) w1))
          as [r w'] eqn:Hrun.
        assert (Hreads : reads_allowed read_event) by (repeat split; auto).
        destruct (emits_get_custom_entity_id read_event E endpoint guid id_field
                    Hreads _ _ _ Hrun) as (evs & Htrace & Hall).
        exists (http_requests evs). split; [| apply http_requests_reads; exact Hall].
        assert (Hsnd : trace (snd (match r with
                                   | Ok v => (Ok v, w')
                                   | Raise _ => (Ok PNone, w')
                                   end)) = trace w') by (destruct r; reflexivity).
        rewrite Hsnd, Htrace, http_requests_app, http_requests_log, Hw1, <- app_assoc.
        reflexivity.
      * rewrite (api_post_not_created _ _ _ _ _ _ _ Hh); [apply Hnone |].
        right. exists resp. auto.
    + rewrite (api_post_not_created _ _ _ _ _ _ _ Hh); [apply Hnone |].
      right. exists resp. auto.
  - rewrite (api_post_not_created _ _ _ _ _ _ _ Hh); [apply Hnone |]. left. exact Hans.
Qed.

(** X18. [create_lead] called without a parent account name and without a
    parent contact name (absent, or the empty string) makes no lookup: the
    first request it sends is the POST of the lead, with a body that holds
    neither binding, and whatever follows is the follow-up GET. *)
Theorem create_lead_without_names_posts_directly :
  forall (E : environment) (a : Leads.args) (w : world)
         (hdrs : list (string * string)) (w1 : world),
    String.length (Leads.subject a) <= 40 ->
    account_term (CreateLead a) = None ->
    contact_term (CreateLead a) = None ->
    get_headers E w = (Ok hdrs, w1) ->
    exists tail,
      http_requests (trace (snd (Leads.create_lead E a w))) =
        (http_requests (trace w) ++
         post_request "leads" hdrs (Leads.lead_data a PNone PNone) :: tail)%list /\
      Forall (fun r => req_method r = GET) tail /\
      dict_find (Leads.lead_data a PNone PNone) "_parentaccountid_value" = None /\
      dict_find (Leads.lead_data a PNone PNone) "_parentcontactid_value" = None.
Proof.
  intros E a w hdrs w1 Hlen Hacc Hcon Hh.
  assert (Hguard : (40 <? String.length (Leads.subject a))%nat = false)
    by (apply Nat.ltb_ge; exact Hlen).
  assert (Ha : when_given (Leads.parentaccountname a) (resolve_account E) = ret PNone).
  { unfold account_term in Hacc. unfold when_given.
    destruct (Leads.parentaccountname a) as [t |]; [| reflexivity].
    destruct (truthy (PStr t)); [discriminate | reflexivity]. }
  assert (Hc : when_given (Leads.parentcontactname a) (resolve_contact E) = ret PNone).
  { unfold contact_term in Hcon. unfold when_given.
    destruct (Leads.parentcontactname a) as [t |]; [| reflexivity].
    destruct (truthy (PStr t)); [discriminate | reflexivity]. }
  destruct (api_post_requests E "leads" (Leads.lead_data a PNone PNone)
              "xylos_leadidentifier" w hdrs w1 Hh) as (tail & Htrace & Hgets).
  exists tail. split; [| split; [exact Hgets |]].
  - unfold Leads.create_lead. rewrite Hguard, Ha, Hc. unfold bind, ret.
    destruct (api_post E "leads" (Leads.lead_data a PNone PNone) "xylos_leadidentifier" w)
      as [[id | e] w'] eqn:Hpost; simpl in Htrace |- *.
    + destruct (truthy id); exact Htrace.
    + exact Htrace.
  - split; find_in_body; reflexivity.
Qed.

Lemma create_lead_without_names_posts_directly_witness :
  exists tail,
    http_requests (trace (snd (Leads.create_lead crm_with_acme lead_with_details fresh_world))) =
      (post_request "leads" (bearer_headers sample_repr (PStr "TOKEN"))
         (Leads.lead_data lead_with_details PNone PNone) :: tail) /\
    Forall (fun r => req_method r = GET) tail.
Proof.
  destruct (create_lead_without_names_posts_directly crm_with_acme lead_with_details
              fresh_world _ _ ltac:(simpl; lia) eq_refl eq_refl eq_refl)
    as (tail & Htrace & Hgets & _).
  exists tail. split; [exact Htrace | exact Hgets].
Defined.

Lemma bind_assoc_at :
  forall {A B C} (c : M A) (f : A -> M B) (g : B -> M C) w,
    bind (bind c f) g w = bind c (fun x => bind (f x) g) w.
Proof.
  intros A B C c f g w. unfold bind. destruct (c w) as [[a | e] w']; reflexivity.
Qed.

(** X19. [create_opportunity] makes the account lookup first and always:
    once the description has passed the length check, the first request it
    sends is the account search on [account_search_term], also when that
    term is the empty string, in which case the filter is
    [contains(name, '')].  ([create_lead] skips the lookup for an empty
    name; [create_opportunity] does not.) *)
Theorem create_opportunity_always_looks_up :
  forall (E : environment) (a : Opportunities.args) (text : string) (w : world)
         (hdrs : list (string * string)) (w1 : world),
    Opportunities.description a = Some text ->
    String.length text <= 40 ->
    get_headers E w = (Ok hdrs, w1) ->
    exists tail,
      http_requests (trace (snd (Opportunities.create_opportunity E a w))) =
        (http_requests (trace w) ++
         lookup_query AccountLookup (Opportunities.account_search_term a) hdrs :: tail)%list.
Proof.
  intros E a text w hdrs w1 Hd Hlen Hh.
  assert (Hguard : (40 <? String.length text)%nat = false)
    by (apply Nat.ltb_ge; exact Hlen).
  unfold Opportunities.create_opportunity.
  unfold bind at 1. unfold lift. rewrite Hd. cbn [opt_str py_len]. rewrite Hguard.
  unfold resolve_account at 1. unfold Accounts.search_accounts at 1.
  rewrite !bind_assoc_at.
  match goal with
  | |- context [bind (api_get _ _ _) ?k] => set (rest := k)
  end.
  unfold bind. rewrite (api_get_run _ _ _ _ _ _ Hh).
  change (get_request "accounts" hdrs _)
    with (lookup_query AccountLookup (Opportunities.account_search_term a) hdrs).
  set (q := lookup_query AccountLookup (Opportunities.account_search_term a) hdrs).
  assert (Hrest : forall x, emits (posts_satisfy (fun _ => True)) (rest x)).
  { intros x. subst rest. cbv beta.
    repeat first [ apply emits_resolve_contact, reads_allowed_posts
                 | apply emits_api_post; exact I
                 | emits_step ]. }
  destruct (rest (got (remote E (trace w1) q)) (log (Http q) w1)) as [r w'] eqn:Hrun.
  destruct (Hrest _ _ _ _ Hrun) as (evs & Htrace & _).
  exists (http_requests evs). simpl snd.
  rewrite Htrace, http_requests_app, http_requests_log,
    (get_headers_no_http _ _ _ _ Hh), <- app_assoc.
  reflexivity.
Qed.

Lemma create_opportunity_always_looks_up_witness :
  exists tail,
    http_requests (trace (snd (Opportunities.create_opportunity crm_without_accounts
                                 (sample_opportunity (Some "")) fresh_world))) =
      lookup_query AccountLookup "Acme" (bearer_headers sample_repr (PStr "TOKEN")) :: tail.
Proof.
  exact (create_opportunity_always_looks_up crm_without_accounts
           (sample_opportunity (Some "")) "" fresh_world _ _
           eq_refl ltac:(simpl; lia) eq_refl).
Defined.

(* ================================================================== *)
(** * Further properties of the reports *)
(* ================================================================== *)

Lemma account_line_lists :
  forall repr d line,
    Accounts.account_line repr d = Ok line -> lists_record AccountLookup repr d line.
Proof.
  intros repr d line H. unfold Accounts.account_line, rbind, dict_getitem in H.
  destruct (info_when_set repr d "email" " |") as [e |]; [| discriminate].
  destruct (info_when_set repr d "phone" " | ") as [p |]; [| discriminate].
  destruct (dict_find d "name") as [name |] eqn:Hn; [| discriminate].
  destruct (dict_find d "account_id") as [id |] eqn:Hi; [| discriminate].
  injection H as <-. exists name, id. eexists.
  split; [exact Hn |]. split; [exact Hi | reflexivity].
Qed.

Lemma contact_line_lists :
  forall repr d line,
    Contacts.contact_line repr d = Ok line -> lists_record ContactLookup repr d line.
Proof.
  intros repr d line H. unfold Contacts.contact_line, rbind, dict_getitem in H.
  destruct (info_when_set repr d "email" " | ") as [e |]; [| discriminate].
  destruct (info_when_set repr d "phone" " | ") as [p |]; [| discriminate].
  destruct (info_when_set repr d "job_title" " | ") as [j |]; [| discriminate].
  destruct (dict_find d "fullname") as [name |] eqn:Hn; [| discriminate].
  destruct (dict_find d "contact_id") as [id |] eqn:Hi; [| discriminate].
  injection H as <-. exists name, id. eexists.
  split; [exact Hn |]. split; [exact Hi | reflexivity].
Qed.

(** X20. Whenever the formatter of a name search returns a report for a
    non-empty list, the report is the header "Found <n> accounts:" (or
    "contacts") followed by exactly one line per record, in the order of
    the list, and each line starts with the bullet, the name of its record
    and its id. *)
Theorem name_report_lists_every_record :
  forall (k : lookup_kind) (repr : value -> string) (l : list pydict) (report : string),
    l <> [] ->
    name_report k repr l = Ok report ->
    exists lines,
      report = join nl (("Found " ++ str_of_nat (List.length l) ++ " " ++ entity_set k ++ ":")
                        :: lines) /\
      Forall2 (lists_record k repr) l lines.
Proof.
  intros k repr l report Hne H.
  destruct l as [| d rest]; [contradiction |].
  destruct k; unfold name_report, Accounts.format_accounts_output,
                Contacts.format_contacts_output in H.
  - destruct (for_each (Accounts.account_line repr) (d :: rest)) as [lines |] eqn:Hlines;
      [| discriminate].
    simpl rbind in H. injection H as <-. exists lines. split; [reflexivity |].
    apply for_each_inv in Hlines.
    eapply Forall2_impl; [| exact Hlines]. intros x y. apply account_line_lists.
  - destruct (for_each (Contacts.contact_line repr) (d :: rest)) as [lines |] eqn:Hlines;
      [| discriminate].
    simpl rbind in H. injection H as <-. exists lines. split; [reflexivity |].
    apply for_each_inv in Hlines.
    eapply Forall2_impl; [| exact Hlines]. intros x y. apply contact_line_lists.
Qed.

Lemma name_report_lists_every_record_witness :
  exists lines,
    List.length lines = 2 /\
    name_report AccountLookup sample_repr
      [[("account_id", PStr "A-1"); ("name", PStr "Acme Corp")];
       [("account_id", PStr "A-2"); ("name", PStr "Acme Labs")]] =
    Ok (join nl ("Found 2 accounts:" :: lines)).
Proof.
  destruct (name_report_lists_every_record AccountLookup sample_repr
              [[("account_id", PStr "A-1"); ("name", PStr "Acme Corp")];
               [("account_id", PStr "A-2"); ("name", PStr "Acme Labs")]]
              _ ltac:(discriminate) eq_refl) as (lines & Hreport & Hall).
  exists lines. split.
  - symmetry. exact (Forall2_length Hall).
  - etransitivity; [| apply f_equal; exact Hreport]. reflexivity.
Defined.

Lemma lead_lines_lists :
  forall repr d pair, Leads.lead_lines repr d = Ok pair -> lists_lead repr d pair.
Proof.
  intros repr d pair H. unfold Leads.lead_lines, rbind, dict_getitem in H.
  destruct (info_when_set repr d "email" " | ") as [e |]; [| discriminate].
  destruct (info_when_set repr d "phone" " | ") as [p |]; [| discriminate].
  destruct (info_when_set repr d "company_name" " | ") as [c |]; [| discriminate].
  destruct (dict_find d "subject") as [subject |] eqn:Hs; [| discriminate].
  destruct (dict_find d "full_name") as [full_name |] eqn:Hf; [| discriminate].
  destruct (dict_find d "lead_id") as [id |] eqn:Hi; [| discriminate].
  injection H as <-. exists subject, full_name, id. eexists.
  repeat split; auto.
Qed.

(** X21. Whenever [format_leads_output] returns a report for a non-empty
    list, the report is the header "Found <n> leads:" followed by exactly
    two lines per lead, in the order of the list: the bullet line with the
    subject and the full name, then the line "    ID: <lead id>". *)
Theorem lead_report_two_lines_per_lead :
  forall (repr : value -> string) (leads : list pydict) (report : string),
    leads <> [] ->
    Leads.format_leads_output repr leads = Ok report ->
    exists pairs,
      report = join nl (("Found " ++ str_of_nat (List.length leads) ++ " leads:")
                        :: concat pairs) /\
      Forall2 (lists_lead repr) leads pairs /\
      List.length (concat pairs) = 2 * List.length leads.
Proof.
  intros repr leads report Hne H.
  destruct leads as [| d rest]; [contradiction |].
  unfold Leads.format_leads_output in H.
  destruct (for_each (Leads.lead_lines repr) (d :: rest)) as [pairs |] eqn:Hpairs;
    [| discriminate].
  simpl rbind in H. injection H as <-. exists pairs.
  apply for_each_inv in Hpairs.
  assert (Hall : Forall2 (lists_lead repr) (d :: rest) pairs).
  { eapply Forall2_impl; [| exact Hpairs]. intros x y. apply lead_lines_lists. }
  split; [reflexivity |]. split; [exact Hall |].
  clear Hpairs Hne. induction Hall as [| x pair xs ps Hx _ IH]; [reflexivity |].
  destruct Hx as (s & f & i & det & _ & _ & _ & ->).
  simpl concat. simpl List.length. rewrite IH. simpl. lia.
Qed.

Lemma lead_report_two_lines_per_lead_witness :
  exists pairs,
    List.length (concat pairs) = 2 /\
    Leads.format_leads_output sample_repr
      [[("lead_id", PStr "L-1"); ("subject", PStr "Migration");
        ("full_name", PStr "Ada Lovelace")]] =
    Ok (join nl ("Found 1 leads:" :: concat pairs)).
Proof.
  destruct (lead_report_two_lines_per_lead sample_repr
              [[("lead_id", PStr "L-1"); ("subject", PStr "Migration");
                ("full_name", PStr "Ada Lovelace")]]
              _ ltac:(discriminate) eq_refl) as (pairs & Hreport & _ & Hlen).
  exists pairs. split; [exact Hlen |].
  etransitivity; [| apply f_equal; exact Hreport]. reflexivity.
Defined.
